(** * Transaction-Management-System: the ledger routes, verified

    A shallow embedding of the Express route handlers of
    [routes/accounts.js] (deposit, withdraw, transfer) and of
    [routes/users.js] (register), over an explicit model of the Mongoose
    collections they read and write.

    - A JavaScript [Number] is an IEEE 754 binary64 value: Rocq's primitive
      [float], whose operations the kernel evaluates and whose meaning
      [FloatAxioms] gives in terms of [SpecFloat].  [+=], [-=] and [<] on a
      balance are binary64 addition, subtraction and comparison.
    - A Mongoose document returned by [findOne] is a private copy of the
      stored record; [save] writes the assigned [balance] back under the
      document's [_id] if the assignment changed it, and nothing otherwise.
      Two [findOne] of one record give two documents.
    - [req.body.amount] is used as it was sent.  The handlers are given
      first for an amount that is a JSON number ([Request]), then, in
      [Sent], for a body whose amount is a JSON number or a JSON string.
    - Every call to the store may throw (lost connection, cast or
      validation error).  The [faults] of a [World] say, call by call,
      which ones do; the handlers' [try]/[catch] turns a throw into
      [serverErrorRes].
    - Requests are served one at a time: a handler runs from its first
      store call to its response on a world nobody else touches. *)

From stdpp Require Import gmap list strings.
From Stdlib Require Import ZArith Lia Floats DecimalString.

Set Warnings "-inexact-float".

(* ===================================================================== *)
(** ** Data model *)
(* ===================================================================== *)

(** A Mongo [ObjectId] (12 bytes), by its value. *)
Definition ObjectId := N.

(** JavaScript's [Number]. *)
Definition Number := float.

Module Account.
(** Modelled from the spec: [models/account.js] is not among the sources.
    Section 3 gives an Account an id, the owner's [userId] and a numeric
    [balance]; section 6 opens it with balance 0. *)
Record t := mk { _id : ObjectId; userId : ObjectId; balance : Number }.

(** [account.balance = v] on a document. *)
Definition set_balance (v : Number) (a : t) : t :=
  {| _id := _id a; userId := userId a; balance := v |}.

(** The filter of [Account.findOne]: [{ _id, userId }] or [{ _id }]. *)
Record filter := by_ { f_id : ObjectId; f_userId : option ObjectId }.

(** Does a record satisfy the filter ([_id] is indexed: the collection is
    keyed by it). *)
Definition matches (q : filter) (a : t) : bool :=
  bool_decide (_id a = f_id q) &&
  match f_userId q with
  | Some u => bool_decide (userId a = u)
  | None => true
  end.
End Account.

(** [models/transaction.js]: the [enum] of [type]. *)
Inductive TransactionType := deposit | withdrawal | transfer.

Module Transaction.
(** [transactionSchema]: the fields a route sets.  [timestamp],
    [description] and Mongoose's [createdAt]/[updatedAt] are filled in by
    the store and read by no route modelled here. *)
Record t := mk {
  userId : ObjectId;
  accountId : ObjectId;
  type : TransactionType;
  amount : Number
}.
End Transaction.

Module User.
(** Modelled from the spec: [models/user.js] is not among the sources.
    Section 3: a User has a username, a unique email and a hashed
    credential. *)
Record t := mk { username : string; email : string; hashedPassword : string }.
End User.

(** The collections, and the outcome of the store calls still to come:
    [true] makes the next call throw, [false] lets it through, and once the
    list is used up every call goes through. *)
Record World := mkWorld {
  accounts : gmap ObjectId Account.t;
  transactions : list Transaction.t;
  users : list User.t;
  faults : list bool
}.

Definition set_accounts (m : gmap ObjectId Account.t) (w : World) : World :=
  {| accounts := m; transactions := transactions w; users := users w; faults := faults w |}.
Definition set_transactions (l : list Transaction.t) (w : World) : World :=
  {| accounts := accounts w; transactions := l; users := users w; faults := faults w |}.
Definition set_users (l : list User.t) (w : World) : World :=
  {| accounts := accounts w; transactions := transactions w; users := l; faults := faults w |}.
Definition set_faults (l : list bool) (w : World) : World :=
  {| accounts := accounts w; transactions := transactions w; users := users w; faults := l |}.

(* ===================================================================== *)
(** ** Responses *)
(* ===================================================================== *)

(** What a handler hands to a response helper. *)
Inductive Body :=
  | AccountDoc (a : Account.t)
  | TransferDocs (sender receiver : Account.t)
  | Message (message : string)
  | ValidationErrors
  | Registered (message username : string).

(** Modelled from the spec: [util/response.js] is not among the sources.
    The helpers a route imports from it, one constructor each; section 7
    gives their status codes. *)
Inductive Response :=
  | successRes (b : Body)
  | clientErrorRes (b : Body)
  | unauthorizedRes (b : Body)
  | notFoundRes (b : Body)
  | conflictErrorRes (b : Body)
  | serverErrorRes (b : Body).

Definition status (r : Response) : nat :=
  match r with
  | successRes _ => 200
  | clientErrorRes _ => 400
  | unauthorizedRes _ => 401
  | notFoundRes _ => 404
  | conflictErrorRes _ => 409
  | serverErrorRes _ => 500
  end.

(* ===================================================================== *)
(** ** The monad of a handler body: state and exceptions *)
(* ===================================================================== *)

Inductive Exn :=
  | StoreError
  | ValidationError
  | ReferenceError (name : string).

Inductive Completion (A : Type) :=
  | Normal (a : A)
  | Throw (e : Exn).
Arguments Normal {A} a.
Arguments Throw {A} e.

Definition M (A : Type) := World -> Completion A * World.

Definition ret {A} (a : A) : M A := fun w => (Normal a, w).
Definition throw {A} (e : Exn) : M A := fun w => (Throw e, w).
Definition bind {A B} (m : M A) (k : A -> M B) : M B :=
  fun w =>
    match m w with
    | (Normal a, w') => k a w'
    | (Throw e, w') => (Throw e, w')
    end.

Declare Scope js_scope.
Delimit Scope js_scope with js.
Notation "'let!' x := m 'in' k" := (bind m (fun x => k))
  (at level 10, x name, m at level 100, k at level 200, only parsing) : js_scope.
Notation "'await' m ; k" := (bind m (fun _ => k))
  (at level 10, m at level 100, k at level 200, only parsing) : js_scope.

(** [try { body } catch (error) { console.error(error); handler }]. *)
Definition try_catch (body : M Response) (handler : Exn -> Response) (w : World)
  : Response * World :=
  match body w with
  | (Normal r, w') => (r, w')
  | (Throw e, w') => (handler e, w')
  end.

(** The world once the next store call has been answered. *)
Definition tick (w : World) : World := set_faults (tail (faults w)) w.

(** One round trip to the store. *)
Definition store_call : M unit :=
  fun w =>
    match faults w with
    | true :: _ => (Throw StoreError, tick w)
    | _ => (Normal tt, tick w)
    end.

(** The next [n] store calls go through. *)
Definition calls_ok (n : nat) (w : World) : bool :=
  forallb negb (take n (faults w)).

Definition get_world : M World := fun w => (Normal w, w).
Definition modify_world (f : World -> World) : M unit := fun w => (Normal tt, f w).

Local Open Scope js_scope.

(* ===================================================================== *)
(** ** The Mongoose models *)
(* ===================================================================== *)

(** What [findOne(q)] finds in the collection: the record with that [_id],
    if it satisfies the rest of the filter. *)
Definition found (q : Account.filter) (w : World) : option Account.t :=
  match accounts w !! Account.f_id q with
  | Some a => if Account.matches q a then Some a else None
  | None => None
  end.

(** [Account.findOne(q)]: one round trip, and the record found comes back
    as a fresh document. *)
Definition Account_findOne (q : Account.filter) : M (option Account.t) :=
  await store_call;
  let! w := get_world in
  ret (found q w).

(** [account.save()] on a document that was loaded as [loaded] and then had
    its [balance] assigned, which made it [doc].  Mongoose marks a path as
    modified when the value assigned is not [===] the one the document
    held, and [save] sends the modified paths only.  So when the balance
    was changed, the stored record's [balance] is set and its other fields
    stay; when it was not, nothing is written, the call only asks the
    store for the record.  Either way, saving a document whose record is
    gone throws. *)
Definition Account_save (loaded doc : Account.t) : M unit :=
  await store_call;
  let! w := get_world in
  match accounts w !! Account._id doc with
  | Some stored =>
      if (Account.balance doc =? Account.balance loaded)%float then ret tt
      else
        modify_world
          (set_accounts (<[Account._id doc := Account.set_balance (Account.balance doc) stored]> (accounts w)))
  | None => throw StoreError
  end.

(** [new Transaction({...}).save()]: one more record in the collection. *)
Definition Transaction_save (t : Transaction.t) : M unit :=
  await store_call;
  modify_world (fun w => set_transactions (transactions w ++ [t]) w).

(** [User.findOne({ email })]. *)
Definition User_findOne_email (e : string) : M (option User.t) :=
  await store_call;
  let! w := get_world in
  ret (List.find (fun u => bool_decide (User.email u = e)) (users w)).

(** [new User({...}).save()]. *)
Definition User_save (u : User.t) : M unit :=
  await store_call;
  modify_world (fun w => set_users (users w ++ [u]) w).

(* ===================================================================== *)
(** ** routes/accounts.js *)
(* ===================================================================== *)

(** Modelled from the spec: express-validator is not among the sources.
    [body('amount').isNumeric()...isFloat({ gt: 0 })] accepts what section
    4.1 calls a finite number > 0. *)
Definition amount_valid (amount : Number) : bool :=
  (0 <? amount)%float && (amount <? infinity)%float.

(** The request of the three money routes, after [authenticateToken]:
    [req.user.userId], [req.params.accountId] and [req.body].  The ids are
    ObjectIds: [isMongoId] has checked [accountId], and a
    [receiverAccountId] that is no ObjectId makes [findOne] throw, which is
    a run whose second store call fails.  [amount] is a JSON number here;
    [Sent.Request], further down, has the amount as it was sent. *)
Record Request := mkRequest {
  user_userId : ObjectId;
  params_accountId : ObjectId;
  body_receiverAccountId : ObjectId;
  body_amount : Number
}.

Definition internal_error (_ : Exn) : Response :=
  serverErrorRes (Message "Internal server error").

(** [router.post('/:accountId/deposit', ...)]. *)
Definition post_deposit (req : Request) : World -> Response * World :=
  try_catch
    (if negb (amount_valid (body_amount req)) then ret (clientErrorRes ValidationErrors)
     else
       let userId := user_userId req in
       let accountId := params_accountId req in
       let amount := body_amount req in
       let! account := Account_findOne (Account.by_ accountId (Some userId)) in
       match account with
       | None => ret (notFoundRes (Message "Account not found"))
       | Some loaded =>
           let account := Account.set_balance (Account.balance loaded + amount)%float loaded in
           await Account_save loaded account;
           let transaction :=
             Transaction.mk userId (Account._id account) deposit amount in
           await Transaction_save transaction;
           ret (successRes (AccountDoc account))
       end)
    internal_error.

(** [router.post('/:accountId/withdraw', ...)]. *)
Definition post_withdraw (req : Request) : World -> Response * World :=
  try_catch
    (if negb (amount_valid (body_amount req)) then ret (clientErrorRes ValidationErrors)
     else
       let userId := user_userId req in
       let accountId := params_accountId req in
       let amount := body_amount req in
       let! account := Account_findOne (Account.by_ accountId (Some userId)) in
       match account with
       | None => ret (notFoundRes (Message "Account not found"))
       | Some loaded =>
           if (Account.balance loaded <? amount)%float
           then ret (clientErrorRes (Message "Insufficient funds"))
           else
             let account := Account.set_balance (Account.balance loaded - amount)%float loaded in
             await Account_save loaded account;
             let transaction :=
               Transaction.mk userId (Account._id account) withdrawal amount in
             await Transaction_save transaction;
             ret (successRes (AccountDoc account))
       end)
    internal_error.

(** [router.post('/:accountId/transfer', ...)]. *)
Definition post_transfer (req : Request) : World -> Response * World :=
  try_catch
    (if negb (amount_valid (body_amount req)) then ret (clientErrorRes ValidationErrors)
     else
       let userId := user_userId req in
       let accountId := params_accountId req in
       let receiverAccountId := body_receiverAccountId req in
       let amount := body_amount req in
       let! senderAccount := Account_findOne (Account.by_ accountId (Some userId)) in
       let! receiverAccount := Account_findOne (Account.by_ receiverAccountId None) in
       match senderAccount with
       | None => ret (notFoundRes (Message "Sender account not found"))
       | Some senderLoaded =>
           match receiverAccount with
           | None => ret (notFoundRes (Message "Receiver account not found"))
           | Some receiverLoaded =>
               if (Account.balance senderLoaded <? amount)%float
               then ret (clientErrorRes (Message "Insufficient funds"))
               else
                 let senderAccount :=
                   Account.set_balance (Account.balance senderLoaded - amount)%float senderLoaded in
                 let receiverAccount :=
                   Account.set_balance (Account.balance receiverLoaded + amount)%float receiverLoaded in
                 await Account_save senderLoaded senderAccount;
                 await Account_save receiverLoaded receiverAccount;
                 let senderTransaction :=
                   Transaction.mk userId (Account._id senderAccount) transfer (- amount)%float in
                 await Transaction_save senderTransaction;
                 let receiverTransaction :=
                   Transaction.mk (Account.userId receiverAccount) (Account._id receiverAccount)
                     transfer amount in
                 await Transaction_save receiverTransaction;
                 ret (successRes (TransferDocs senderAccount receiverAccount))
           end
       end)
    internal_error.

(* ===================================================================== *)
(** ** routes/users.js *)
(* ===================================================================== *)

(** [req.body] of [POST /users/register]. *)
Record RegisterRequest := mkRegister { body_email : string; body_password : string }.

(** [email.split('@')[0]]: what stands before the first [@] (code 64). *)
Fixpoint split_at_0 (s : string) : string :=
  match s with
  | EmptyString => EmptyString
  | String c rest => if Ascii.eqb c (Ascii.ascii_of_nat 64) then EmptyString else String c (split_at_0 rest)
  end.

(** [createdRes] is neither declared in [routes/users.js] nor among the
    names it takes from [../util/response] ([successRes],
    [unauthorizedRes], [clientErrorRes], [conflictErrorRes],
    [serverErrorRes]): evaluating the identifier throws. *)
Definition createdRes (_ : Body) : M Response := throw (ReferenceError "createdRes").

Section Register.
(** validator.js's [isEmail] and bcrypt's [hash], from outside the
    repository. *)
Variable isEmail : string -> bool.
Variable bcrypt_hash : string -> nat -> string.

(** [validateRegistration]. *)
Definition registration_valid (req : RegisterRequest) : bool :=
  isEmail (body_email req) && (6 <=? String.length (body_password req))%nat.

(** [router.post('/register', ...)].  [randomSuffix] is the value of
    [Math.floor(100 + Math.random() * 900)] in this run. *)
Definition post_register (randomSuffix : N) (req : RegisterRequest)
  : World -> Response * World :=
  try_catch
    (if negb (registration_valid req) then ret (clientErrorRes ValidationErrors)
     else
       let! existingUser := User_findOne_email (body_email req) in
       match existingUser with
       | Some _ => ret (conflictErrorRes (Message "Email already exists"))
       | None =>
           let username :=
             String.append (split_at_0 (body_email req))
               (NilZero.string_of_uint (N.to_uint randomSuffix)) in
           let hashedPassword := bcrypt_hash (body_password req) 10 in
           let newUser := User.mk username (body_email req) hashedPassword in
           await User_save newUser;
           createdRes (Registered "User registered successfully" username)
       end)
    internal_error.
End Register.

(* ===================================================================== *)
(** ** Sequences of ledger operations *)
(* ===================================================================== *)

Inductive Op :=
  | Deposit (req : Request)
  | Withdraw (req : Request)
  | Transfer (req : Request).

Definition run_op (op : Op) : World -> Response * World :=
  match op with
  | Deposit req => post_deposit req
  | Withdraw req => post_withdraw req
  | Transfer req => post_transfer req
  end.

(** The requests are served one after the other, each on the world the
    previous one left. *)
Fixpoint run_ops (ops : list Op) (w : World) : list Response * World :=
  match ops with
  | [] => ([], w)
  | op :: ops' =>
      let (r, w1) := run_op op w in
      let (rs, w2) := run_ops ops' w1 in
      (r :: rs, w2)
  end.

(** The balance stored under an id. *)
Definition balance_of (i : ObjectId) (w : World) : option Number :=
  Account.balance <$> accounts w !! i.

(* ===================================================================== *)
(** ** routes/accounts.js, on the body as it was sent *)
(* ===================================================================== *)

Module Sent.

(** [req.body.amount] as [express.json()] parsed it.  The validators of
    the money routes check the value and leave it as it is (their chain
    has no [toFloat()]), and the handlers convert nothing: they compute
    with what the client sent, a JSON number or a JSON string.  (The other
    JSON values, arrays, objects, booleans and null, are not modelled.) *)
Inductive Value :=
  | VNumber (x : Number)
  | VString (s : string).

(** JavaScript and validator.js, from outside the repository:
    [String(x)], the decimal string of a Number, which is what [+] joins
    to a String; [Number(s)], the Number a String stands for, NaN if it is
    no numeric literal; and the verdict of [isNumeric()] and
    [isFloat({ gt: 0 })] on a String. *)
Record Runtime := mkRuntime {
  js_String : Number -> string;
  js_Number : string -> Number;
  isNumeric_isFloat_gt0 : string -> bool
}.

(** The request of the three money routes, after [authenticateToken]. *)
Record Request := mkRequest {
  user_userId : ObjectId;
  params_accountId : ObjectId;
  body_receiverAccountId : ObjectId;
  body_amount : Value
}.

Section Handlers.
Variable js : Runtime.

(** [body('amount').isNumeric()...isFloat({ gt: 0 })]: on a Number,
    [amount_valid]; on a String, validator.js's verdict. *)
Definition valid (v : Value) : bool :=
  match v with
  | VNumber x => amount_valid x
  | VString s => isNumeric_isFloat_gt0 js s
  end.

(** [Number(v)]: what [<], [-] and unary [-] make of an operand. *)
Definition ToNumber (v : Value) : Number :=
  match v with
  | VNumber x => x
  | VString s => js_Number js s
  end.

(** Mongoose's cast to a [Number] path of a Number that came out of a
    String: NaN is refused. *)
Definition castNumber (y : Number) : option Number :=
  if is_nan y then None else Some y.

(** What [doc.balance += v] assigns: the sum with a Number; with a String,
    [+] joins the decimal string of the balance and the String, and
    Mongoose casts the result back to a Number, or refuses it.  (A stored
    balance is never NaN, the cast refusing NaN and an account starting at
    0; a Number amount is finite by validation; so their sum is a Number,
    and it is set as computed.) *)
Definition plus (balance : Number) (v : Value) : option Number :=
  match v with
  | VNumber x => Some (balance + x)%float
  | VString s => castNumber (js_Number js (String.append (js_String js balance) s))
  end.

(** What [doc.balance -= v] assigns: [-] turns its operand into a Number. *)
Definition minus (balance : Number) (v : Value) : option Number :=
  match v with
  | VNumber x => Some (balance - x)%float
  | VString s => castNumber (balance - js_Number js s)%float
  end.

(** [balance < v]. *)
Definition less (balance : Number) (v : Value) : bool :=
  (balance <? ToNumber v)%float.

(** [amount] and [-amount] as Mongoose casts them for [Transaction.amount]. *)
Definition cast (v : Value) : option Number :=
  match v with
  | VNumber x => Some x
  | VString s => castNumber (js_Number js s)
  end.
Definition negated (v : Value) : option Number :=
  match v with
  | VNumber x => Some (- x)%float
  | VString s => castNumber (- js_Number js s)%float
  end.

(** A document after [doc.balance = ...]: with the value set, or, when the
    cast refused it, with the balance it had and marked invalid ([false]). *)
Definition assign (value : option Number) (doc : Account.t) : Account.t * bool :=
  match value with
  | Some y => (Account.set_balance y doc, true)
  | None => (doc, false)
  end.

(** [doc.save()]: validation comes first and throws for a document marked
    invalid, before any call to the store. *)
Definition save (loaded : Account.t) (doc : Account.t * bool) : M unit :=
  if snd doc then Account_save loaded (fst doc) else throw ValidationError.

(** [new Transaction({ userId, accountId, type, amount })] and its
    [save()]: [amount] is required, a refused cast makes the record
    invalid. *)
Definition Transaction_new_save (userId accountId : ObjectId) (type : TransactionType)
    (amount : option Number) : M unit :=
  match amount with
  | Some y => Transaction_save (Transaction.mk userId accountId type y)
  | None => throw ValidationError
  end.

(** [router.post('/:accountId/deposit', ...)]. *)
Definition post_deposit (req : Request) : World -> Response * World :=
  try_catch
    (if negb (valid (body_amount req)) then ret (clientErrorRes ValidationErrors)
     else
       let userId := user_userId req in
       let accountId := params_accountId req in
       let amount := body_amount req in
       let! account := Account_findOne (Account.by_ accountId (Some userId)) in
       match account with
       | None => ret (notFoundRes (Message "Account not found"))
       | Some loaded =>
           let account := assign (plus (Account.balance loaded) amount) loaded in
           await save loaded account;
           await Transaction_new_save userId (Account._id (fst account)) deposit (cast amount);
           ret (successRes (AccountDoc (fst account)))
       end)
    internal_error.

(** [router.post('/:accountId/withdraw', ...)]. *)
Definition post_withdraw (req : Request) : World -> Response * World :=
  try_catch
    (if negb (valid (body_amount req)) then ret (clientErrorRes ValidationErrors)
     else
       let userId := user_userId req in
       let accountId := params_accountId req in
       let amount := body_amount req in
       let! account := Account_findOne (Account.by_ accountId (Some userId)) in
       match account with
       | None => ret (notFoundRes (Message "Account not found"))
       | Some loaded =>
           if less (Account.balance loaded) amount
           then ret (clientErrorRes (Message "Insufficient funds"))
           else
             let account := assign (minus (Account.balance loaded) amount) loaded in
             await save loaded account;
             await Transaction_new_save userId (Account._id (fst account)) withdrawal (cast amount);
             ret (successRes (AccountDoc (fst account)))
       end)
    internal_error.

(** [router.post('/:accountId/transfer', ...)]. *)
Definition post_transfer (req : Request) : World -> Response * World :=
  try_catch
    (if negb (valid (body_amount req)) then ret (clientErrorRes ValidationErrors)
     else
       let userId := user_userId req in
       let accountId := params_accountId req in
       let receiverAccountId := body_receiverAccountId req in
       let amount := body_amount req in
       let! senderAccount := Account_findOne (Account.by_ accountId (Some userId)) in
       let! receiverAccount := Account_findOne (Account.by_ receiverAccountId None) in
       match senderAccount with
       | None => ret (notFoundRes (Message "Sender account not found"))
       | Some senderLoaded =>
           match receiverAccount with
           | None => ret (notFoundRes (Message "Receiver account not found"))
           | Some receiverLoaded =>
               if less (Account.balance senderLoaded) amount
               then ret (clientErrorRes (Message "Insufficient funds"))
               else
                 let senderAccount :=
                   assign (minus (Account.balance senderLoaded) amount) senderLoaded in
                 let receiverAccount :=
                   assign (plus (Account.balance receiverLoaded) amount) receiverLoaded in
                 await save senderLoaded senderAccount;
                 await save receiverLoaded receiverAccount;
                 await Transaction_new_save userId (Account._id (fst senderAccount)) transfer
                         (negated amount);
                 await Transaction_new_save (Account.userId (fst receiverAccount))
                         (Account._id (fst receiverAccount)) transfer (cast amount);
                 ret (successRes (TransferDocs (fst senderAccount) (fst receiverAccount)))
           end
       end)
    internal_error.

End Handlers.

Inductive Op :=
  | Deposit (req : Request)
  | Withdraw (req : Request)
  | Transfer (req : Request).

Definition run_op (js : Runtime) (op : Op) : World -> Response * World :=
  match op with
  | Deposit req => post_deposit js req
  | Withdraw req => post_withdraw js req
  | Transfer req => post_transfer js req
  end.

(** The requests are served one after the other. *)
Fixpoint run_ops (js : Runtime) (ops : list Op) (w : World) : list Response * World :=
  match ops with
  | [] => ([], w)
  | op :: ops' =>
      let (r, w1) := run_op js op w in
      let (rs, w2) := run_ops js ops' w1 in
      (r :: rs, w2)
  end.

(** The user a request is made by, and the amount it carries. *)
Definition op_user (op : Op) : ObjectId :=
  match op with
  | Deposit req | Withdraw req | Transfer req => user_userId req
  end.
Definition op_amount (op : Op) : Value :=
  match op with
  | Deposit req | Withdraw req | Transfer req => body_amount req
  end.

End Sent.

(** A [Request] is the request whose amount was sent as a JSON number. *)
Definition sent (req : Request) : Sent.Request :=
  Sent.mkRequest (user_userId req) (params_accountId req) (body_receiverAccountId req)
    (Sent.VNumber (body_amount req)).

Definition sent_op (op : Op) : Sent.Op :=
  match op with
  | Deposit req => Sent.Deposit (sent req)
  | Withdraw req => Sent.Withdraw (sent req)
  | Transfer req => Sent.Transfer (sent req)
  end.

(* ===================================================================== *)
(** ** The value of a Number *)
(* ===================================================================== *)

(** Every finite binary64 value is a whole multiple of 2^-1074, the least
    positive one.  [exact x] is [x] counted in that unit; infinities and NaN
    have none. *)
Definition scaled (f : spec_float) : option Z :=
  match f with
  | S754_zero _ => Some 0%Z
  | S754_finite s m e => Some (cond_Zopp s (Z.pos m) * 2 ^ (e + 1074))%Z
  | S754_infinity _ | S754_nan => None
  end.

Definition exact (x : Number) : option Z := scaled (Prim2SF x).

(** [x + y] and [x - y] are computed without rounding. *)
Definition exact_add (x y : Number) : Prop :=
  exists vx vy, exact x = Some vx /\ exact y = Some vy /\ exact (x + y)%float = Some (vx + vy)%Z.
Definition exact_sub (x y : Number) : Prop :=
  exists vx vy, exact x = Some vx /\ exact y = Some vy /\ exact (x - y)%float = Some (vx - vy)%Z.

(** The sum of two balances, as a real number (in units of 2^-1074). *)
Definition exact_sum (x y : Number) : option Z :=
  match exact x, exact y with
  | Some vx, Some vy => Some (vx + vy)%Z
  | _, _ => None
  end.

(** [0 <= x], as JavaScript compares. *)
Definition nonneg (x : Number) : Prop := (0 <=? x)%float = true.

(** The same on the specification side: a zero, +infinity or a positive
    finite number. *)
Definition SFnonneg (f : spec_float) : Prop :=
  match f with
  | S754_zero _ | S754_infinity false | S754_finite false _ _ => True
  | _ => False
  end.

(** Mantissa [m] and exponent [e] are those of a binary64 value (the
    mantissa has 53 digits, or fewer at the least exponent). *)
Definition canonical (m : positive) (e : Z) : Prop := bounded prec emax m e = true.

(** The value of the positive number with mantissa [m] and exponent [e], in
    units of 2^-1074. *)
Definition val (m : positive) (e : Z) : Z := (Z.pos m * 2 ^ (e + 1074))%Z.

(** The balance a record holds once a document of it was saved: the one
    [assigned] to the document, or, if that is [===] the one the document
    [held] (and the record still holds), the one held. *)
Definition written (held assigned : Number) : Number :=
  if (assigned =? held)%float then held else assigned.

(** The record in the store once [doc], loaded as [loaded], was saved over
    the record [stored]. *)
Definition saved (loaded doc stored : Account.t) : Account.t :=
  if (Account.balance doc =? Account.balance loaded)%float then stored
  else Account.set_balance (Account.balance doc) stored.

(** In a transfer of [amount] from the document [s] to the document [r],
    the record the receiver's [save] finds: the sender's [save] has just
    rewritten it when both documents are copies of one record. *)
Definition stored_receiver (amount : Number) (s r : Account.t) : Account.t :=
  if decide (Account._id s = Account._id r)
  then Account.set_balance (Account.balance s - amount)%float s
  else r.

(** The account stored under [i] has a non-negative balance. *)
Definition balance_ok (i : ObjectId) (w : World) : Prop :=
  exists a, accounts w !! i = Some a /\ nonneg (Account.balance a).

(** [m] keeps [balance_ok i], whether it returns or throws, and what it
    returns satisfies [Q]. *)
Definition keeps (i : ObjectId) {A} (m : M A) (Q : A -> Prop) : Prop :=
  forall w, balance_ok i w ->
    match m w with
    | (Normal a, w') => balance_ok i w' /\ Q a
    | (Throw _, w') => balance_ok i w'
    end.

(* ===================================================================== *)
(** ** Sample worlds *)
(* ===================================================================== *)

Definition acct (i u : ObjectId) (b : Number) : Account.t := Account.mk i u b.
Arguments acct (i u)%_N b%_float.
Arguments balance_of i%_N w.
Arguments exact x%_float.
Arguments exact_sum (x y)%_float.
Arguments exact_add (x y)%_float.
Arguments exact_sub (x y)%_float.
Arguments nonneg x%_float.
Arguments mkRequest (user_userId params_accountId body_receiverAccountId)%_N body_amount%_float.

(** User 7 owns account 1, user 8 owns account 2; the store answers every
    call. *)
Definition two_accounts (b1 b2 : Number) : World :=
  mkWorld (<[1%N := acct 1 7 b1]> (<[2%N := acct 2 8 b2]> ∅)) [] [] [].
Arguments two_accounts (b1 b2)%_float.

(** Stand-ins for validator.js's [isEmail] (an [@] somewhere after the
    first character) and for bcrypt's [hash], for sample runs. *)
Definition sample_isEmail (s : string) : bool :=
  negb (String.eqb (split_at_0 s) EmptyString) && negb (String.eqb (split_at_0 s) s).
Definition sample_hash (password : string) (rounds : nat) : string :=
  String.append "$2b$10$" password.

(** Stand-ins for bcrypt's [compare], matching [sample_hash], for
    [jwt.sign] and for the [createdAt] stamps (entry [i] of the log made
    at time [i]), for sample runs. *)
Definition sample_compare (password hashed : string) : bool :=
  String.eqb (sample_hash password 10) hashed.
Definition sample_sign (u : User.t) : string :=
  String.append "token:" (User.username u).
Definition sample_createdAt (i : nat) : Z := Z.of_nat i.

(** Stand-ins for [String(x)], [Number(s)] and the validators that agree
    with JavaScript and validator.js on the whole numbers from 0 to 2^53
    written in decimal digits, for sample runs; everything else is "NaN",
    NaN or rejected. *)
Definition sample_whole (x : Number) : option Z :=
  match Prim2SF x with
  | S754_zero _ => Some 0%Z
  | S754_finite false m e =>
      if (0 <=? e)%Z then Some (Z.pos m * 2 ^ e)%Z
      else if (Z.pos m mod 2 ^ (- e) =? 0)%Z then Some (Z.pos m / 2 ^ (- e))%Z
      else None
  | _ => None
  end.
Definition sample_digits (s : string) : option Z :=
  match NilZero.uint_of_string s with
  | Some d => if (Z.of_N (N.of_uint d) <=? 2 ^ 53)%Z then Some (Z.of_N (N.of_uint d)) else None
  | None => None
  end.
Definition sample_String (x : Number) : string :=
  match sample_whole x with
  | Some v => if (v <=? 2 ^ 53)%Z then NilZero.string_of_uint (N.to_uint (Z.to_N v)) else "NaN"
  | None => "NaN"
  end.
Definition sample_Number (s : string) : Number :=
  match sample_digits s with
  | Some v => SF2Prim (binary_normalize prec emax v 0 false)
  | None => nan
  end.
Definition sample_numeric (s : string) : bool :=
  match sample_digits s with
  | Some v => (0 <? v)%Z
  | None => false
  end.
Definition sample_js : Sent.Runtime :=
  Sent.mkRuntime sample_String sample_Number sample_numeric.

Arguments Sent.VNumber x%_float.
Arguments Sent.mkRequest (user_userId params_accountId body_receiverAccountId)%_N body_amount.

(** The two accounts and a third, account 3 of user 9. *)
Definition three_accounts (b1 b2 b3 : Number) : World :=
  set_accounts (<[3%N := acct 3 9 b3]> (accounts (two_accounts b1 b2))) (two_accounts b1 b2).
Arguments three_accounts (b1 b2 b3)%_float.

(* ===================================================================== *)
(** ** The other routes: replies *)
(* ===================================================================== *)

(** What the reading routes and the login hand to [successRes]. *)
Inductive Data :=
  | BalanceOnly (balance : Number)
  | TransactionList (l : list Transaction.t)
  | AccountList (l : list Account.t)
  | Token (token : string).

(** The response of such a route: [successRes] with one of these, or a
    response of the kind the money routes give. *)
Inductive Reply :=
  | successData (d : Data)
  | replied (r : Response).

Definition reply_status (r : Reply) : nat :=
  match r with
  | successData _ => 200
  | replied r => status r
  end.

(** [try]/[catch] around a body that ends in a [Reply]. *)
Definition try_catch_reply (body : M Reply) (handler : Exn -> Response) (w : World)
  : Reply * World :=
  match body w with
  | (Normal r, w') => (r, w')
  | (Throw e, w') => (replied (handler e), w')
  end.

(* ===================================================================== *)
(** ** routes/accounts.js: opening, listing, balance, history *)
(* ===================================================================== *)

(** [new Account({ userId })].  Mongoose draws the [_id] when the document
    is built; [newId] is the one drawn in this run.
    Modelled from the spec: the schema's default balance, 0 (section 6). *)
Definition new_Account (newId userId : ObjectId) : Account.t :=
  Account.mk newId userId 0%float.

(** [newAccount.save()] on a document that was never stored: an insert,
    which throws on an [_id] already taken. *)
Definition Account_insert (doc : Account.t) : M unit :=
  await store_call;
  let! w := get_world in
  match accounts w !! Account._id doc with
  | Some _ => throw StoreError
  | None => modify_world (set_accounts (<[Account._id doc := doc]> (accounts w)))
  end.

(** [router.post('/', ...)]. *)
Definition post_accounts (newId userId : ObjectId) : World -> Response * World :=
  try_catch
    (let newAccount := new_Account newId userId in
     await Account_insert newAccount;
     ret (successRes (AccountDoc newAccount)))
    internal_error.

(** [Account.find({ userId })]: the records of that owner, in the store's
    order. *)
Definition Account_find (userId : ObjectId) : M (list Account.t) :=
  await store_call;
  let! w := get_world in
  ret (filter (fun a => Account.userId a = userId) (map_to_list (accounts w)).*2).

(** [router.get('/', ...)]. *)
Definition get_accounts (userId : ObjectId) : World -> Reply * World :=
  try_catch_reply
    (let! accounts := Account_find userId in
     ret (successData (AccountList accounts)))
    internal_error.

(** [router.get('/:accountId/balance', ...)]. *)
Definition get_balance (userId accountId : ObjectId) : World -> Reply * World :=
  try_catch_reply
    (let! account := Account_findOne (Account.by_ accountId (Some userId)) in
     match account with
     | None => ret (replied (notFoundRes (Message "Account not found")))
     | Some account => ret (successData (BalanceOnly (Account.balance account)))
     end)
    internal_error.

(** A [Date], in milliseconds. *)
Definition Date := Z.

(** [req.query] of the history route once validated: [type] a string,
    [startDate] and [endDate] turned into dates by [toDate()]. *)
Record HistoryQuery := mkQuery {
  query_type : option string;
  query_startDate : option Date;
  query_endDate : option Date
}.

(** The strings of the [enum] of [type] in [models/transaction.js]. *)
Definition type_name (t : TransactionType) : string :=
  match t with
  | deposit => "deposit"
  | withdrawal => "withdrawal"
  | transfer => "transfer"
  end.

(** The object [query] handed to [Transaction.find]. *)
Record TransactionQuery := mkFind {
  q_accountId : ObjectId;
  q_type : option string;
  q_gte : option Date;
  q_lte : option Date
}.

(** Lines 380-386: [{ accountId }], then [type] if it is truthy (the empty
    string is not), [createdAt.$gte] and [createdAt.$lte] if given. *)
Definition build_query (accountId : ObjectId) (q : HistoryQuery) : TransactionQuery :=
  {| q_accountId := accountId;
     q_type := match query_type q with
               | Some s => if String.eqb s EmptyString then None else Some s
               | None => None
               end;
     q_gte := query_startDate q;
     q_lte := query_endDate q |}.

(** Does a record created at [created] satisfy the query. *)
Definition satisfies (f : TransactionQuery) (created : Date) (t : Transaction.t) : bool :=
  bool_decide (Transaction.accountId t = q_accountId f)
  && match q_type f with
     | Some s => String.eqb (type_name (Transaction.type t)) s
     | None => true
     end
  && match q_gte f with Some d => (d <=? created)%Z | None => true end
  && match q_lte f with Some d => (created <=? d)%Z | None => true end.

(** The records of a log from position [i] on that satisfy the query, in
    the order of the log. *)
Fixpoint select (createdAt : nat -> Date) (f : TransactionQuery) (i : nat)
    (log : list Transaction.t) : list Transaction.t :=
  match log with
  | [] => []
  | t :: rest =>
      if satisfies f (createdAt i) t
      then t :: select createdAt f (S i) rest
      else select createdAt f (S i) rest
  end.

Section History.
(** [timestamps: true] makes the store stamp every record with its
    [createdAt] when it is saved: [createdAt i] is the stamp of the [i]-th
    record of the log. *)
Variable createdAt : nat -> Date.

(** [Transaction.find(query)]. *)
Definition Transaction_find (f : TransactionQuery) : M (list Transaction.t) :=
  await store_call;
  let! w := get_world in
  ret (select createdAt f 0 (transactions w)).

(** [router.get('/:accountId/transactions', ...)]. *)
Definition get_transactions (userId accountId : ObjectId) (q : HistoryQuery)
  : World -> Reply * World :=
  try_catch_reply
    (let! account := Account_findOne (Account.by_ accountId (Some userId)) in
     match account with
     | None => ret (replied (notFoundRes (Message "Account not found")))
     | Some _ =>
         let query := build_query accountId q in
         let! transactions := Transaction_find query in
         ret (successData (TransactionList transactions))
     end)
    internal_error.
End History.

(* ===================================================================== *)
(** ** routes/users.js: login *)
(* ===================================================================== *)

(** [req.body] of [POST /users/login]. *)
Record LoginRequest := mkLogin { login_username : string; login_password : string }.

(** [validateLogin]: both fields [notEmpty()]. *)
Definition login_valid (req : LoginRequest) : bool :=
  negb (String.eqb (login_username req) EmptyString)
  && negb (String.eqb (login_password req) EmptyString).

(** [User.findOne({ username })]. *)
Definition User_findOne_username (n : string) : M (option User.t) :=
  await store_call;
  let! w := get_world in
  ret (List.find (fun u => bool_decide (User.username u = n)) (users w)).

Section Login.
(** bcrypt's [compare], and the token [jwt.sign] issues in this run for the
    user's id (the signing key being configured), from outside the
    repository. *)
Variable bcrypt_compare : string -> string -> bool.
Variable jwt_sign : User.t -> string.

(** [router.post('/login', ...)]. *)
Definition post_login (req : LoginRequest) : World -> Reply * World :=
  try_catch_reply
    (if negb (login_valid req) then ret (replied (clientErrorRes ValidationErrors))
     else
       let! user := User_findOne_username (login_username req) in
       match user with
       | None => ret (replied (unauthorizedRes (Message "Invalid username or password")))
       | Some user =>
           let isValidPassword := bcrypt_compare (login_password req) (User.hashedPassword user) in
           if negb isValidPassword
           then ret (replied (unauthorizedRes (Message "Invalid username or password")))
           else
             let token := jwt_sign user in
             ret (successData (Token token))
       end)
    internal_error.
End Login.

Arguments Transaction.mk (userId accountId)%_N type amount%_float.
Arguments BalanceOnly balance%_float.
Arguments post_accounts (newId userId)%_N.
Arguments get_accounts userId%_N.
Arguments get_balance (userId accountId)%_N.
Arguments get_transactions createdAt (userId accountId)%_N q.

(* ===================================================================== *)
(** ** Two withdrawals in flight *)
(* ===================================================================== *)

(** The withdraw handler runs in stretches, from one [await] to the next,
    and other requests are served in between.  [withdraw_load] is the
    first stretch with the answer of [findOne]: either the handler has
    already responded, or it holds the document it loaded. *)
Definition withdraw_load (req : Request) (w : World)
  : (Response + option Account.t) * World :=
  if negb (amount_valid (body_amount req)) then (inl (clientErrorRes ValidationErrors), w)
  else
    match Account_findOne (Account.by_ (params_accountId req) (Some (user_userId req))) w with
    | (Normal account, w') => (inr account, w')
    | (Throw e, w') => (inl (internal_error e), w')
    end.

(** The rest of the handler, from the document it holds. *)
Definition withdraw_resume (req : Request) (held : Response + option Account.t)
  : World -> Response * World :=
  match held with
  | inl r => fun w => (r, w)
  | inr account =>
      try_catch
        (let userId := user_userId req in
         let amount := body_amount req in
         match account with
         | None => ret (notFoundRes (Message "Account not found"))
         | Some loaded =>
             if (Account.balance loaded <? amount)%float
             then ret (clientErrorRes (Message "Insufficient funds"))
             else
               let account := Account.set_balance (Account.balance loaded - amount)%float loaded in
               await Account_save loaded account;
               let transaction :=
                 Transaction.mk userId (Account._id account) withdrawal amount in
               await Transaction_save transaction;
               ret (successRes (AccountDoc account))
         end)
        internal_error
  end.

(** Two withdrawals whose lookups are both answered before either handler
    goes on: the first then runs to its end, then the second. *)
Definition withdraw_race (reqA reqB : Request) (w : World) : (Response * Response) * World :=
  let (heldA, w1) := withdraw_load reqA w in
  let (heldB, w2) := withdraw_load reqB w1 in
  let (resA, w3) := withdraw_resume reqA heldA w2 in
  let (resB, w4) := withdraw_resume reqB heldB w3 in
  ((resA, resB), w4).

(* ===================================================================== *)
(** ** Requests and what they may change *)
(* ===================================================================== *)

(** The user a ledger request is made by. *)
Definition op_user (op : Op) : ObjectId :=
  match op with
  | Deposit req | Withdraw req | Transfer req => user_userId req
  end.

(** How a world may differ from an earlier one: the log has only grown at
    its end, the users are the same, and the same ids hold accounts, each
    with the [_id] and owner it had. *)
Definition evolves (w w' : World) : Prop :=
  transactions w `prefix_of` transactions w' /\
  users w' = users w /\
  forall i,
    match accounts w !! i, accounts w' !! i with
    | Some a, Some a' => Account._id a' = Account._id a /\ Account.userId a' = Account.userId a
    | None, None => True
    | _, _ => False
    end.

(** The account a ledger request names in its path. *)
Definition op_account (op : Op) : ObjectId :=
  match op with
  | Deposit req | Withdraw req | Transfer req => params_accountId req
  end.

(** What serving [op] may do to the account stored under [i]: nothing; or
    set the balance of the account the request names, which is the
    caller's; or, in a transfer, add the amount to the receiver's balance. *)
Definition key_effect (op : Op) (w w' : World) (i : ObjectId) : Prop :=
  accounts w' !! i = accounts w !! i \/
  (exists a b,
     accounts w !! i = Some a /\ Account.userId a = op_user op /\ i = op_account op /\
     accounts w' !! i = Some (Account.set_balance b a)) \/
  (exists a req,
     op = Transfer req /\ accounts w !! i = Some a /\ i = body_receiverAccountId req /\
     amount_valid (body_amount req) = true /\
     accounts w' !! i = Some (Account.set_balance (Account.balance a + body_amount req)%float a)).

(** What serving [op] in [w] with response [r] leaves as [w']. *)
Definition effect (op : Op) (w : World) (r : Response) (w' : World) : Prop :=
  users w' = users w /\
  transactions w `prefix_of` transactions w' /\
  (status r = 400 \/ status r = 404 ->
   accounts w' = accounts w /\ transactions w' = transactions w) /\
  forall i, key_effect op w w' i.

(** The place of a non-negative number in the order: its value, and a
    number above every value for +infinity. *)
Definition rank (f : spec_float) : Z :=
  match f with
  | S754_finite false m e => val m e
  | S754_infinity false => (2 ^ 2100)%Z
  | _ => 0%Z
  end.

(* ===================================================================== *)
(** ** Binary64 arithmetic on balances *)
(* ===================================================================== *)

(** What the ledger needs of IEEE 754 addition, subtraction and comparison,
    from the specification of the primitive operations ([add_spec],
    [sub_spec], [ltb_spec], ...) in terms of [SpecFloat]. *)
Module Binary64.
Local Open Scope Z_scope.

(** The exponent of the least positive binary64 value. *)
Abbreviation emin := (-1074).

(** *** Comparisons *)

Lemma SFcompare_swap x y :
  SFcompare y x = CompOpp <$> SFcompare x y.
Proof.
  destruct x as [sx|sx| |sx mx ex], y as [sy|sy| |sy my ey]; simpl; try reflexivity;
    try (destruct sx; reflexivity); try (destruct sy; reflexivity);
    try (destruct sx, sy; reflexivity).
  destruct sx, sy; simpl; try reflexivity.
  all: rewrite (Z.compare_antisym ey ex); destruct (ey ?= ex)%Z; simpl; try reflexivity.
  all: change (PosDef.Pos.compare_cont Eq my mx) with (Pos.compare_cont Eq my mx).
  all: change (PosDef.Pos.compare_cont Eq mx my) with (Pos.compare_cont Eq mx my).
  all: rewrite (Pos.compare_cont_antisym mx my Eq); simpl; now rewrite ?CompOpp_involutive.
Qed.

Lemma ltb_false_of_leb (x b : Number) : (x <=? b)%float = true -> (b <? x)%float = false.
Proof.
  rewrite leb_spec, ltb_spec. unfold SFleb, SFltb. rewrite (SFcompare_swap (Prim2SF x)).
  destruct (SFcompare (Prim2SF x) (Prim2SF b)) as [[]|]; simpl; congruence.
Qed.

Lemma Prim2SF_0 : Prim2SF 0 = S754_zero false.
Proof. reflexivity. Qed.
Lemma Prim2SF_infinity : Prim2SF infinity = S754_infinity false.
Proof. reflexivity. Qed.

Lemma amount_valid_shape x :
  amount_valid x = true <-> exists m e, Prim2SF x = S754_finite false m e.
Proof.
  unfold amount_valid. rewrite !ltb_spec, Prim2SF_0, Prim2SF_infinity. unfold SFltb.
  destruct (Prim2SF x) as [s|[]| |[] m e]; simpl; split; try discriminate; eauto;
    intros (? & ? & ?); congruence.
Qed.

(** *** Digits, canonical forms and values *)

Lemma digits2_bounds m :
  2 ^ (Z.pos (digits2_pos m) - 1) <= Z.pos m < 2 ^ Z.pos (digits2_pos m).
Proof.
  induction m as [p IH|p IH|]; cbn [digits2_pos]; rewrite ?Pos2Z.inj_succ.
  - replace (Z.succ (Z.pos (digits2_pos p)) - 1) with (Z.succ (Z.pos (digits2_pos p) - 1)) by lia.
    rewrite !Z.pow_succ_r by lia. lia.
  - replace (Z.succ (Z.pos (digits2_pos p)) - 1) with (Z.succ (Z.pos (digits2_pos p) - 1)) by lia.
    rewrite !Z.pow_succ_r by lia. lia.
  - simpl. lia.
Qed.

(** The number of digits is determined by the two bounds. *)
Lemma digits2_unique m d :
  2 ^ (d - 1) <= Z.pos m < 2 ^ d -> d = Z.pos (digits2_pos m).
Proof.
  intros [Hlo Hhi]. pose proof (digits2_bounds m) as [Hlo' Hhi'].
  assert (0 < d).
  { destruct (Z.lt_trichotomy d 0) as [Hn|[->|Hp]]; [|simpl in Hhi; lia|done].
    rewrite Z.pow_neg_r in Hhi by done. lia. }
  destruct (Z.lt_trichotomy d (Z.pos (digits2_pos m))) as [Hlt|[->|Hgt]]; [|done|].
  - assert (2 ^ d <= 2 ^ (Z.pos (digits2_pos m) - 1)) by (apply Z.pow_le_mono_r; lia). lia.
  - assert (2 ^ (Z.pos (digits2_pos m)) <= 2 ^ (d - 1)) by (apply Z.pow_le_mono_r; lia). lia.
Qed.

Lemma canonical_facts m e :
  canonical m e ->
  emin <= e <= 971 /\ Z.pos (digits2_pos m) <= 53 /\ (emin < e -> Z.pos (digits2_pos m) = 53).
Proof.
  unfold canonical, bounded, canonical_mantissa, fexp, SpecFloat.emin, prec, emax.
  rewrite andb_true_iff, Z.eqb_eq, Z.leb_le. lia.
Qed.

Lemma val_lt m1 e1 m2 e2 :
  canonical m1 e1 -> canonical m2 e2 -> e1 < e2 -> val m1 e1 < val m2 e2.
Proof.
  intros H1 H2 He. apply canonical_facts in H1 as (Hb1 & Hd1 & _).
  apply canonical_facts in H2 as (Hb2 & _ & Hd2). specialize (Hd2 ltac:(lia)).
  pose proof (digits2_bounds m1) as [_ Hhi]. pose proof (digits2_bounds m2) as [Hlo _].
  rewrite Hd2 in Hlo. unfold val.
  assert (Z.pos m1 < 2 ^ 53) by (eapply Z.lt_le_trans; [exact Hhi|]; apply Z.pow_le_mono_r; lia).
  replace (e2 + 1074) with ((e1 + 1074) + (e2 - e1)) by lia.
  rewrite (Z.pow_add_r 2 (e1 + 1074) (e2 - e1)) by lia.
  assert (2 <= 2 ^ (e2 - e1)) by (change 2 with (2 ^ 1) at 1; apply Z.pow_le_mono_r; lia).
  assert (0 < 2 ^ (e1 + 1074)) by (apply Z.pow_pos_nonneg; lia).
  change (2 ^ (53 - 1)) with 4503599627370496 in Hlo. change (2 ^ 53) with 9007199254740992 in *.
  generalize dependent (2 ^ (e1 + 1074)). generalize dependent (2 ^ (e2 - e1)).
  intros Q HQ P HP.
  assert (Z.pos m1 * P < 9007199254740992 * P) by (apply Z.mul_lt_mono_pos_r; lia).
  assert (4503599627370496 * (P * Q) <= Z.pos m2 * (P * Q)) by (apply Z.mul_le_mono_nonneg_r; nia).
  nia.
Qed.

Lemma SFcompare_val m1 e1 m2 e2 :
  canonical m1 e1 -> canonical m2 e2 ->
  SFcompare (S754_finite false m1 e1) (S754_finite false m2 e2) = Some (val m1 e1 ?= val m2 e2).
Proof.
  intros H1 H2. simpl. f_equal. destruct (Z.compare_spec e1 e2) as [->|Hlt|Hgt].
  - unfold val. apply canonical_facts in H2 as (Hb2 & _).
    rewrite <- Zmult_compare_compat_r by (apply Z.lt_gt, Z.pow_pos_nonneg; lia). reflexivity.
  - symmetry. apply Z.compare_lt_iff. now apply val_lt.
  - symmetry. apply Z.compare_gt_iff. now apply val_lt.
Qed.

Lemma iter_xO m d : Z.pos (Pos.iter xO m d) = Z.pos m * 2 ^ Z.pos d.
Proof.
  induction d as [|d IH] using Pos.peano_ind.
  - simpl. lia.
  - rewrite Pos.iter_succ, Pos2Z.inj_succ, Z.pow_succ_r by lia.
    rewrite Pos2Z.inj_xO, IH. lia.
Qed.

Lemma shl_align_val m e ez :
  ez <= e -> Z.pos (fst (shl_align m e ez)) = Z.pos m * 2 ^ (e - ez).
Proof.
  intros Hle. unfold shl_align. destruct (ez - e) as [|d|d] eqn:E.
  - replace (e - ez) with 0 by lia. simpl. lia.
  - lia.
  - simpl. rewrite iter_xO. f_equal. f_equal. lia.
Qed.

Lemma aligned_val m e ez :
  emin <= ez <= e -> Z.pos (fst (shl_align m e ez)) * 2 ^ (ez + 1074) = val m e.
Proof.
  intros H. rewrite shl_align_val by lia. unfold val.
  rewrite <- Z.mul_assoc, <- Z.pow_add_r by lia. f_equal. f_equal. lia.
Qed.

(** *** Signs *)

Lemma iter_pos_inv {A} (P : A -> Prop) (f : A -> A) :
  (forall x, P x -> P (f x)) -> forall p x, P x -> P (iter_pos f p x).
Proof.
  intros Hf p. induction p as [p IH|p IH|]; intros x Hx; simpl; auto.
Qed.

Lemma shr_1_nonneg mrs : 0 <= shr_m mrs -> 0 <= shr_m (shr_1 mrs).
Proof.
  destruct mrs as [m r s]. simpl. destruct m as [|[p|p|]|[p|p|]]; simpl; lia.
Qed.

Lemma shr_nonneg mrs e n : 0 <= shr_m mrs -> 0 <= shr_m (fst (shr mrs e n)).
Proof.
  intros H. unfold shr. destruct n; simpl; try done.
  apply (iter_pos_inv (fun x => 0 <= shr_m x)); [apply shr_1_nonneg|done].
Qed.

Lemma shr_m_of_loc m l : shr_m (shr_record_of_loc m l) = m.
Proof. now destruct l as [|[]]. Qed.

Lemma shr_fexp_nonneg m e l : 0 <= m -> 0 <= shr_m (fst (shr_fexp prec emax m e l)).
Proof. intros H. unfold shr_fexp. apply shr_nonneg. now rewrite shr_m_of_loc. Qed.

Lemma round_nearest_even_nonneg m l : 0 <= m -> 0 <= round_nearest_even m l.
Proof.
  intros H. unfold round_nearest_even. destruct l as [|[]]; try done; [|lia].
  destruct (Z.even m); lia.
Qed.

Lemma binary_round_aux_nonneg mx ex lx :
  0 <= mx -> SFnonneg (binary_round_aux prec emax false mx ex lx).
Proof.
  intros H. unfold binary_round_aux.
  pose proof (shr_fexp_nonneg mx ex lx H) as H1.
  destruct (shr_fexp prec emax mx ex lx) as [mrs' e']. simpl in H1.
  pose proof (shr_fexp_nonneg _ e' loc_Exact
                (round_nearest_even_nonneg _ (loc_of_shr_record mrs') H1)) as H2.
  destruct (shr_fexp prec emax _ e' loc_Exact) as [mrs'' e'']. simpl in H2.
  destruct (shr_m mrs''); simpl; [done| |lia].
  now destruct (e'' <=? emax - prec).
Qed.

Lemma binary_normalize_nonneg m e :
  0 <= m -> SFnonneg (binary_normalize prec emax m e false).
Proof.
  intros H. destruct m as [|p|p]; simpl; [done| |lia].
  unfold binary_round. destruct (shl_align p e _) as [mz ez].
  now apply binary_round_aux_nonneg.
Qed.

Lemma nonneg_iff b : nonneg b <-> SFnonneg (Prim2SF b).
Proof.
  unfold nonneg. rewrite leb_spec, Prim2SF_0. unfold SFleb.
  destruct (Prim2SF b) as [s|[]| |[] m e]; simpl; split; try discriminate; try tauto; eauto.
Qed.

Lemma canonical_Prim2SF x s m e : Prim2SF x = S754_finite s m e -> canonical m e.
Proof. intros H. pose proof (Prim2SF_valid x) as Hv. now rewrite H in Hv. Qed.

(** A credit keeps a balance non-negative. *)
Lemma add_nonneg (b x : Number) :
  nonneg b -> amount_valid x = true -> nonneg (b + x)%float.
Proof.
  rewrite !nonneg_iff, amount_valid_shape, add_spec. intros Hb (mx & ex & Hx).
  rewrite Hx. destruct (Prim2SF b) as [s|[]| |[] mb eb]; try done.
  unfold SF64add, SFadd. apply binary_normalize_nonneg. simpl cond_Zopp. lia.
Qed.

(** So does a debit that the funds cover. *)
Lemma sub_nonneg (b x : Number) :
  nonneg b -> amount_valid x = true -> (b <? x)%float = false -> nonneg (b - x)%float.
Proof.
  rewrite !nonneg_iff, amount_valid_shape, sub_spec, ltb_spec.
  intros Hb (mx & ex & Hx) Hlt.
  pose proof (canonical_Prim2SF _ _ _ _ Hx) as Cx. rewrite Hx in *.
  destruct (Prim2SF b) as [s|[]| |[] mb eb] eqn:Eb; simpl in Hb; try done.
  pose proof (canonical_Prim2SF _ _ _ _ Eb) as Cb.
  unfold SFltb in Hlt. rewrite SFcompare_val in Hlt by done.
  assert (Hv : val mx ex <= val mb eb).
  { destruct (Z.compare_spec (val mb eb) (val mx ex)); try discriminate; lia. }
  unfold SF64sub, SFsub. apply binary_normalize_nonneg. simpl cond_Zopp.
  apply canonical_facts in Cx as (? & _). apply canonical_facts in Cb as (? & _).
  rewrite <- (aligned_val mx ex (Z.min eb ex)), <- (aligned_val mb eb (Z.min eb ex)) in Hv by lia.
  assert (0 < 2 ^ (Z.min eb ex + 1074)) by (apply Z.pow_pos_nonneg; lia).
  nia.
Qed.

(** *** Results that need no rounding *)

Lemma digits2_mul_pow2 q m k :
  0 <= k -> Z.pos q = Z.pos m * 2 ^ k ->
  Z.pos (digits2_pos q) = Z.pos (digits2_pos m) + k.
Proof.
  intros Hk Hq. symmetry. apply digits2_unique. rewrite Hq.
  pose proof (digits2_bounds m) as [Hlo Hhi].
  replace (Z.pos (digits2_pos m) + k - 1) with ((Z.pos (digits2_pos m) - 1) + k) by lia.
  rewrite !Z.pow_add_r by lia.
  assert (0 < 2 ^ k) by (apply Z.pow_pos_nonneg; lia). nia.
Qed.

Lemma shr_1_even M :
  0 < M -> shr_1 (Build_shr_record (2 * M) false false) = Build_shr_record M false false.
Proof. intros H. destruct M; [lia| |lia]. reflexivity. Qed.

Lemma iter_shr_exact n : forall M,
  0 < M ->
  iter_pos shr_1 n (Build_shr_record (M * 2 ^ Z.pos n) false false) = Build_shr_record M false false.
Proof.
  induction n as [n IH|n IH|]; intros M HM; cbn [iter_pos].
  - assert (HP : 0 < 2 ^ Z.pos n) by (apply Z.pow_pos_nonneg; lia).
    replace (M * 2 ^ Z.pos n~1) with (2 * ((M * 2 ^ Z.pos n) * 2 ^ Z.pos n)).
    2:{ rewrite (Pos2Z.inj_xI n), Z.pow_add_r, Z.pow_twice_r by lia. change (2 ^ 1) with 2. ring. }
    rewrite shr_1_even by nia. rewrite IH by nia. now rewrite IH.
  - assert (HP : 0 < 2 ^ Z.pos n) by (apply Z.pow_pos_nonneg; lia).
    replace (M * 2 ^ Z.pos n~0) with ((M * 2 ^ Z.pos n) * 2 ^ Z.pos n).
    2:{ rewrite (Pos2Z.inj_xO n), Z.pow_twice_r by lia. ring. }
    rewrite IH by nia. now rewrite IH.
  - replace (M * 2 ^ 1) with (2 * M) by lia. now apply shr_1_even.
Qed.

Lemma binary_round_aux_exact p ez m e :
  canonical m e -> ez <= e -> Z.pos p = Z.pos m * 2 ^ (e - ez) ->
  binary_round_aux prec emax false (Z.pos p) ez loc_Exact = S754_finite false m e.
Proof.
  intros C Hle Hp.
  pose proof (digits2_mul_pow2 p m (e - ez) ltac:(lia) Hp) as Hd.
  assert (Hf : fexp prec emax (Z.pos (digits2_pos m) + e) = e).
  { unfold canonical, bounded, canonical_mantissa in C.
    apply andb_true_iff in C as [C _]. now apply Z.eqb_eq in C. }
  assert (Hb : (e <=? emax - prec) = true).
  { unfold canonical, bounded in C. now apply andb_true_iff in C as [_ C]. }
  assert (H1 : shr_fexp prec emax (Z.pos p) ez loc_Exact = (Build_shr_record (Z.pos m) false false, e)).
  { unfold shr_fexp. cbn [Zdigits2 shr_record_of_loc]. rewrite Hd.
    replace (Z.pos (digits2_pos m) + (e - ez) + ez) with (Z.pos (digits2_pos m) + e) by lia.
    rewrite Hf. unfold shr. destruct (e - ez) as [|n|n] eqn:En; [| |lia].
    - f_equal; [|lia]. f_equal. lia.
    - rewrite Hp. rewrite iter_shr_exact by lia. f_equal. lia. }
  assert (H2 : shr_fexp prec emax (Z.pos m) e loc_Exact = (Build_shr_record (Z.pos m) false false, e)).
  { unfold shr_fexp. cbn [Zdigits2 shr_record_of_loc]. rewrite Hf, Z.sub_diag. reflexivity. }
  unfold binary_round_aux. rewrite H1. cbn [shr_m loc_of_shr_record round_nearest_even].
  rewrite H2. cbn [shr_m]. now rewrite Hb.
Qed.

(** A difference or sum whose exact value is a binary64 number is that
    number. *)
Lemma binary_normalize_exact D ez m e :
  canonical m e -> emin <= ez -> D * 2 ^ (ez + 1074) = val m e ->
  binary_normalize prec emax D ez false = S754_finite false m e.
Proof.
  intros C Hez HD. pose proof (canonical_facts _ _ C) as (He & _).
  assert (HP : 0 < 2 ^ (ez + 1074)) by (apply Z.pow_pos_nonneg; lia).
  assert (HV : 0 < val m e) by (unfold val; apply Z.mul_pos_pos; [lia|apply Z.pow_pos_nonneg; lia]).
  destruct D as [|p|p]; [lia| |lia]. cbn [binary_normalize]. unfold binary_round.
  assert (Hf : fexp prec emax (Z.pos (digits2_pos m) + e) = e).
  { unfold canonical, bounded, canonical_mantissa in C.
    apply andb_true_iff in C as [C _]. now apply Z.eqb_eq in C. }
  unfold val in HD.
  destruct (Z_le_gt_dec ez e) as [Hle|Hgt].
  - assert (Hp : Z.pos p = Z.pos m * 2 ^ (e - ez)).
    { apply (Z.mul_reg_r _ _ (2 ^ (ez + 1074))); [lia|].
      rewrite HD, <- Z.mul_assoc, <- Z.pow_add_r by lia. f_equal. f_equal. lia. }
    rewrite (digits2_mul_pow2 p m (e - ez)) by (lia || done).
    replace (Z.pos (digits2_pos m) + (e - ez) + ez) with (Z.pos (digits2_pos m) + e) by lia.
    rewrite Hf. unfold shl_align. destruct (e - ez) as [|n|n] eqn:En; [| |lia].
    + apply binary_round_aux_exact; [done|lia|]. now rewrite En.
    + apply binary_round_aux_exact; [done|lia|]. now rewrite En.
  - assert (Hm : Z.pos m = Z.pos p * 2 ^ (ez - e)).
    { assert (0 < 2 ^ (e + 1074)) by (apply Z.pow_pos_nonneg; lia).
      apply (Z.mul_reg_r _ _ (2 ^ (e + 1074))); [lia|].
      rewrite <- HD, <- Z.mul_assoc, <- Z.pow_add_r by lia. f_equal. f_equal. lia. }
    pose proof (digits2_mul_pow2 m p (ez - e) ltac:(lia) Hm) as Hd.
    replace (Z.pos (digits2_pos p) + ez) with (Z.pos (digits2_pos m) + e) by lia.
    rewrite Hf. unfold shl_align. destruct (e - ez) as [|n|n] eqn:En; [lia|lia|].
    assert (Pos.iter xO p n = m) as ->.
    { apply Pos2Z.inj. rewrite iter_xO, Hm. f_equal. f_equal. lia. }
    apply binary_round_aux_exact; [done|lia|]. rewrite Z.sub_diag. simpl. lia.
Qed.


Lemma val_pos m e : emin <= e -> 0 < val m e.
Proof. intros H. unfold val. apply Z.mul_pos_pos; [lia|apply Z.pow_pos_nonneg; lia]. Qed.

(** The value of a positive finite number. *)
Lemma scaled_positive s m e v :
  scaled (S754_finite s m e) = Some v -> 0 < v -> s = false /\ v = val m e.
Proof.
  simpl. intros [= <-] Hv. destruct s; simpl in *; [|done].
  pose proof (Z.pow_nonneg 2 (e + 1074) ltac:(lia)). nia.
Qed.

(** A credit that is not rounded can be taken back: the funds cover the
    debit, and the debit restores the balance. *)
Lemma add_then_sub_exact (b x : Number) :
  nonneg b -> amount_valid x = true -> exact_add b x ->
  ((b + x) <? x)%float = false /\ ((b + x) - x =? b)%float = true.
Proof.
  rewrite nonneg_iff, amount_valid_shape. intros Hb (mx & ex & Hx) (vb & vx & Eb & Ex & Ec).
  pose proof (canonical_Prim2SF _ _ _ _ Hx) as Cx.
  pose proof (canonical_facts _ _ Cx) as (Hex & _).
  unfold exact in Eb, Ex, Ec. rewrite Hx in Ex. injection Ex as <-. simpl cond_Zopp in Ec.
  fold (val mx ex) in Ec. pose proof (val_pos mx ex ltac:(lia)) as Hvx.
  assert (Hvb : 0 <= vb).
  { destruct (Prim2SF b) as [s|[]| |[] mb eb]; simpl in Hb, Eb; try done.
    - injection Eb as <-. lia.
    - injection Eb as <-. pose proof (Z.pow_nonneg 2 (eb + 1074) ltac:(lia)). nia. }
  destruct (Prim2SF (b + x)) as [sc|sc| |sc mc ec] eqn:Hc; try discriminate.
  { simpl in Ec. injection Ec as Ec. lia. }
  pose proof (canonical_Prim2SF _ _ _ _ Hc) as Cc.
  pose proof (canonical_facts _ _ Cc) as (Hec & _).
  apply scaled_positive in Ec as [-> Ec]; [|lia].
  rewrite ltb_spec, eqb_spec, sub_spec, Hc, Hx. split.
  - unfold SFltb. rewrite SFcompare_val by done.
    destruct (Z.compare_spec (val mc ec) (val mx ex)); try done. lia.
  - unfold SF64sub, SFsub. simpl cond_Zopp.
    set (ez := Z.min ec ex).
    set (D := Z.pos (fst (shl_align mc ec ez)) - Z.pos (fst (shl_align mx ex ez))).
    assert (HD : D * 2 ^ (ez + 1074) = vb).
    { unfold D. rewrite Z.mul_sub_distr_r, !aligned_val by (unfold ez; lia). lia. }
    assert (HP : 0 < 2 ^ (ez + 1074)) by (apply Z.pow_pos_nonneg; unfold ez; lia).
    destruct (Prim2SF b) as [s|[]| |[] mb eb] eqn:Hpb; simpl in Hb, Eb; try done.
    + injection Eb as <-. assert (D = 0) as -> by nia. reflexivity.
    + injection Eb as Eb. fold (val mb eb) in Eb. subst vb.
      pose proof (canonical_Prim2SF _ _ _ _ Hpb) as Cb.
      rewrite (binary_normalize_exact D ez mb eb) by (done || unfold ez; lia).
      unfold SFeqb. rewrite SFcompare_val by done. now rewrite Z.compare_refl.
Qed.

(** *** A credit never lowers a balance below the amount *)

Lemma iter_pos_iter {A} (f : A -> A) p : forall x, iter_pos f p x = Pos.iter f x p.
Proof.
  induction p as [p IH|p IH|]; intros x; simpl; [|now rewrite !IH|done].
  rewrite !IH. now rewrite <- !Pos.iter_swap.
Qed.

Lemma shr_1_div2 mrs : 0 <= shr_m mrs -> shr_m (shr_1 mrs) = shr_m mrs / 2.
Proof.
  destruct mrs as [m r s]. simpl. intros H.
  destruct m as [|[p|p|]|p]; simpl; try lia; try reflexivity.
  - apply (Z.div_unique _ 2 _ 1); lia.
  - apply (Z.div_unique _ 2 _ 0); lia.
Qed.

Lemma iter_shr_div p mrs :
  0 <= shr_m mrs -> shr_m (iter_pos shr_1 p mrs) = shr_m mrs / 2 ^ Z.pos p.
Proof.
  intros H. rewrite iter_pos_iter. induction p as [|p IH] using Pos.peano_ind.
  - simpl. rewrite shr_1_div2 by done. reflexivity.
  - rewrite Pos.iter_succ, shr_1_div2.
    + rewrite IH, Pos2Z.inj_succ, Z.pow_succ_r, Z.div_div by lia. f_equal. lia.
    + rewrite IH. apply Z.div_pos; [done|]. apply Z.pow_pos_nonneg; lia.
Qed.

(** What [shr_fexp] leaves of a positive mantissa, and at which exponent. *)
Lemma shr_fexp_spec p e l :
  emin <= e ->
  let E := fexp prec emax (Z.pos (digits2_pos p) + e) in
  let '(mrs, e') := shr_fexp prec emax (Z.pos p) e l in
  e' = Z.max e E /\ shr_m mrs = Z.pos p / 2 ^ (Z.max e E - e) /\ 0 < shr_m mrs.
Proof.
  intros He E. unfold shr_fexp. cbn [Zdigits2]. fold E. unfold shr.
  pose proof (digits2_bounds p) as [Hlo Hhi].
  destruct (E - e) as [|n|n] eqn:En.
  - rewrite shr_m_of_loc. replace (Z.max e E - e) with 0 by lia.
    rewrite Z.pow_0_r, Z.div_1_r. lia.
  - rewrite iter_shr_div by (rewrite shr_m_of_loc; lia). rewrite shr_m_of_loc.
    replace (Z.max e E - e) with (Z.pos n) by lia. split; [lia|]. split; [done|].
    assert (Hn : Z.pos n = Z.pos (digits2_pos p) - 53).
    { unfold E, fexp, SpecFloat.emin, prec, emax in En. lia. }
    apply Z.div_str_pos. split; [apply Z.pow_pos_nonneg; lia|].
    eapply Z.le_trans; [|exact Hlo]. apply Z.pow_le_mono_r; lia.
  - rewrite shr_m_of_loc. replace (Z.max e E - e) with 0 by lia.
    rewrite Z.pow_0_r, Z.div_1_r. lia.
Qed.

Lemma fexp_mono a b : a <= b -> fexp prec emax a <= fexp prec emax b.
Proof. unfold fexp, SpecFloat.emin, prec, emax. lia. Qed.

Lemma fexp_ge a : emin <= fexp prec emax a.
Proof. unfold fexp, SpecFloat.emin, prec, emax. lia. Qed.

Lemma digits2_le p q : Z.pos p <= Z.pos q -> Z.pos (digits2_pos p) <= Z.pos (digits2_pos q).
Proof.
  intros H. pose proof (digits2_bounds p) as [Hlo _]. pose proof (digits2_bounds q) as [_ Hhi].
  destruct (Z_le_gt_dec (Z.pos (digits2_pos p)) (Z.pos (digits2_pos q))) as [|Hgt]; [done|].
  assert (2 ^ Z.pos (digits2_pos q) <= 2 ^ (Z.pos (digits2_pos p) - 1)) by (apply Z.pow_le_mono_r; lia).
  lia.
Qed.

(** Rounding a mantissa that is at least that of [x], aligned at an exponent
    not above that of [x], does not give less than [x]. *)
Lemma binary_round_ge M ez mx ex :
  canonical mx ex -> emin <= ez <= ex -> Z.pos mx * 2 ^ (ex - ez) <= Z.pos M ->
  SFltb (binary_round prec emax false M ez) (S754_finite false mx ex) = false.
Proof.
  intros Cx Hez HM.
  assert (Hfx : fexp prec emax (Z.pos (digits2_pos mx) + ex) = ex).
  { unfold canonical, bounded, canonical_mantissa in Cx.
    apply andb_true_iff in Cx as [C _]. now apply Z.eqb_eq in C. }
  set (E := fexp prec emax (Z.pos (digits2_pos M) + ez)).
  assert (HE : ex <= E).
  { rewrite <- Hfx. apply fexp_mono.
    assert (HP : 0 < 2 ^ (ex - ez)) by (apply Z.pow_pos_nonneg; lia).
    destruct (Z.pos mx * 2 ^ (ex - ez)) as [|q|q] eqn:Eq; [lia| |lia]. symmetry in Eq.
    pose proof (digits2_mul_pow2 q mx (ex - ez) ltac:(lia) Eq) as Hq.
    pose proof (digits2_le q M HM). lia. }
  unfold binary_round. fold E. unfold shl_align.
  destruct (E - ez) as [|n|n] eqn:En; [| |lia].
  all: unfold binary_round_aux.
  all: pose proof (shr_fexp_spec M ez loc_Exact ltac:(lia)) as H1; cbn zeta in H1; fold E in H1.
  all: destruct (shr_fexp prec emax (Z.pos M) ez loc_Exact) as [mrs' e'].
  all: destruct H1 as (He' & Hm' & Hpos').
  all: set (m2 := round_nearest_even (shr_m mrs') (loc_of_shr_record mrs')).
  all: assert (Hm2 : shr_m mrs' <= m2)
         by (unfold m2, round_nearest_even; destruct (loc_of_shr_record mrs') as [|[]];
             try destruct (Z.even (shr_m mrs')); lia).
  all: destruct m2 as [|p2|p2] eqn:Em2; [lia| |lia].
  all: pose proof (shr_fexp_spec p2 e' loc_Exact ltac:(lia)) as H2; cbn zeta in H2.
  all: destruct (shr_fexp prec emax (Z.pos p2) e' loc_Exact) as [mrs'' e''].
  all: destruct H2 as (He'' & Hm'' & Hpos'').
  all: destruct (shr_m mrs'') as [|m3|m3] eqn:Em3; [lia| |lia].
  all: destruct (e'' <=? emax - prec); [|reflexivity].
  all: unfold SFltb; cbn [SFcompare].
  all: destruct (Z.compare_spec e'' ex) as [Heq|Hlt|Hgt]; [|lia|reflexivity].
  all: assert (e' = ex /\ E = ex /\ Z.max e' (fexp prec emax (Z.pos (digits2_pos p2) + e')) - e' = 0) as (-> & HEx & Hz) by lia.
  all: rewrite Hz, Z.pow_0_r, Z.div_1_r in Hm''.
  all: assert (Hmx : Z.pos mx <= shr_m mrs').
  all: try (rewrite Hm'; replace (Z.max ez E - ez) with (ex - ez) by lia;
            apply Z.div_le_lower_bound; [apply Z.pow_pos_nonneg; lia|lia]).
  all: change (PosDef.Pos.compare_cont Eq m3 mx) with (Pos.compare m3 mx).
  all: destruct (Pos.compare_spec m3 mx) as [?|Hc|?]; try reflexivity; lia.
Qed.

(** After a credit the funds cover a debit of the same amount. *)
Lemma add_covers_amount (b x : Number) :
  nonneg b -> amount_valid x = true -> ((b + x) <? x)%float = false.
Proof.
  rewrite nonneg_iff, amount_valid_shape, ltb_spec, add_spec. intros Hb (mx & ex & Hx).
  pose proof (canonical_Prim2SF _ _ _ _ Hx) as Cx.
  pose proof (canonical_facts _ _ Cx) as (Hex & _). rewrite Hx.
  destruct (Prim2SF b) as [s|[]| |[] mb eb] eqn:Eb; try done.
  - unfold SFltb. cbn [SF64add SFadd]. rewrite SFcompare_val by done. now rewrite Z.compare_refl.
  - pose proof (canonical_Prim2SF _ _ _ _ Eb) as Cb.
    pose proof (canonical_facts _ _ Cb) as (Heb & _).
    unfold SF64add, SFadd. cbn [cond_Zopp Z.add binary_normalize].
    apply binary_round_ge; [done|lia|].
    rewrite Pos2Z.inj_add, (shl_align_val mx ex) by lia. lia.
Qed.

(** *** Assignments that change nothing *)

(** Two Numbers that are [===] are the same Number, unless both are
    zeros. *)
Lemma eqb_true (a b : Number) :
  (a =? b)%float = true ->
  a = b \/ exists s t, Prim2SF a = S754_zero s /\ Prim2SF b = S754_zero t.
Proof.
  rewrite eqb_spec. unfold SFeqb. intros H.
  destruct (Prim2SF a) as [sa|sa| |sa ma ea] eqn:Ea, (Prim2SF b) as [sb|sb| |sb mb eb] eqn:Eb;
    cbn [SFcompare] in H; try discriminate; try (destruct sa; discriminate);
    try (destruct sb; discriminate).
  - right. eauto.
  - left. apply Prim2SF_inj. rewrite Ea, Eb. destruct sa, sb; try discriminate; reflexivity.
  - left. apply Prim2SF_inj. rewrite Ea, Eb.
    destruct sa, sb; try discriminate.
    all: destruct (Z.compare_spec ea eb) as [->| |]; try discriminate.
    all: change (PosDef.Pos.compare_cont Eq ma mb) with (Pos.compare ma mb) in H.
    all: destruct (Pos.compare_spec ma mb) as [->| |]; try discriminate; reflexivity.
Qed.

(** A credit that leaves the balance [===] leaves it the same Number. *)
Lemma credit_written (b x : Number) :
  amount_valid x = true -> written b (b + x)%float = (b + x)%float.
Proof.
  intros Hv. unfold written. destruct (b + x =? b)%float eqn:E; [|reflexivity].
  apply eqb_true in E as [E|(s & t & Es & Et)]; [now rewrite E|].
  apply amount_valid_shape in Hv as (m & e & Hx).
  rewrite add_spec, Et, Hx in Es. discriminate.
Qed.

(** So does a debit. *)
Lemma debit_written (b x : Number) :
  amount_valid x = true -> written b (b - x)%float = (b - x)%float.
Proof.
  intros Hv. unfold written. destruct (b - x =? b)%float eqn:E; [|reflexivity].
  apply eqb_true in E as [E|(s & t & Es & Et)]; [now rewrite E|].
  apply amount_valid_shape in Hv as (m & e & Hx).
  rewrite sub_spec, Et, Hx in Es. discriminate.
Qed.

(** Negating a Number makes no NaN of it. *)
Lemma is_nan_opp (y : Number) : is_nan (- y)%float = is_nan y.
Proof.
  unfold is_nan. rewrite !eqb_spec, opp_spec.
  destruct (Prim2SF y) as [s|s| |s m e]; [reflexivity|now destruct s|reflexivity|].
  unfold SFeqb, SFopp. destruct s; cbn [SFcompare negb]; rewrite Z.compare_refl;
    change (PosDef.Pos.compare_cont Eq m m) with (Pos.compare m m);
    now rewrite Pos.compare_refl.
Qed.

(** *** Sums that are binary64 numbers *)

Lemma val_inj m1 e1 m2 e2 :
  canonical m1 e1 -> canonical m2 e2 -> val m1 e1 = val m2 e2 -> m1 = m2 /\ e1 = e2.
Proof.
  intros C1 C2 H. pose proof (SFcompare_val _ _ _ _ C1 C2) as Hc.
  rewrite H, Z.compare_refl in Hc. cbn [SFcompare] in Hc.
  destruct (Z.compare_spec e1 e2) as [->| |]; try discriminate.
  change (PosDef.Pos.compare_cont Eq m1 m2) with (Pos.compare m1 m2) in Hc.
  injection Hc as Hc. now apply Pos.compare_eq in Hc.
Qed.

(** The Number of a positive value. *)
Lemma exact_positive (z : Number) v :
  exact z = Some v -> 0 < v -> exists m e, Prim2SF z = S754_finite false m e /\ v = val m e.
Proof.
  unfold exact. intros Hz Hv.
  destruct (Prim2SF z) as [s|s| |s m e] eqn:Ez; try discriminate.
  - simpl in Hz. injection Hz as <-. lia.
  - apply scaled_positive in Hz as [-> ->]; eauto.
Qed.

(** A credit whose exact value is a binary64 number [z] gives [z]: the
    balance then grows by exactly the amount. *)
Lemma add_representable (b x z : Number) v :
  nonneg b -> amount_valid x = true ->
  exact_sum b x = Some v -> exact z = Some v ->
  (b + x)%float = z.
Proof.
  rewrite nonneg_iff, amount_valid_shape. intros Hb (mx & ex & Hx) Hsum Hz.
  pose proof (canonical_Prim2SF _ _ _ _ Hx) as Cx.
  pose proof (canonical_facts _ _ Cx) as (Hex & _).
  pose proof (val_pos mx ex ltac:(lia)) as Hvx.
  unfold exact_sum, exact in Hsum. rewrite Hx in Hsum. cbn [scaled cond_Zopp] in Hsum.
  fold (val mx ex) in Hsum.
  apply Prim2SF_inj. rewrite add_spec, Hx.
  destruct (Prim2SF b) as [s|[]| |[] mb eb] eqn:Eb; simpl in Hb; try done;
    cbn [scaled cond_Zopp] in Hsum; try discriminate.
  - injection Hsum as <-. rewrite Z.add_0_l in Hz.
    apply exact_positive in Hz as (mz & ez & Ez & Hv); [|done].
    pose proof (canonical_Prim2SF _ _ _ _ Ez) as Cz.
    destruct (val_inj _ _ _ _ Cx Cz Hv) as [-> ->]. now rewrite Ez.
  - fold (val mb eb) in Hsum. injection Hsum as <-.
    pose proof (canonical_Prim2SF _ _ _ _ Eb) as Cb.
    pose proof (canonical_facts _ _ Cb) as (Heb & _).
    pose proof (val_pos mb eb ltac:(lia)) as Hvb.
    apply exact_positive in Hz as (mz & ez & Ez & Hv); [|lia].
    pose proof (canonical_Prim2SF _ _ _ _ Ez) as Cz.
    rewrite Ez. unfold SF64add, SFadd. cbn [cond_Zopp].
    apply binary_normalize_exact; [done|lia|].
    rewrite Z.mul_add_distr_r, !aligned_val by lia. lia.
Qed.

(** Such a sum is not [===] the balance. *)
Lemma representable_sum_differs (b x z : Number) v :
  nonneg b -> amount_valid x = true ->
  exact_sum b x = Some v -> exact z = Some v ->
  (z =? b)%float = false.
Proof.
  intros Hb Hv Hsum Hz. destruct (z =? b)%float eqn:E; [|reflexivity]. exfalso.
  apply amount_valid_shape in Hv as (mx & ex & Hx).
  pose proof (canonical_Prim2SF _ _ _ _ Hx) as Cx.
  pose proof (canonical_facts _ _ Cx) as (Hex & _).
  pose proof (val_pos mx ex ltac:(lia)) as Hvx.
  unfold exact_sum, exact in Hsum. rewrite Hx in Hsum. cbn [scaled cond_Zopp] in Hsum.
  fold (val mx ex) in Hsum.
  apply eqb_true in E as [->|(s & t & Es & Et)].
  - unfold exact in Hz. destruct (scaled (Prim2SF b)) as [vb|]; [|discriminate].
    injection Hsum as <-. injection Hz as Hz. lia.
  - rewrite Et in Hsum. cbn [scaled] in Hsum. injection Hsum as <-.
    unfold exact in Hz. rewrite Es in Hz. cbn [scaled] in Hz. injection Hz as Hz. lia.
Qed.

End Binary64.

(* ===================================================================== *)
(** ** Running the store *)
(* ===================================================================== *)

Lemma calls_ok_tick n w : calls_ok (S n) w = true -> calls_ok n (tick w) = true.
Proof.
  unfold calls_ok, tick. destruct w as [acs txs us fs]; simpl.
  destruct fs as [|[] fs]; simpl; try discriminate; auto.
  now destruct n.
Qed.

Lemma calls_ok_pred n w : calls_ok (S n) w = true -> calls_ok n w = true.
Proof.
  unfold calls_ok. generalize (faults w). induction n as [|n IH]; intros fs; [reflexivity|].
  destruct fs as [|f fs]; [reflexivity|]. change (take (S (S n)) (f :: fs)) with (f :: take (S n) fs).
  change (take (S n) (f :: fs)) with (f :: take n fs). simpl.
  destruct (negb f); [apply IH | discriminate].
Qed.

Lemma calls_ok_set_accounts n m w : calls_ok n (set_accounts m w) = calls_ok n w.
Proof. reflexivity. Qed.
Lemma calls_ok_set_transactions n l w : calls_ok n (set_transactions l w) = calls_ok n w.
Proof. reflexivity. Qed.
Lemma calls_ok_set_users n l w : calls_ok n (set_users l w) = calls_ok n w.
Proof. reflexivity. Qed.

Lemma store_call_ok w : calls_ok 1 w = true -> store_call w = (Normal tt, tick w).
Proof.
  unfold calls_ok, store_call. destruct (faults w) as [|[] fs]; simpl; done.
Qed.

Lemma store_call_fault w fs : faults w = true :: fs -> store_call w = (Throw StoreError, tick w).
Proof. unfold store_call. now intros ->. Qed.

Lemma bind_findOne {B} q (k : option Account.t -> M B) w :
  calls_ok 1 w = true ->
  bind (Account_findOne q) k w = k (found q w) (tick w).
Proof.
  intros H. unfold Account_findOne, bind. now rewrite (store_call_ok _ H).
Qed.

Lemma set_accounts_same w : set_accounts (accounts w) w = w.
Proof. now destruct w. Qed.

Lemma set_balance_same a : Account.set_balance (Account.balance a) a = a.
Proof. now destruct a. Qed.

(** Saving the one document of a record. *)
Lemma saved_own a y :
  saved a (Account.set_balance y a) a = Account.set_balance (written (Account.balance a) y) a.
Proof.
  unfold saved, written. cbn [Account.balance Account.set_balance].
  destruct (y =? Account.balance a)%float; [now rewrite set_balance_same|reflexivity].
Qed.

Lemma bind_Account_save {B} loaded doc stored (k : unit -> M B) w :
  calls_ok 1 w = true ->
  accounts w !! Account._id doc = Some stored ->
  bind (Account_save loaded doc) k w =
    k tt (set_accounts (<[Account._id doc := saved loaded doc stored]> (accounts w)) (tick w)).
Proof.
  intros H Hs. unfold Account_save, bind. rewrite (store_call_ok _ H).
  unfold get_world, saved. change (accounts (tick w)) with (accounts w). rewrite Hs.
  destruct (Account.balance doc =? Account.balance loaded)%float; [|reflexivity].
  unfold ret. rewrite insert_id by done.
  now rewrite <- (set_accounts_same (tick w)) at 1.
Qed.

(** The same for the only document of its record, with a new balance. *)
Lemma bind_Account_save_own {B} a y (k : unit -> M B) w :
  calls_ok 1 w = true ->
  accounts w !! Account._id a = Some a ->
  bind (Account_save a (Account.set_balance y a)) k w =
    k tt (set_accounts
            (<[Account._id a := Account.set_balance (written (Account.balance a) y) a]> (accounts w))
            (tick w)).
Proof.
  intros H Hs. rewrite (bind_Account_save _ _ a) by done. now rewrite saved_own.
Qed.

Lemma bind_Transaction_save {B} t (k : unit -> M B) w :
  calls_ok 1 w = true ->
  bind (Transaction_save t) k w = k tt (set_transactions (transactions w ++ [t]) (tick w)).
Proof.
  intros H. unfold Transaction_save, bind. now rewrite (store_call_ok _ H).
Qed.

Lemma bind_fault {A B} (op : M A) (k : A -> M B) w fs :
  faults w = true :: fs ->
  (forall w0, faults w0 = true :: fs -> op w0 = (Throw StoreError, tick w0)) ->
  bind op k w = (Throw StoreError, tick w).
Proof. intros Hf Hop. unfold bind. now rewrite (Hop _ Hf). Qed.

Lemma Transaction_save_fault t w fs :
  faults w = true :: fs -> Transaction_save t w = (Throw StoreError, tick w).
Proof. intros H. unfold Transaction_save, bind. now rewrite (store_call_fault _ _ H). Qed.

Lemma found_owned i u w a :
  accounts w !! i = Some a ->
  Account._id a = i ->
  Account.userId a = u ->
  found (Account.by_ i (Some u)) w = Some a.
Proof.
  intros Ha Hi Hu. unfold found, Account.matches. simpl. rewrite Ha.
  now rewrite !bool_decide_eq_true_2.
Qed.

Lemma found_by_id i w a :
  accounts w !! i = Some a ->
  Account._id a = i ->
  found (Account.by_ i None) w = Some a.
Proof.
  intros Ha Hi. unfold found, Account.matches. simpl. rewrite Ha.
  now rewrite bool_decide_eq_true_2.
Qed.

Lemma found_Some q w a :
  found q w = Some a ->
  accounts w !! Account.f_id q = Some a /\
  Account._id a = Account.f_id q /\
  (forall u, Account.f_userId q = Some u -> Account.userId a = u).
Proof.
  unfold found, Account.matches. destruct (accounts w !! Account.f_id q) as [a0|]; [|done].
  case_bool_decide as Hi; [|done]. simpl.
  destruct (Account.f_userId q) as [u|].
  - case_bool_decide; [|done]. intros [= ->]. split_and!; [done..|]. now intros ? [= <-].
  - intros [= ->]. split_and!; done.
Qed.

Lemma found_other_owner i u w a :
  accounts w !! i = Some a ->
  Account.userId a <> u ->
  found (Account.by_ i (Some u)) w = None.
Proof.
  intros Ha Hu. unfold found, Account.matches. simpl. rewrite Ha.
  rewrite (bool_decide_eq_false_2 (Account.userId a = u)) by done.
  now rewrite andb_false_r.
Qed.

Lemma found_absent q w :
  accounts w !! Account.f_id q = None -> found q w = None.
Proof. intros Ha. unfold found. now rewrite Ha. Qed.

Lemma calls_ok_le m n w : (m <= n)%nat -> calls_ok n w = true -> calls_ok m w = true.
Proof.
  induction 1 as [|n Hle IH]; [done|]. intros H. apply IH, calls_ok_pred, H.
Qed.

(** Side conditions of the form [calls_ok k w' = true], where [w'] is the
    world a few calls after one that has [calls_ok n]. *)
Ltac calls :=
  repeat first [ rewrite calls_ok_set_accounts | rewrite calls_ok_set_transactions
               | rewrite calls_ok_set_users | apply calls_ok_tick ];
  match goal with
  | H : calls_ok _ ?w = true |- calls_ok _ ?w = true =>
      refine (calls_ok_le _ _ _ _ H); lia
  end.

(* ===================================================================== *)
(** ** The three money routes, run *)
(* ===================================================================== *)

Section Runs.
Variables (req : Request) (w : World).
Let userId := user_userId req.
Let accountId := params_accountId req.
Let receiverAccountId := body_receiverAccountId req.
Let amount := body_amount req.

Hypothesis valid : amount_valid amount = true.

Lemma not_found_run :
  calls_ok 1 w = true ->
  found (Account.by_ accountId (Some userId)) w = None ->
  post_deposit req w = (notFoundRes (Message "Account not found"), tick w) /\
  post_withdraw req w = (notFoundRes (Message "Account not found"), tick w).
Proof.
  intros Hok Hf. unfold post_deposit, post_withdraw, try_catch.
  fold amount userId accountId. rewrite valid. cbn [negb].
  rewrite !bind_findOne by calls. now rewrite Hf.
Qed.

Lemma deposit_run a :
  calls_ok 3 w = true ->
  found (Account.by_ accountId (Some userId)) w = Some a ->
  let a' := Account.set_balance (Account.balance a + amount)%float a in
  post_deposit req w =
    (successRes (AccountDoc a'),
     set_transactions (transactions w ++ [Transaction.mk userId (Account._id a) deposit amount])
       (tick (set_accounts (<[Account._id a := a']> (accounts w)) (tick (tick w))))).
Proof.
  intros Hok Hf a'. apply found_Some in Hf as Hs. destruct Hs as (Ha & Hi & _).
  simpl in Ha, Hi.
  unfold post_deposit, try_catch. fold amount userId accountId. rewrite valid. cbn [negb].
  rewrite bind_findOne by calls. rewrite Hf.
  rewrite bind_Account_save_own by (first [calls | simpl; congruence]).
  rewrite Binary64.credit_written by exact valid.
  rewrite bind_Transaction_save by calls.
  reflexivity.
Qed.

Lemma withdraw_run a :
  calls_ok 3 w = true ->
  found (Account.by_ accountId (Some userId)) w = Some a ->
  (Account.balance a <? amount)%float = false ->
  let a' := Account.set_balance (Account.balance a - amount)%float a in
  post_withdraw req w =
    (successRes (AccountDoc a'),
     set_transactions (transactions w ++ [Transaction.mk userId (Account._id a) withdrawal amount])
       (tick (set_accounts (<[Account._id a := a']> (accounts w)) (tick (tick w))))).
Proof.
  intros Hok Hf Hge a'. apply found_Some in Hf as Hs. destruct Hs as (Ha & Hi & _).
  simpl in Ha, Hi.
  unfold post_withdraw, try_catch. fold amount userId accountId. rewrite valid. cbn [negb].
  rewrite bind_findOne by calls. rewrite Hf, Hge.
  rewrite bind_Account_save_own by (first [calls | simpl; congruence]).
  rewrite Binary64.debit_written by exact valid.
  rewrite bind_Transaction_save by calls.
  reflexivity.
Qed.

Lemma transfer_run s r :
  calls_ok 6 w = true ->
  found (Account.by_ accountId (Some userId)) w = Some s ->
  found (Account.by_ receiverAccountId None) w = Some r ->
  (Account.balance s <? amount)%float = false ->
  let s' := Account.set_balance (Account.balance s - amount)%float s in
  let r' := Account.set_balance (Account.balance r + amount)%float r in
  let r'' :=
    saved r (Account.set_balance (Account.balance r + amount)%float r) (stored_receiver amount s r) in
  post_transfer req w =
    (successRes (TransferDocs s' r'),
     set_transactions
       ((transactions w ++ [Transaction.mk userId (Account._id s) transfer (- amount)%float])
          ++ [Transaction.mk (Account.userId r) (Account._id r) transfer amount])
       (tick (tick (set_accounts (<[Account._id r := r'']> (<[Account._id s := s']> (accounts w)))
                      (tick (tick (tick (tick w)))))))).
Proof.
  intros Hok Hs Hr Hge s' r' r''.
  apply found_Some in Hs as Hs'. destruct Hs' as (Has & His & _).
  assert (Hr2 : found (Account.by_ receiverAccountId None) (tick w) = Some r) by exact Hr.
  apply found_Some in Hr as Hr'. destruct Hr' as (Har & Hir & _).
  simpl in Has, His, Har, Hir.
  unfold post_transfer, try_catch.
  fold amount userId accountId receiverAccountId. rewrite valid. cbn [negb].
  rewrite bind_findOne by calls. rewrite bind_findOne by calls.
  rewrite Hs, Hr2, Hge.
  rewrite bind_Account_save_own by (first [calls | simpl; congruence]).
  rewrite Binary64.debit_written by exact valid.
  rewrite (bind_Account_save _ _ (stored_receiver amount s r)).
  2: calls.
  2:{ simpl. unfold stored_receiver. destruct (decide (Account._id s = Account._id r)) as [E|E].
      - rewrite <- E. apply lookup_insert_eq.
      - rewrite lookup_insert_ne by done. congruence. }
  rewrite bind_Transaction_save by calls.
  rewrite bind_Transaction_save by calls.
  reflexivity.
Qed.

Lemma sender_not_found_run :
  calls_ok 2 w = true ->
  found (Account.by_ accountId (Some userId)) w = None ->
  post_transfer req w = (notFoundRes (Message "Sender account not found"), tick (tick w)).
Proof.
  intros Hok Hf. unfold post_transfer, try_catch.
  fold amount userId accountId receiverAccountId. rewrite valid. cbn [negb].
  rewrite bind_findOne by calls. rewrite bind_findOne by calls. now rewrite Hf.
Qed.

Lemma receiver_not_found_run s :
  calls_ok 2 w = true ->
  found (Account.by_ accountId (Some userId)) w = Some s ->
  found (Account.by_ receiverAccountId None) w = None ->
  post_transfer req w = (notFoundRes (Message "Receiver account not found"), tick (tick w)).
Proof.
  intros Hok Hs Hr. unfold post_transfer, try_catch.
  fold amount userId accountId receiverAccountId. rewrite valid. cbn [negb].
  rewrite bind_findOne by calls. rewrite bind_findOne by calls. rewrite Hs.
  change (found (Account.by_ receiverAccountId None) (tick w))
    with (found (Account.by_ receiverAccountId None) w).
  now rewrite Hr.
Qed.

(** The transaction write of a deposit or a withdrawal throws. *)
Lemma deposit_audit_fault a fs :
  faults w = false :: false :: true :: fs ->
  found (Account.by_ accountId (Some userId)) w = Some a ->
  let a' := Account.set_balance (Account.balance a + amount)%float a in
  post_deposit req w =
    (serverErrorRes (Message "Internal server error"),
     tick (set_accounts (<[Account._id a := a']> (accounts w)) (tick (tick w)))).
Proof.
  intros Hfs Hf a'. apply found_Some in Hf as Hs. destruct Hs as (Ha & Hi & _).
  simpl in Ha, Hi.
  assert (Hok : calls_ok 2 w = true) by (unfold calls_ok; now rewrite Hfs).
  unfold post_deposit, try_catch. fold amount userId accountId. rewrite valid. cbn [negb].
  rewrite bind_findOne by calls. rewrite Hf.
  rewrite bind_Account_save_own by (first [calls | simpl; congruence]).
  rewrite Binary64.credit_written by exact valid.
  erewrite bind_fault; [reflexivity| |intros ?; apply Transaction_save_fault].
  simpl. rewrite Hfs. reflexivity.
Qed.

Lemma withdraw_audit_fault a fs :
  faults w = false :: false :: true :: fs ->
  found (Account.by_ accountId (Some userId)) w = Some a ->
  (Account.balance a <? amount)%float = false ->
  let a' := Account.set_balance (Account.balance a - amount)%float a in
  post_withdraw req w =
    (serverErrorRes (Message "Internal server error"),
     tick (set_accounts (<[Account._id a := a']> (accounts w)) (tick (tick w)))).
Proof.
  intros Hfs Hf Hge a'. apply found_Some in Hf as Hs. destruct Hs as (Ha & Hi & _).
  simpl in Ha, Hi.
  assert (Hok : calls_ok 2 w = true) by (unfold calls_ok; now rewrite Hfs).
  unfold post_withdraw, try_catch. fold amount userId accountId. rewrite valid. cbn [negb].
  rewrite bind_findOne by calls. rewrite Hf, Hge.
  rewrite bind_Account_save_own by (first [calls | simpl; congruence]).
  rewrite Binary64.debit_written by exact valid.
  erewrite bind_fault; [reflexivity| |intros ?; apply Transaction_save_fault].
  simpl. rewrite Hfs. reflexivity.
Qed.

(** The first transaction write of a transfer throws, after both balances
    were saved. *)
Lemma transfer_audit_fault s r fs :
  faults w = false :: false :: false :: false :: true :: fs ->
  found (Account.by_ accountId (Some userId)) w = Some s ->
  found (Account.by_ receiverAccountId None) w = Some r ->
  (Account.balance s <? amount)%float = false ->
  let s' := Account.set_balance (Account.balance s - amount)%float s in
  let r'' :=
    saved r (Account.set_balance (Account.balance r + amount)%float r) (stored_receiver amount s r) in
  post_transfer req w =
    (serverErrorRes (Message "Internal server error"),
     tick (set_accounts (<[Account._id r := r'']> (<[Account._id s := s']> (accounts w)))
             (tick (tick (tick (tick w)))))).
Proof.
  intros Hfs Hs Hr Hge s' r''.
  apply found_Some in Hs as Hs'. destruct Hs' as (Has & His & _).
  assert (Hr2 : found (Account.by_ receiverAccountId None) (tick w) = Some r) by exact Hr.
  apply found_Some in Hr as Hr'. destruct Hr' as (Har & Hir & _).
  simpl in Has, His, Har, Hir.
  assert (Hok : calls_ok 4 w = true) by (unfold calls_ok; now rewrite Hfs).
  unfold post_transfer, try_catch.
  fold amount userId accountId receiverAccountId. rewrite valid. cbn [negb].
  rewrite bind_findOne by calls. rewrite bind_findOne by calls.
  rewrite Hs, Hr2, Hge.
  rewrite bind_Account_save_own by (first [calls | simpl; congruence]).
  rewrite Binary64.debit_written by exact valid.
  rewrite (bind_Account_save _ _ (stored_receiver amount s r)).
  2: calls.
  2:{ simpl. unfold stored_receiver. destruct (decide (Account._id s = Account._id r)) as [E|E].
      - rewrite <- E. apply lookup_insert_eq.
      - rewrite lookup_insert_ne by done. congruence. }
  erewrite bind_fault; [reflexivity| |intros ?; apply Transaction_save_fault].
  simpl. rewrite Hfs. reflexivity.
Qed.

(** The second transaction write of a transfer throws. *)
Lemma transfer_second_leg_fault s r fs :
  faults w = false :: false :: false :: false :: false :: true :: fs ->
  found (Account.by_ accountId (Some userId)) w = Some s ->
  found (Account.by_ receiverAccountId None) w = Some r ->
  (Account.balance s <? amount)%float = false ->
  let s' := Account.set_balance (Account.balance s - amount)%float s in
  let r'' :=
    saved r (Account.set_balance (Account.balance r + amount)%float r) (stored_receiver amount s r) in
  post_transfer req w =
    (serverErrorRes (Message "Internal server error"),
     tick (set_transactions
             (transactions w ++ [Transaction.mk userId (Account._id s) transfer (- amount)%float])
             (tick (set_accounts (<[Account._id r := r'']> (<[Account._id s := s']> (accounts w)))
                      (tick (tick (tick (tick w)))))))).
Proof.
  intros Hfs Hs Hr Hge s' r''.
  apply found_Some in Hs as Hs'. destruct Hs' as (Has & His & _).
  assert (Hr2 : found (Account.by_ receiverAccountId None) (tick w) = Some r) by exact Hr.
  apply found_Some in Hr as Hr'. destruct Hr' as (Har & Hir & _).
  simpl in Has, His, Har, Hir.
  assert (Hok : calls_ok 5 w = true) by (unfold calls_ok; now rewrite Hfs).
  unfold post_transfer, try_catch.
  fold amount userId accountId receiverAccountId. rewrite valid. cbn [negb].
  rewrite bind_findOne by calls. rewrite bind_findOne by calls.
  rewrite Hs, Hr2, Hge.
  rewrite bind_Account_save_own by (first [calls | simpl; congruence]).
  rewrite Binary64.debit_written by exact valid.
  rewrite (bind_Account_save _ _ (stored_receiver amount s r)).
  2: calls.
  2:{ simpl. unfold stored_receiver. destruct (decide (Account._id s = Account._id r)) as [E|E].
      - rewrite <- E. apply lookup_insert_eq.
      - rewrite lookup_insert_ne by done. congruence. }
  rewrite bind_Transaction_save by calls.
  erewrite bind_fault; [reflexivity| |intros ?; apply Transaction_save_fault].
  simpl. rewrite Hfs. reflexivity.
Qed.

End Runs.

(* ===================================================================== *)
(** ** What a 200 tells *)
(* ===================================================================== *)

Lemma calls_ok_cons n w :
  calls_ok 1 w = true -> calls_ok n (tick w) = true -> calls_ok (S n) w = true.
Proof.
  unfold calls_ok, tick. destruct w as [acs txs us fs]; simpl.
  destruct fs as [|[] fs]; simpl; done.
Qed.

Lemma store_call_cases w :
  calls_ok 1 w = true /\ store_call w = (Normal tt, tick w) \/
  store_call w = (Throw StoreError, tick w).
Proof.
  unfold calls_ok, store_call. destruct (faults w) as [|[] fs]; simpl; auto.
Qed.

Lemma bind_findOne_cases {B} q (k : option Account.t -> M B) w :
  calls_ok 1 w = true /\ bind (Account_findOne q) k w = k (found q w) (tick w) \/
  bind (Account_findOne q) k w = (Throw StoreError, tick w).
Proof.
  destruct (store_call_cases w) as [[Hok Hc]|Hc].
  - left. split; [done|]. now apply bind_findOne.
  - right. unfold Account_findOne, bind. now rewrite Hc.
Qed.

Lemma bind_Account_save_cases {B} loaded doc (k : unit -> M B) w :
  (calls_ok 1 w = true /\
   exists stored, accounts w !! Account._id doc = Some stored /\
     bind (Account_save loaded doc) k w =
       k tt (set_accounts (<[Account._id doc := saved loaded doc stored]> (accounts w)) (tick w))) \/
  bind (Account_save loaded doc) k w = (Throw StoreError, tick w).
Proof.
  destruct (store_call_cases w) as [[Hok Hc]|Hc].
  - destruct (accounts w !! Account._id doc) as [stored|] eqn:Hs.
    + left. split; [done|]. exists stored. split; [done|]. now apply bind_Account_save.
    + right. unfold Account_save, bind. rewrite Hc. unfold get_world.
      change (accounts (tick w)) with (accounts w). now rewrite Hs.
  - right. unfold Account_save, bind. now rewrite Hc.
Qed.

Lemma bind_Transaction_save_cases {B} t (k : unit -> M B) w :
  calls_ok 1 w = true /\
    bind (Transaction_save t) k w = k tt (set_transactions (transactions w ++ [t]) (tick w)) \/
  bind (Transaction_save t) k w = (Throw StoreError, tick w).
Proof.
  destruct (store_call_cases w) as [[Hok Hc]|Hc].
  - left. split; [done|]. now apply bind_Transaction_save.
  - right. unfold Transaction_save, bind. now rewrite Hc.
Qed.

(** A transfer answers 200 only along one path: the amount is valid, the
    six store calls are answered, both accounts are found and the funds
    cover the amount. *)
Lemma transfer_success req w :
  status (fst (post_transfer req w)) = 200 ->
  amount_valid (body_amount req) = true /\
  calls_ok 6 w = true /\
  exists s r,
    found (Account.by_ (params_accountId req) (Some (user_userId req))) w = Some s /\
    found (Account.by_ (body_receiverAccountId req) None) w = Some r /\
    (Account.balance s <? body_amount req)%float = false.
Proof.
  unfold post_transfer, try_catch.
  destruct (amount_valid (body_amount req)) eqn:Hv; cbn [negb]; [|discriminate].
  match goal with |- context [bind (Account_findOne ?q) ?k ?w0] =>
    destruct (bind_findOne_cases q k w0) as [[H1 ->] | ->]; [|discriminate] end.
  match goal with |- context [bind (Account_findOne ?q) ?k ?w0] =>
    destruct (bind_findOne_cases q k w0) as [[H2 ->] | ->]; [|discriminate] end.
  change (found (Account.by_ (body_receiverAccountId req) None) (tick w))
    with (found (Account.by_ (body_receiverAccountId req) None) w).
  destruct (found (Account.by_ (params_accountId req) _) w) as [s|]; [|discriminate].
  destruct (found (Account.by_ (body_receiverAccountId req) None) w) as [r|]; [|discriminate].
  destruct (Account.balance s <? body_amount req)%float eqn:Hlt; [discriminate|].
  match goal with |- context [bind (Account_save ?l ?d) ?k ?w0] =>
    destruct (bind_Account_save_cases l d k w0) as [[H3 (st1 & _ & ->)] | ->]; [|discriminate] end.
  match goal with |- context [bind (Account_save ?l ?d) ?k ?w0] =>
    destruct (bind_Account_save_cases l d k w0) as [[H4 (st2 & _ & ->)] | ->]; [|discriminate] end.
  match goal with |- context [bind (Transaction_save ?t) ?k ?w0] =>
    destruct (bind_Transaction_save_cases t k w0) as [[H5 ->] | ->]; [|discriminate] end.
  match goal with |- context [bind (Transaction_save ?t) ?k ?w0] =>
    destruct (bind_Transaction_save_cases t k w0) as [[H6 ->] | ->]; [|discriminate] end.
  intros _. split; [done|]. split; [|eauto].
  rewrite ?calls_ok_set_accounts, ?calls_ok_set_transactions in *.
  repeat (apply calls_ok_cons; [assumption|]).
  reflexivity.
Qed.

(* ===================================================================== *)
(** ** The routes on the body as it was sent *)
(* ===================================================================== *)

(** On a body whose amount is a JSON number the handlers of [Sent] are the
    handlers given first. *)
Lemma post_deposit_sent js req : Sent.post_deposit js (sent req) = post_deposit req.
Proof. reflexivity. Qed.
Lemma post_withdraw_sent js req : Sent.post_withdraw js (sent req) = post_withdraw req.
Proof. reflexivity. Qed.
Lemma post_transfer_sent js req : Sent.post_transfer js (sent req) = post_transfer req.
Proof. reflexivity. Qed.

Lemma run_op_sent js op : Sent.run_op js (sent_op op) = run_op op.
Proof. now destruct op. Qed.

Lemma run_ops_sent js ops w : Sent.run_ops js (sent_op <$> ops) w = run_ops ops w.
Proof.
  revert w. induction ops as [|op ops IH]; intros w; [reflexivity|].
  cbn [fmap list_fmap Sent.run_ops run_ops]. rewrite run_op_sent.
  destruct (run_op op w) as [r w1]. now rewrite IH.
Qed.

Lemma number_sent req x :
  Sent.body_amount req = Sent.VNumber x ->
  req = sent (mkRequest (Sent.user_userId req) (Sent.params_accountId req)
                (Sent.body_receiverAccountId req) x).
Proof. destruct req as [u i r v]. simpl. now intros ->. Qed.

Lemma numbers_sent ops :
  Forall (fun op => exists x, Sent.op_amount op = Sent.VNumber x) ops ->
  exists ops', ops = sent_op <$> ops'.
Proof.
  induction 1 as [|op ops (x & Hx) _ (ops' & ->)]; [now exists []|].
  destruct op as [req|req|req]; simpl in Hx; apply number_sent in Hx.
  - eexists (Deposit _ :: ops'). simpl. now rewrite <- Hx.
  - eexists (Withdraw _ :: ops'). simpl. now rewrite <- Hx.
  - eexists (Transfer _ :: ops'). simpl. now rewrite <- Hx.
Qed.

Lemma castNumber_Some y z : Sent.castNumber y = Some z <-> is_nan y = false /\ z = y.
Proof.
  unfold Sent.castNumber. destruct (is_nan y); split; try (intros [= <-]; done);
    intros [? ->]; done.
Qed.

Lemma castNumber_None y : Sent.castNumber y = None <-> is_nan y = true.
Proof. unfold Sent.castNumber. destruct (is_nan y); split; done. Qed.

Lemma bind_throw {A B} e (k : A -> M B) w : bind (throw e) k w = (Throw e, w).
Proof. reflexivity. Qed.

Section SentRuns.
Variables (js : Sent.Runtime) (req : Sent.Request) (w : World).
Let userId := Sent.user_userId req.
Let accountId := Sent.params_accountId req.
Let receiverAccountId := Sent.body_receiverAccountId req.
Let amount := Sent.body_amount req.

Hypothesis valid : Sent.valid js amount = true.

Lemma sent_not_found_run :
  calls_ok 1 w = true ->
  found (Account.by_ accountId (Some userId)) w = None ->
  Sent.post_deposit js req w = (notFoundRes (Message "Account not found"), tick w).
Proof.
  intros Hok Hf. unfold Sent.post_deposit, try_catch.
  fold amount userId accountId. rewrite valid. cbn [negb].
  rewrite !bind_findOne by calls. now rewrite Hf.
Qed.

(** The deposit, when the cast of the new balance goes through. *)
Lemma sent_deposit_run a y :
  calls_ok 3 w = true ->
  found (Account.by_ accountId (Some userId)) w = Some a ->
  Sent.plus js (Account.balance a) amount = Some y ->
  let w2 :=
    set_accounts (<[Account._id a := Account.set_balance (written (Account.balance a) y) a]> (accounts w))
      (tick (tick w)) in
  Sent.post_deposit js req w =
    match Sent.cast js amount with
    | Some z =>
        (successRes (AccountDoc (Account.set_balance y a)),
         set_transactions (transactions w ++ [Transaction.mk userId (Account._id a) deposit z])
           (tick w2))
    | None => (serverErrorRes (Message "Internal server error"), w2)
    end.
Proof.
  intros Hok Hf Hy w2. apply found_Some in Hf as Hs. destruct Hs as (Ha & Hi & _).
  simpl in Ha, Hi.
  unfold Sent.post_deposit, try_catch. fold amount userId accountId. rewrite valid. cbn [negb].
  rewrite bind_findOne by calls. rewrite Hf, Hy. cbn [Sent.assign Sent.save fst snd].
  rewrite bind_Account_save_own by (first [calls | simpl; congruence]).
  destruct (Sent.cast js amount) as [z|]; cbn [Sent.Transaction_new_save].
  - rewrite bind_Transaction_save by calls. reflexivity.
  - reflexivity.
Qed.

(** The deposit, when the cast refuses the new balance. *)
Lemma sent_deposit_refused a :
  calls_ok 1 w = true ->
  found (Account.by_ accountId (Some userId)) w = Some a ->
  Sent.plus js (Account.balance a) amount = None ->
  Sent.post_deposit js req w = (serverErrorRes (Message "Internal server error"), tick w).
Proof.
  intros Hok Hf Hy.
  unfold Sent.post_deposit, try_catch. fold amount userId accountId. rewrite valid. cbn [negb].
  rewrite bind_findOne by calls. rewrite Hf, Hy. reflexivity.
Qed.

Lemma sent_withdraw_run a y :
  calls_ok 3 w = true ->
  found (Account.by_ accountId (Some userId)) w = Some a ->
  Sent.less js (Account.balance a) amount = false ->
  Sent.minus js (Account.balance a) amount = Some y ->
  let w2 :=
    set_accounts (<[Account._id a := Account.set_balance (written (Account.balance a) y) a]> (accounts w))
      (tick (tick w)) in
  Sent.post_withdraw js req w =
    match Sent.cast js amount with
    | Some z =>
        (successRes (AccountDoc (Account.set_balance y a)),
         set_transactions (transactions w ++ [Transaction.mk userId (Account._id a) withdrawal z])
           (tick w2))
    | None => (serverErrorRes (Message "Internal server error"), w2)
    end.
Proof.
  intros Hok Hf Hge Hy w2. apply found_Some in Hf as Hs. destruct Hs as (Ha & Hi & _).
  simpl in Ha, Hi.
  unfold Sent.post_withdraw, try_catch. fold amount userId accountId. rewrite valid. cbn [negb].
  rewrite bind_findOne by calls. rewrite Hf, Hge, Hy. cbn [Sent.assign Sent.save fst snd].
  rewrite bind_Account_save_own by (first [calls | simpl; congruence]).
  destruct (Sent.cast js amount) as [z|]; cbn [Sent.Transaction_new_save].
  - rewrite bind_Transaction_save by calls. reflexivity.
  - reflexivity.
Qed.

(** The record the receiver's [save] finds in a transfer: the sender's
    [save] has just written it when both documents are copies of one
    record. *)
Lemma sent_transfer_run s r ds cr n p :
  calls_ok 6 w = true ->
  found (Account.by_ accountId (Some userId)) w = Some s ->
  found (Account.by_ receiverAccountId None) w = Some r ->
  Sent.less js (Account.balance s) amount = false ->
  Sent.minus js (Account.balance s) amount = Some ds ->
  Sent.plus js (Account.balance r) amount = Some cr ->
  Sent.negated js amount = Some n ->
  Sent.cast js amount = Some p ->
  let s' := Account.set_balance ds s in
  let r' := Account.set_balance cr r in
  let s'' := Account.set_balance (written (Account.balance s) ds) s in
  let r'' := saved r r' (if decide (Account._id s = Account._id r) then s'' else r) in
  Sent.post_transfer js req w =
    (successRes (TransferDocs s' r'),
     set_transactions
       ((transactions w ++ [Transaction.mk userId (Account._id s) transfer n])
          ++ [Transaction.mk (Account.userId r) (Account._id r) transfer p])
       (tick (tick (set_accounts (<[Account._id r := r'']> (<[Account._id s := s'']> (accounts w)))
                      (tick (tick (tick (tick w)))))))).
Proof.
  intros Hok Hs Hr Hge Hds Hcr Hn Hp s' r' s'' r''.
  apply found_Some in Hs as Hs'. destruct Hs' as (Has & His & _).
  assert (Hr2 : found (Account.by_ receiverAccountId None) (tick w) = Some r) by exact Hr.
  apply found_Some in Hr as Hr'. destruct Hr' as (Har & Hir & _).
  simpl in Has, His, Har, Hir.
  unfold Sent.post_transfer, try_catch.
  fold amount userId accountId receiverAccountId. rewrite valid. cbn [negb].
  rewrite bind_findOne by calls. rewrite bind_findOne by calls.
  rewrite Hs, Hr2, Hge, Hds, Hcr, Hn, Hp.
  cbn [Sent.assign Sent.save Sent.Transaction_new_save fst snd].
  rewrite bind_Account_save_own by (first [calls | simpl; congruence]).
  rewrite (bind_Account_save _ _ (if decide (Account._id s = Account._id r) then s'' else r)).
  2: calls.
  2:{ simpl. destruct (decide (Account._id s = Account._id r)) as [E|E].
      - rewrite <- E. apply lookup_insert_eq.
      - rewrite lookup_insert_ne by done. congruence. }
  rewrite bind_Transaction_save by calls.
  rewrite bind_Transaction_save by calls.
  reflexivity.
Qed.

End SentRuns.

(** A transfer answers 200 only along one path: the amount is valid, the
    six store calls are answered, both accounts are found, the funds cover
    the amount, and the casts of both new balances and of both recorded
    amounts go through. *)
Lemma sent_transfer_success js req w :
  status (fst (Sent.post_transfer js req w)) = 200 ->
  Sent.valid js (Sent.body_amount req) = true /\
  calls_ok 6 w = true /\
  exists s r ds cr n p,
    found (Account.by_ (Sent.params_accountId req) (Some (Sent.user_userId req))) w = Some s /\
    found (Account.by_ (Sent.body_receiverAccountId req) None) w = Some r /\
    Sent.less js (Account.balance s) (Sent.body_amount req) = false /\
    Sent.minus js (Account.balance s) (Sent.body_amount req) = Some ds /\
    Sent.plus js (Account.balance r) (Sent.body_amount req) = Some cr /\
    Sent.negated js (Sent.body_amount req) = Some n /\
    Sent.cast js (Sent.body_amount req) = Some p.
Proof.
  unfold Sent.post_transfer, try_catch.
  destruct (Sent.valid js (Sent.body_amount req)) eqn:Hv; cbn [negb]; [|discriminate].
  match goal with |- context [bind (Account_findOne ?q) ?k ?w0] =>
    destruct (bind_findOne_cases q k w0) as [[H1 ->] | ->]; [|discriminate] end.
  match goal with |- context [bind (Account_findOne ?q) ?k ?w0] =>
    destruct (bind_findOne_cases q k w0) as [[H2 ->] | ->]; [|discriminate] end.
  change (found (Account.by_ (Sent.body_receiverAccountId req) None) (tick w))
    with (found (Account.by_ (Sent.body_receiverAccountId req) None) w).
  destruct (found (Account.by_ (Sent.params_accountId req) _) w) as [s|]; [|discriminate].
  destruct (found (Account.by_ (Sent.body_receiverAccountId req) None) w) as [r|]; [|discriminate].
  destruct (Sent.less js (Account.balance s) (Sent.body_amount req)) eqn:Hlt; [discriminate|].
  destruct (Sent.minus js (Account.balance s) (Sent.body_amount req)) as [ds|] eqn:Hds;
    cbn [Sent.assign Sent.save fst snd]; [|discriminate].
  match goal with |- context [bind (Account_save ?l ?d) ?k ?w0] =>
    destruct (bind_Account_save_cases l d k w0) as [[H3 (st1 & _ & ->)] | ->]; [|discriminate] end.
  destruct (Sent.plus js (Account.balance r) (Sent.body_amount req)) as [cr|] eqn:Hcr;
    cbn [Sent.assign Sent.save fst snd]; [|discriminate].
  match goal with |- context [bind (Account_save ?l ?d) ?k ?w0] =>
    destruct (bind_Account_save_cases l d k w0) as [[H4 (st2 & _ & ->)] | ->]; [|discriminate] end.
  destruct (Sent.negated js (Sent.body_amount req)) as [n|] eqn:Hn;
    cbn [Sent.Transaction_new_save]; [|discriminate].
  match goal with |- context [bind (Transaction_save ?t) ?k ?w0] =>
    destruct (bind_Transaction_save_cases t k w0) as [[H5 ->] | ->]; [|discriminate] end.
  destruct (Sent.cast js (Sent.body_amount req)) as [p|] eqn:Hp;
    cbn [Sent.Transaction_new_save]; [|discriminate].
  match goal with |- context [bind (Transaction_save ?t) ?k ?w0] =>
    destruct (bind_Transaction_save_cases t k w0) as [[H6 ->] | ->]; [|discriminate] end.
  intros _. split; [done|].
  split; [|eexists _, _, _, _, _, _; split_and!; first [reflexivity | eassumption]].
  rewrite ?calls_ok_set_accounts, ?calls_ok_set_transactions in *.
  repeat (apply calls_ok_cons; [assumption|]).
  reflexivity.
Qed.

(* ===================================================================== *)
(** ** Deposit *)
(* ===================================================================== *)

(** C5, as amended.  A deposit of a valid amount into an existing account
    of the caller, the store answering.  When the amount was sent as a
    JSON number x: the stored balance becomes balance + x as binary64
    computes it, exactly one transaction is appended, of type [deposit]
    and amount x, and the answer is 200 with the updated account; the
    balance has grown by exactly x whenever the exact sum is a binary64
    number.  When it was sent as a string s: the new balance is the Number
    that the decimal string of the balance followed by s stands for; it is
    stored (unless [===] the old one) and the transaction records
    Number(s), and if the joined string stands for no number the answer is
    500 and nothing is written.  If no account has the id, or the account
    is another user's, the answer is 404 "Account not found" and nothing is
    written. *)
Theorem deposit_credits_or_not_found (js : Sent.Runtime) (req : Sent.Request) (w : World) :
  Sent.valid js (Sent.body_amount req) = true ->
  calls_ok 3 w = true ->
  (forall a,
     accounts w !! Sent.params_accountId req = Some a ->
     Account._id a = Sent.params_accountId req ->
     Account.userId a = Sent.user_userId req ->
     (forall x,
        Sent.body_amount req = Sent.VNumber x ->
        let a' := Account.set_balance (Account.balance a + x)%float a in
        exists w',
          Sent.post_deposit js req w = (successRes (AccountDoc a'), w') /\
          status (successRes (AccountDoc a')) = 200 /\
          accounts w' = <[Sent.params_accountId req := a']> (accounts w) /\
          balance_of (Sent.params_accountId req) w' = Some (Account.balance a + x)%float /\
          transactions w' =
            transactions w ++
              [Transaction.mk (Sent.user_userId req) (Sent.params_accountId req) deposit x] /\
          users w' = users w /\
          (forall z v,
             (0 <=? Account.balance a)%float = true ->
             exact_sum (Account.balance a) x = Some v ->
             exact z = Some v ->
             balance_of (Sent.params_accountId req) w' = Some z)) /\
     (forall s,
        Sent.body_amount req = Sent.VString s ->
        let y := Sent.js_Number js (String.append (Sent.js_String js (Account.balance a)) s) in
        (is_nan y = false ->
         is_nan (Sent.js_Number js s) = false ->
         exists w',
           Sent.post_deposit js req w = (successRes (AccountDoc (Account.set_balance y a)), w') /\
           balance_of (Sent.params_accountId req) w' = Some (written (Account.balance a) y) /\
           transactions w' =
             transactions w ++
               [Transaction.mk (Sent.user_userId req) (Sent.params_accountId req) deposit
                  (Sent.js_Number js s)]) /\
        (is_nan y = true ->
         exists w',
           Sent.post_deposit js req w = (serverErrorRes (Message "Internal server error"), w') /\
           accounts w' = accounts w /\ transactions w' = transactions w))) /\
  (accounts w !! Sent.params_accountId req = None \/
   (exists a, accounts w !! Sent.params_accountId req = Some a /\
              Account.userId a <> Sent.user_userId req) ->
   exists w',
     Sent.post_deposit js req w = (notFoundRes (Message "Account not found"), w') /\
     status (notFoundRes (Message "Account not found")) = 404 /\
     accounts w' = accounts w /\ transactions w' = transactions w /\ users w' = users w).
Proof.
  intros Hv Hok. split.
  - intros a Ha Hi Hu. pose proof (found_owned _ _ _ _ Ha Hi Hu) as Hf. split.
    + intros x Hx a'.
      pose proof (sent_deposit_run js req w Hv a (Account.balance a + x)%float Hok Hf) as Hrun.
      rewrite Hx in Hrun, Hv. cbn [Sent.plus Sent.cast Sent.valid] in Hrun, Hv.
      specialize (Hrun eq_refl). cbv zeta in Hrun.
      rewrite Binary64.credit_written in Hrun by done. rewrite Hrun, Hi. fold a'.
      eexists. split; [reflexivity|]. split_and!; try reflexivity.
      * unfold balance_of. simpl. now rewrite lookup_insert_eq.
      * intros z v Hn Hsum Hz. unfold balance_of. simpl. rewrite lookup_insert_eq. simpl.
        f_equal. now apply (Binary64.add_representable _ _ _ v).
    + intros s Hs y. split.
      * intros Hy Hz.
        pose proof (sent_deposit_run js req w Hv a y Hok Hf) as Hrun.
        rewrite Hs in Hrun. cbn [Sent.plus Sent.cast] in Hrun. fold y in Hrun.
        unfold Sent.castNumber in Hrun. rewrite Hy, Hz in Hrun.
        specialize (Hrun eq_refl). cbv zeta in Hrun. rewrite Hrun, Hi.
        eexists. split; [reflexivity|]. split; [|reflexivity].
        unfold balance_of. simpl. now rewrite lookup_insert_eq.
      * intros Hy. rewrite (sent_deposit_refused js req w Hv a); [|calls|exact Hf|].
        -- eexists. split; [reflexivity|]. done.
        -- rewrite Hs. cbn [Sent.plus]. fold y. now apply castNumber_None.
  - intros Hnone.
    assert (Hf : found (Account.by_ (Sent.params_accountId req) (Some (Sent.user_userId req))) w = None).
    { destruct Hnone as [Hn|(a & Ha & Hu)].
      - now apply found_absent.
      - now apply (found_other_owner _ _ _ a). }
    rewrite (sent_not_found_run js req w Hv ltac:(calls) Hf).
    eexists. split; [reflexivity|]. split_and!; reflexivity.
Qed.


(* ===================================================================== *)
(** ** Withdraw *)
(* ===================================================================== *)

(** C3. A withdrawal of more than the balance of an existing account of the
    caller (a valid amount, the lookup answered) is refused with
    "Insufficient funds", status 400; the stored accounts and the
    transaction log are as before. *)
Theorem withdraw_insufficient_funds (req : Request) (w : World) (a : Account.t) :
  calls_ok 1 w = true ->
  amount_valid (body_amount req) = true ->
  accounts w !! params_accountId req = Some a ->
  Account._id a = params_accountId req ->
  Account.userId a = user_userId req ->
  (Account.balance a <? body_amount req)%float = true ->
  exists w',
    post_withdraw req w = (clientErrorRes (Message "Insufficient funds"), w') /\
    status (clientErrorRes (Message "Insufficient funds")) = 400 /\
    accounts w' = accounts w /\
    transactions w' = transactions w.
Proof.
  intros Hok Hv Ha Hi Hu Hlt. exists (tick w). split; [|done].
  unfold post_withdraw, try_catch. rewrite Hv. cbn [negb].
  rewrite bind_findOne by calls.
  rewrite (found_owned _ _ _ a) by done.
  now rewrite Hlt.
Qed.

(* ===================================================================== *)
(** ** Transfer *)
(* ===================================================================== *)



(** C6. The sender is looked up by id and owner, the receiver by id alone.
    An absent sender, or one owned by somebody else, gives 404 "Sender
    account not found" (whatever the receiver); a sender that is found with
    an absent receiver gives 404 "Receiver account not found"; the two
    messages differ.  In both cases accounts and transactions stay as they
    were.  A receiver owned by someone other than the caller is found: the
    answer is then not a 404. *)
Theorem transfer_not_found (req : Request) (w : World) :
  amount_valid (body_amount req) = true ->
  calls_ok 6 w = true ->
  (accounts w !! params_accountId req = None \/
   (exists a, accounts w !! params_accountId req = Some a /\ Account.userId a <> user_userId req) ->
   exists w',
     post_transfer req w = (notFoundRes (Message "Sender account not found"), w') /\
     accounts w' = accounts w /\ transactions w' = transactions w) /\
  (forall s,
     accounts w !! params_accountId req = Some s ->
     Account._id s = params_accountId req ->
     Account.userId s = user_userId req ->
     accounts w !! body_receiverAccountId req = None ->
     exists w',
       post_transfer req w = (notFoundRes (Message "Receiver account not found"), w') /\
       accounts w' = accounts w /\ transactions w' = transactions w) /\
  notFoundRes (Message "Sender account not found")
    <> notFoundRes (Message "Receiver account not found") /\
  (forall s r,
     accounts w !! params_accountId req = Some s ->
     Account._id s = params_accountId req ->
     Account.userId s = user_userId req ->
     accounts w !! body_receiverAccountId req = Some r ->
     Account._id r = body_receiverAccountId req ->
     Account.userId r <> user_userId req ->
     status (fst (post_transfer req w)) <> 404).
Proof.
  intros Hv Hok. split_and!.
  - intros Hnone.
    assert (Hf : found (Account.by_ (params_accountId req) (Some (user_userId req))) w = None).
    { destruct Hnone as [Hn|(a & Ha & Hu)].
      - now apply found_absent.
      - now apply (found_other_owner _ _ _ a). }
    rewrite (sender_not_found_run req w Hv ltac:(calls) Hf).
    eexists. split; [reflexivity|]. done.
  - intros s Hs His Hus Hr.
    pose proof (found_owned _ _ _ _ Hs His Hus) as Hfs.
    rewrite (receiver_not_found_run req w Hv s ltac:(calls) Hfs (found_absent (Account.by_ _ None) _ Hr)).
    eexists. split; [reflexivity|]. done.
  - discriminate.
  - intros s r Hs His Hus Hr Hir _.
    pose proof (found_owned _ _ _ _ Hs His Hus) as Hfs.
    pose proof (found_by_id _ _ _ Hr Hir) as Hfr.
    destruct (Account.balance s <? body_amount req)%float eqn:Hlt.
    + unfold post_transfer, try_catch. rewrite Hv. cbn [negb].
      rewrite bind_findOne by calls. rewrite bind_findOne by calls.
      rewrite Hfs.
      change (found (Account.by_ (body_receiverAccountId req) None) (tick w))
        with (found (Account.by_ (body_receiverAccountId req) None) w).
      rewrite Hfr, Hlt. simpl. discriminate.
    + rewrite (transfer_run req w Hv s r Hok Hfs Hfr Hlt). simpl. discriminate.
Qed.


(** C10, as amended.  A transfer from an account to itself, by its owner,
    with funds for the amount, goes through (the store answering).  Two
    documents of the one record are loaded; the sender's is saved with the
    balance less the amount, then the receiver's with the balance plus the
    amount, each computed from the balance that was loaded.  For an amount
    sent as a JSON number x, the stored balance ends at balance + x, the
    receiver's write coming last, provided balance + x is not [===]
    balance; if it is, the receiver's [save] writes nothing and the stored
    balance ends at balance - x.  It ends at exactly the original balance
    plus x whenever that sum is a binary64 number.  For an amount sent as a
    string s it ends at the Number that the decimal string of the balance
    followed by s stands for, with the same proviso. *)
Theorem self_transfer_credits (js : Sent.Runtime) (req : Sent.Request) (w : World) (a : Account.t) :
  Sent.valid js (Sent.body_amount req) = true ->
  calls_ok 6 w = true ->
  Sent.body_receiverAccountId req = Sent.params_accountId req ->
  accounts w !! Sent.params_accountId req = Some a ->
  Account._id a = Sent.params_accountId req ->
  Account.userId a = Sent.user_userId req ->
  Sent.less js (Account.balance a) (Sent.body_amount req) = false ->
  (forall x,
     Sent.body_amount req = Sent.VNumber x ->
     exists w',
       Sent.post_transfer js req w =
         (successRes
            (TransferDocs
               (Account.set_balance (Account.balance a - x)%float a)
               (Account.set_balance (Account.balance a + x)%float a)), w') /\
       balance_of (Sent.params_accountId req) w' =
         Some (if (Account.balance a + x =? Account.balance a)%float
               then Account.balance a - x else Account.balance a + x)%float /\
       (forall z v,
          (0 <=? Account.balance a)%float = true ->
          exact_sum (Account.balance a) x = Some v ->
          exact z = Some v ->
          balance_of (Sent.params_accountId req) w' = Some z)) /\
  (forall s,
     Sent.body_amount req = Sent.VString s ->
     let d := (Account.balance a - Sent.js_Number js s)%float in
     let c := Sent.js_Number js (String.append (Sent.js_String js (Account.balance a)) s) in
     is_nan d = false -> is_nan c = false -> is_nan (Sent.js_Number js s) = false ->
     exists w',
       Sent.post_transfer js req w =
         (successRes (TransferDocs (Account.set_balance d a) (Account.set_balance c a)), w') /\
       balance_of (Sent.params_accountId req) w' =
         Some (if (c =? Account.balance a)%float then written (Account.balance a) d else c)).
Proof.
  intros Hv Hok Hself Ha Hi Hu Hge.
  pose proof (found_owned _ _ _ _ Ha Hi Hu) as Hfs.
  assert (Hfr : found (Account.by_ (Sent.body_receiverAccountId req) None) w = Some a)
    by (rewrite Hself; now apply found_by_id).
  assert (Hrun : forall ds cr n p,
            Sent.minus js (Account.balance a) (Sent.body_amount req) = Some ds ->
            Sent.plus js (Account.balance a) (Sent.body_amount req) = Some cr ->
            Sent.negated js (Sent.body_amount req) = Some n ->
            Sent.cast js (Sent.body_amount req) = Some p ->
            exists w',
              Sent.post_transfer js req w =
                (successRes (TransferDocs (Account.set_balance ds a) (Account.set_balance cr a)), w') /\
              balance_of (Sent.params_accountId req) w' =
                Some (if (cr =? Account.balance a)%float then written (Account.balance a) ds else cr)).
  { intros ds cr n p Hds Hcr Hn Hp.
    rewrite (sent_transfer_run js req w Hv a a ds cr n p Hok Hfs Hfr Hge Hds Hcr Hn Hp).
    eexists. split; [reflexivity|].
    unfold balance_of. simpl. rewrite decide_True by done. rewrite Hi, lookup_insert_eq.
    unfold saved. cbn [Account.balance Account.set_balance].
    now destruct (cr =? Account.balance a)%float. }
  split.
  - intros x Hx. rewrite Hx in Hv, Hrun. cbn [Sent.valid] in Hv.
    destruct (Hrun _ _ _ _ eq_refl eq_refl eq_refl eq_refl) as (w' & Hw' & Hb).
    rewrite Binary64.debit_written in Hb by done.
    exists w'. split_and!; [exact Hw'|exact Hb|].
    intros z v Hn Hsum Hz. rewrite Hb.
    rewrite (Binary64.add_representable _ _ _ v Hn Hv Hsum Hz).
    now rewrite (Binary64.representable_sum_differs _ _ _ v Hn Hv Hsum Hz).
  - intros s Hs d c Hd Hc Hz. rewrite Hs in Hrun. cbn [Sent.minus Sent.plus Sent.negated Sent.cast] in Hrun.
    apply (Hrun d c (- Sent.js_Number js s)%float (Sent.js_Number js s)).
    + now apply castNumber_Some.
    + now apply castNumber_Some.
    + apply castNumber_Some. now rewrite Binary64.is_nan_opp.
    + now apply castNumber_Some.
Qed.

(* ===================================================================== *)
(** ** A failing audit write *)
(* ===================================================================== *)

(** C9. When the lookup and the balance write of a deposit or a
    withdrawal are answered and the write of the transaction record throws,
    the handler answers 500 "Internal server error", the new balance stays
    in the store and the log has no record of it.  The same holds for a
    transfer whose first transaction write throws, after both balances were
    saved; when it is the second that throws, the balances stay and the
    log has the sender's leg alone. *)
Theorem audit_failure_keeps_balance (req : Request) (w : World) (s : Account.t) (fs : list bool) :
  amount_valid (body_amount req) = true ->
  accounts w !! params_accountId req = Some s ->
  Account._id s = params_accountId req ->
  Account.userId s = user_userId req ->
  let failed := serverErrorRes (Message "Internal server error") in
  let credited := Account.set_balance (Account.balance s + body_amount req)%float s in
  let debited := Account.set_balance (Account.balance s - body_amount req)%float s in
  status failed = 500 /\
  (faults w = [false; false; true] ++ fs ->
   exists w',
     post_deposit req w = (failed, w') /\
     accounts w' = <[params_accountId req := credited]> (accounts w) /\
     transactions w' = transactions w) /\
  (faults w = [false; false; true] ++ fs ->
   (body_amount req <=? Account.balance s)%float = true ->
   exists w',
     post_withdraw req w = (failed, w') /\
     accounts w' = <[params_accountId req := debited]> (accounts w) /\
     transactions w' = transactions w) /\
  (forall r,
     accounts w !! body_receiverAccountId req = Some r ->
     Account._id r = body_receiverAccountId req ->
     params_accountId req <> body_receiverAccountId req ->
     (body_amount req <=? Account.balance s)%float = true ->
     let received := Account.set_balance (Account.balance r + body_amount req)%float r in
     (faults w = [false; false; false; false; true] ++ fs ->
      exists w',
        post_transfer req w = (failed, w') /\
        accounts w' =
          <[body_receiverAccountId req := received]>
            (<[params_accountId req := debited]> (accounts w)) /\
        transactions w' = transactions w) /\
     (faults w = [false; false; false; false; false; true] ++ fs ->
      exists w',
        post_transfer req w = (failed, w') /\
        accounts w' =
          <[body_receiverAccountId req := received]>
            (<[params_accountId req := debited]> (accounts w)) /\
        transactions w' =
          transactions w ++
            [Transaction.mk (user_userId req) (params_accountId req) transfer
               (- body_amount req)%float])).
Proof.
  intros Hv Hs His Hus failed credited debited.
  pose proof (found_owned _ _ _ _ Hs His Hus) as Hfs.
  split; [reflexivity|]. split_and!.
  - intros Hf. rewrite (deposit_audit_fault req w Hv s fs Hf Hfs).
    eexists. split; [reflexivity|]. simpl. now rewrite His.
  - intros Hf Hge. apply Binary64.ltb_false_of_leb in Hge.
    rewrite (withdraw_audit_fault req w Hv s fs Hf Hfs Hge).
    eexists. split; [reflexivity|]. simpl. now rewrite His.
  - intros r Hr Hir Hne Hge received.
    pose proof (found_by_id _ _ _ Hr Hir) as Hfr.
    apply Binary64.ltb_false_of_leb in Hge. split; intros Hf.
    + rewrite (transfer_audit_fault req w Hv s r fs Hf Hfs Hfr Hge).
      eexists. split; [reflexivity|]. simpl.
      unfold stored_receiver. rewrite decide_False by congruence.
      rewrite saved_own, Binary64.credit_written by done.
      now rewrite His, Hir.
    + rewrite (transfer_second_leg_fault req w Hv s r fs Hf Hfs Hfr Hge).
      eexists. split; [reflexivity|]. simpl.
      unfold stored_receiver. rewrite decide_False by congruence.
      rewrite saved_own, Binary64.credit_written by done.
      now rewrite His, Hir.
Qed.

(* ===================================================================== *)
(** ** Conservation *)
(* ===================================================================== *)



(** C1, as amended.  A transfer that answers 200 between two different
    accounts: the sender is the caller's and does not hold less than the
    amount, and no account but the two changes.  When the amount was sent
    as a JSON number x, the store holds balance - x for the sender and
    balance + x for the receiver, both computed in binary64; when neither
    operation rounds, the two balances add up to what they added up to
    before.  When it was sent as a string s, the sender's balance is
    lowered by Number(s), and the receiver's becomes the Number that the
    decimal string of its balance followed by s stands for (a balance that
    is [===] the old one is not written). *)
Theorem transfer_moves_amount (js : Sent.Runtime) (req : Sent.Request) (w : World) :
  status (fst (Sent.post_transfer js req w)) = 200 ->
  Sent.params_accountId req <> Sent.body_receiverAccountId req ->
  exists s r,
    accounts w !! Sent.params_accountId req = Some s /\
    accounts w !! Sent.body_receiverAccountId req = Some r /\
    Account.userId s = Sent.user_userId req /\
    Sent.less js (Account.balance s) (Sent.body_amount req) = false /\
    (forall x,
       Sent.body_amount req = Sent.VNumber x ->
       balance_of (Sent.params_accountId req) (snd (Sent.post_transfer js req w))
         = Some (Account.balance s - x)%float /\
       balance_of (Sent.body_receiverAccountId req) (snd (Sent.post_transfer js req w))
         = Some (Account.balance r + x)%float /\
       (exact_sub (Account.balance s) x ->
        exact_add (Account.balance r) x ->
        exact_sum (Account.balance s - x)%float (Account.balance r + x)%float
          = exact_sum (Account.balance s) (Account.balance r))) /\
    (forall str,
       Sent.body_amount req = Sent.VString str ->
       balance_of (Sent.params_accountId req) (snd (Sent.post_transfer js req w))
         = Some (written (Account.balance s) (Account.balance s - Sent.js_Number js str)%float) /\
       balance_of (Sent.body_receiverAccountId req) (snd (Sent.post_transfer js req w))
         = Some (written (Account.balance r)
                   (Sent.js_Number js (String.append (Sent.js_String js (Account.balance r)) str)))) /\
    (forall i, i <> Sent.params_accountId req -> i <> Sent.body_receiverAccountId req ->
               accounts (snd (Sent.post_transfer js req w)) !! i = accounts w !! i).
Proof.
  intros H200 Hne.
  apply sent_transfer_success in H200
    as (Hv & Hok & s & r & ds & cr & n & p & Hfs & Hfr & Hge & Hds & Hcr & Hn & Hp).
  exists s, r.
  rewrite (sent_transfer_run js req w Hv s r ds cr n p Hok Hfs Hfr Hge Hds Hcr Hn Hp).
  apply found_Some in Hfs as (Hs & His & Hus). apply found_Some in Hfr as (Hr & Hir & _).
  simpl in Hs, His, Hus, Hr, Hir. specialize (Hus _ eq_refl).
  unfold balance_of. simpl. rewrite decide_False by congruence. rewrite saved_own.
  rewrite His, Hir. split_and!; try done.
  - intros x Hx. rewrite Hx in Hv, Hds, Hcr. cbn [Sent.valid Sent.minus Sent.plus] in Hv, Hds, Hcr.
    injection Hds as <-. injection Hcr as <-.
    rewrite Binary64.credit_written, Binary64.debit_written by done.
    rewrite lookup_insert_ne, !lookup_insert_eq by done. split_and!; try reflexivity.
    intros (vs & vx & Es & Ex & Es') (vr & vx' & Er & Ex' & Er').
    rewrite Ex in Ex'. injection Ex' as <-.
    unfold exact_sum. rewrite Es, Er, Es', Er'. f_equal. lia.
  - intros str Hx. rewrite Hx in Hds, Hcr. cbn [Sent.minus Sent.plus] in Hds, Hcr.
    apply castNumber_Some in Hds as [_ ->]. apply castNumber_Some in Hcr as [_ ->].
    rewrite lookup_insert_ne, !lookup_insert_eq by done. done.
  - intros i H1 H2. now rewrite !lookup_insert_ne.
Qed.

(** C8, as amended.  On an account of the caller with balance b >= 0, the
    store answering.  A deposit of a valid amount sent as a JSON number x
    followed by a withdrawal of x both go through, and the balance stored
    at the end is (b + x) - x, computed in binary64: it equals b whenever
    the sum b + x is computed without rounding.  With an amount sent as a
    string s, the deposit leaves b1, the Number that the decimal string of
    b followed by s stands for, and the withdrawal, if b1 covers Number(s),
    leaves b1 - Number(s) (a balance that is [===] the one before is not
    written). *)
Theorem deposit_then_withdraw_restores
  (js : Sent.Runtime) (req : Sent.Request) (w : World) (a : Account.t) :
  Sent.valid js (Sent.body_amount req) = true ->
  calls_ok 6 w = true ->
  accounts w !! Sent.params_accountId req = Some a ->
  Account._id a = Sent.params_accountId req ->
  Account.userId a = Sent.user_userId req ->
  (0 <=? Account.balance a)%float = true ->
  (forall x,
     Sent.body_amount req = Sent.VNumber x ->
     exists a1 a2 w2,
       Sent.run_ops js [Sent.Deposit req; Sent.Withdraw req] w =
         ([successRes (AccountDoc a1); successRes (AccountDoc a2)], w2) /\
       balance_of (Sent.params_accountId req) w2 = Some (Account.balance a2) /\
       Account.balance a2 = ((Account.balance a + x) - x)%float /\
       (exact_add (Account.balance a) x ->
        (Account.balance a2 =? Account.balance a)%float = true)) /\
  (forall s,
     Sent.body_amount req = Sent.VString s ->
     let b1 :=
       written (Account.balance a)
         (Sent.js_Number js (String.append (Sent.js_String js (Account.balance a)) s)) in
     let b2 := written b1 (b1 - Sent.js_Number js s)%float in
     is_nan (Sent.js_Number js (String.append (Sent.js_String js (Account.balance a)) s)) = false ->
     is_nan (Sent.js_Number js s) = false ->
     (b1 <? Sent.js_Number js s)%float = false ->
     is_nan (b1 - Sent.js_Number js s)%float = false ->
     exists a1 a2 w2,
       Sent.run_ops js [Sent.Deposit req; Sent.Withdraw req] w =
         ([successRes (AccountDoc a1); successRes (AccountDoc a2)], w2) /\
       balance_of (Sent.params_accountId req) w2 = Some b2).
Proof.
  intros Hv Hok Ha Hi Hu Hb.
  pose proof (found_owned _ _ _ _ Ha Hi Hu) as Hf. split.
  - intros x Hx.
    rewrite (number_sent _ _ Hx). change (Sent.run_ops js [?o1; ?o2] w)
      with (Sent.run_ops js (sent_op <$> [Deposit (mkRequest (Sent.user_userId req)
              (Sent.params_accountId req) (Sent.body_receiverAccountId req) x);
            Withdraw (mkRequest (Sent.user_userId req)
              (Sent.params_accountId req) (Sent.body_receiverAccountId req) x)]) w).
    rewrite run_ops_sent.
    set (req' := mkRequest _ _ _ x). simpl Sent.params_accountId.
    rewrite Hx in Hv. cbn [Sent.valid] in Hv.
    change x with (body_amount req') in Hv |- *.
    change (Sent.params_accountId req) with (params_accountId req') in Ha, Hi |- *.
    change (Sent.user_userId req) with (user_userId req') in Hu, Hf.
    pose proof (Binary64.add_covers_amount _ _ Hb Hv) as Hge.
    set (a1 := Account.set_balance (Account.balance a + body_amount req')%float a).
    set (a2 := Account.set_balance (Account.balance a1 - body_amount req')%float a1).
    exists a1, a2. cbn [run_ops run_op].
    rewrite (deposit_run req' w Hv a ltac:(calls) Hf). fold a1.
    match goal with |- context [post_withdraw req' ?x] => set (w1 := x) end.
    assert (Hf1 : found (Account.by_ (params_accountId req') (Some (user_userId req'))) w1 = Some a1).
    { apply found_owned; [|done..]. subst w1. simpl. rewrite Hi. apply lookup_insert_eq. }
    assert (Hok1 : calls_ok 3 w1 = true) by (subst w1; calls).
    rewrite (withdraw_run req' w1 Hv a1 Hok1 Hf1 Hge). fold a2.
    eexists. split; [reflexivity|]. split_and!; [|reflexivity|].
    + unfold balance_of. simpl. rewrite Hi. now rewrite lookup_insert_eq.
    + intros Hex. now apply Binary64.add_then_sub_exact.
  - intros s Hs b1 b2 Hy Hz Hge Hd.
    set (y := Sent.js_Number js (String.append (Sent.js_String js (Account.balance a)) s)) in *.
    cbn [Sent.run_ops Sent.run_op].
    pose proof (sent_deposit_run js req w Hv a y ltac:(calls) Hf) as Hrun.
    rewrite Hs in Hrun. cbn [Sent.plus Sent.cast] in Hrun. fold y in Hrun.
    unfold Sent.castNumber in Hrun. rewrite Hy, Hz in Hrun.
    specialize (Hrun eq_refl). cbv zeta in Hrun. rewrite Hrun. clear Hrun. fold b1.
    match goal with |- context [Sent.post_withdraw js req ?x] => set (w1 := x) end.
    set (a1 := Account.set_balance b1 a).
    assert (Hf1 : found (Account.by_ (Sent.params_accountId req) (Some (Sent.user_userId req))) w1
                  = Some a1).
    { apply found_owned; [|done..]. subst w1. simpl. rewrite Hi. apply lookup_insert_eq. }
    assert (Hok1 : calls_ok 3 w1 = true) by (subst w1; calls).
    pose proof (sent_withdraw_run js req w1 Hv a1 (b1 - Sent.js_Number js s)%float Hok1 Hf1) as Hrun.
    rewrite Hs in Hrun. cbn [Sent.less Sent.ToNumber Sent.minus Sent.cast] in Hrun.
    change (Account.balance a1) with b1 in Hrun.
    unfold Sent.castNumber in Hrun. rewrite Hd, Hz in Hrun.
    specialize (Hrun Hge eq_refl). cbv zeta in Hrun. rewrite Hrun. clear Hrun.
    eexists _, _, _. split; [reflexivity|].
    unfold balance_of. simpl. rewrite Hi. now rewrite lookup_insert_eq.
Qed.

(* ===================================================================== *)
(** ** The balance invariant *)
(* ===================================================================== *)

Section Invariant.
Variable i : ObjectId.

Lemma keeps_ret {A} (a : A) (Q : A -> Prop) : Q a -> keeps i (ret a) Q.
Proof. intros H w Hw. now split. Qed.

Lemma keeps_bind {A B} (m : M A) (k : A -> M B) (Q : A -> Prop) (R : B -> Prop) :
  keeps i m Q -> (forall a, Q a -> keeps i (k a) R) -> keeps i (bind m k) R.
Proof.
  intros Hm Hk w Hw. unfold bind. specialize (Hm w Hw).
  destruct (m w) as [[a|e] w']; [|done]. destruct Hm as [Hw' Ha]. now apply Hk.
Qed.

Lemma keeps_store_call : keeps i store_call (fun _ => True).
Proof.
  intros w Hw. unfold store_call. destruct (faults w) as [|[] fs]; try split; done.
Qed.

(** A document loaded from under [i] carries the stored balance. *)
Lemma keeps_findOne q :
  keeps i (Account_findOne q)
    (fun o => forall a, o = Some a -> Account._id a = i -> nonneg (Account.balance a)).
Proof.
  unfold Account_findOne. eapply keeps_bind; [apply keeps_store_call|]. intros _ _.
  intros w Hw. unfold bind, get_world, ret. split; [done|].
  intros a Hf Hi. fold (found q w) in Hf. apply found_Some in Hf as (Ha & Hq & _).
  destruct Hw as (a0 & Ha0 & Hn). congruence.
Qed.

Lemma keeps_Account_save loaded doc :
  (Account._id doc = i -> nonneg (Account.balance doc)) ->
  keeps i (Account_save loaded doc) (fun _ => True).
Proof.
  intros Hdoc. unfold Account_save. eapply keeps_bind; [apply keeps_store_call|]. intros _ _.
  intros w Hw. unfold bind, get_world.
  destruct (accounts w !! Account._id doc) as [stored|] eqn:Hs; [|done].
  destruct (Account.balance doc =? Account.balance loaded)%float; [now split|].
  split; [|done]. unfold modify_world, balance_ok. simpl.
  destruct (decide (Account._id doc = i)) as [E|E].
  - rewrite E, lookup_insert_eq. eexists. split; [done|]. simpl. auto.
  - rewrite lookup_insert_ne by done. exact Hw.
Qed.

Lemma keeps_Transaction_save t : keeps i (Transaction_save t) (fun _ => True).
Proof.
  unfold Transaction_save. eapply keeps_bind; [apply keeps_store_call|]. intros _ _.
  intros w Hw. now split.
Qed.

Lemma try_catch_keeps body handler Q w :
  keeps i body Q -> balance_ok i w -> balance_ok i (snd (try_catch body handler w)).
Proof.
  intros Hb Hw. unfold try_catch. specialize (Hb w Hw).
  destruct (body w) as [[r|e] w']; simpl; tauto.
Qed.

Lemma post_deposit_keeps req w : balance_ok i w -> balance_ok i (snd (post_deposit req w)).
Proof.
  unfold post_deposit. apply (try_catch_keeps _ _ (fun _ => True)).
  destruct (amount_valid (body_amount req)) eqn:Hv; cbn [negb]; [|now apply keeps_ret].
  eapply keeps_bind; [apply keeps_findOne|]. intros [a|] Ha; [|now apply keeps_ret].
  eapply keeps_bind.
  { apply keeps_Account_save. simpl. intros Hi. apply Binary64.add_nonneg; auto. }
  intros _ _. eapply keeps_bind; [apply keeps_Transaction_save|]. intros _ _.
  now apply keeps_ret.
Qed.

Lemma post_withdraw_keeps req w : balance_ok i w -> balance_ok i (snd (post_withdraw req w)).
Proof.
  unfold post_withdraw. apply (try_catch_keeps _ _ (fun _ => True)).
  destruct (amount_valid (body_amount req)) eqn:Hv; cbn [negb]; [|now apply keeps_ret].
  eapply keeps_bind; [apply keeps_findOne|]. intros [a|] Ha; [|now apply keeps_ret].
  destruct (Account.balance a <? body_amount req)%float eqn:Hlt; [now apply keeps_ret|].
  eapply keeps_bind.
  { apply keeps_Account_save. simpl. intros Hi. apply Binary64.sub_nonneg; auto. }
  intros _ _. eapply keeps_bind; [apply keeps_Transaction_save|]. intros _ _.
  now apply keeps_ret.
Qed.

Lemma post_transfer_keeps req w : balance_ok i w -> balance_ok i (snd (post_transfer req w)).
Proof.
  unfold post_transfer. apply (try_catch_keeps _ _ (fun _ => True)).
  destruct (amount_valid (body_amount req)) eqn:Hv; cbn [negb]; [|now apply keeps_ret].
  eapply keeps_bind; [apply keeps_findOne|]. intros sender Hs.
  eapply keeps_bind; [apply keeps_findOne|]. intros receiver Hr.
  destruct sender as [s|]; [|now apply keeps_ret].
  destruct receiver as [r|]; [|now apply keeps_ret].
  destruct (Account.balance s <? body_amount req)%float eqn:Hlt; [now apply keeps_ret|].
  eapply keeps_bind.
  { apply keeps_Account_save. simpl. intros Hi. apply Binary64.sub_nonneg; auto. }
  intros _ _. eapply keeps_bind.
  { apply keeps_Account_save. simpl. intros Hi. apply Binary64.add_nonneg; auto. }
  intros _ _. eapply keeps_bind; [apply keeps_Transaction_save|]. intros _ _.
  eapply keeps_bind; [apply keeps_Transaction_save|]. intros _ _.
  now apply keeps_ret.
Qed.

End Invariant.

(** C2. An account whose balance is non-negative still exists and still
    has a non-negative balance after any sequence of deposits, withdrawals
    and transfers served one after the other -- the successful ones and
    the refused or failing ones alike, whatever the store does. *)
Theorem balance_never_negative (ops : list Op) (w : World) (i : ObjectId) (a : Account.t) :
  accounts w !! i = Some a ->
  (0 <=? Account.balance a)%float = true ->
  exists a',
    accounts (snd (run_ops ops w)) !! i = Some a' /\
    (0 <=? Account.balance a')%float = true.
Proof.
  intros Ha Hn. assert (H : balance_ok i w) by (exists a; done). clear Ha Hn a.
  revert w H. induction ops as [|op ops IH]; intros w H; [exact H|].
  cbn [run_ops].
  assert (H1 : balance_ok i (snd (run_op op w))).
  { destruct op as [req|req|req]; cbn [run_op].
    - now apply post_deposit_keeps.
    - now apply post_withdraw_keeps.
    - now apply post_transfer_keeps. }
  destruct (run_op op w) as [r w1]. specialize (IH w1 H1).
  destruct (run_ops ops w1) as [rs w2]. exact IH.
Qed.

(* ===================================================================== *)
(** ** Registration *)
(* ===================================================================== *)

Lemma find_none {A} (f : A -> bool) (l : list A) :
  Forall (fun x => f x = false) l -> List.find f l = None.
Proof. induction 1 as [|x l Hx _ IH]; simpl; [done|]. now rewrite Hx. Qed.

(** C7, on the code.  A registration that passes validation, for an email
    no user has, with the store answering: the new user is saved (one more
    record, with the generated username), and then the call of the unbound
    [createdRes] throws, so the answer is 500 "Internal server error", not
    201 with the username. *)
Theorem register_saves_user_then_fails
  (isEmail : string -> bool) (bcrypt_hash : string -> nat -> string)
  (randomSuffix : N) (req : RegisterRequest) (w : World) :
  registration_valid isEmail req = true ->
  calls_ok 2 w = true ->
  Forall (fun u => User.email u <> body_email req) (users w) ->
  exists w',
    post_register isEmail bcrypt_hash randomSuffix req w =
      (serverErrorRes (Message "Internal server error"), w') /\
    status (serverErrorRes (Message "Internal server error")) = 500 /\
    users w' =
      users w ++
        [User.mk
           (String.append (split_at_0 (body_email req))
              (NilZero.string_of_uint (N.to_uint randomSuffix)))
           (body_email req)
           (bcrypt_hash (body_password req) 10)].
Proof.
  intros Hv Hok Hnew.
  unfold post_register, try_catch. rewrite Hv. cbn [negb].
  unfold User_findOne_email, User_save, createdRes, bind, get_world, modify_world, ret, throw.
  rewrite (store_call_ok w) by calls.
  change (users (tick w)) with (users w).
  rewrite find_none.
  2:{ eapply Forall_impl; [exact Hnew|]. intros u Hu. now apply bool_decide_eq_false_2. }
  rewrite (store_call_ok (tick w)) by calls.
  eexists. split; [reflexivity|]. split; reflexivity.
Qed.

(* ===================================================================== *)
(** ** More binary64 facts *)
(* ===================================================================== *)

Module Binary64Order.
Import Binary64.
Local Open Scope Z_scope.

Lemma Prim2SF_eq_0 x : Prim2SF x = S754_zero false -> x = 0%float.
Proof. intros H. apply Prim2SF_inj. now rewrite H. Qed.

(** Taking out all there is leaves zero. *)
Lemma sub_self (x : Number) : amount_valid x = true -> (x - x)%float = 0%float.
Proof.
  rewrite amount_valid_shape. intros (m & e & Hx). apply Prim2SF_eq_0.
  rewrite sub_spec, Hx. unfold SF64sub, SFsub. cbn [cond_Zopp].
  now rewrite Z.sub_diag.
Qed.

Lemma ltb_irrefl (x : Number) : (x <? x)%float = false.
Proof.
  rewrite ltb_spec. unfold SFltb.
  pose proof (SFcompare_swap (Prim2SF x) (Prim2SF x)) as H.
  destruct (SFcompare (Prim2SF x) (Prim2SF x)) as [[]|]; simpl in H; congruence.
Qed.


(** The two legs of a transfer cancel. *)
Lemma opp_add_cancel (x : Number) : amount_valid x = true -> (- x + x)%float = 0%float.
Proof.
  rewrite amount_valid_shape. intros (m & e & Hx). apply Prim2SF_eq_0.
  rewrite add_spec, opp_spec, Hx. unfold SF64add, SFadd, SFopp. cbn [negb cond_Zopp].
  rewrite Z.add_opp_diag_l. reflexivity.
Qed.

(** A credit does not lower a balance. *)
Lemma add_not_lower (b x : Number) :
  nonneg b -> amount_valid x = true -> ((b + x) <? b)%float = false.
Proof.
  rewrite nonneg_iff, amount_valid_shape, ltb_spec, add_spec. intros Hb (mx & ex & Hx).
  pose proof (canonical_Prim2SF _ _ _ _ Hx) as Cx.
  pose proof (canonical_facts _ _ Cx) as (Hex & _). rewrite Hx.
  destruct (Prim2SF b) as [s|[]| |[] mb eb] eqn:Eb; try done.
  pose proof (canonical_Prim2SF _ _ _ _ Eb) as Cb.
  pose proof (canonical_facts _ _ Cb) as (Heb & _).
  unfold SF64add, SFadd. cbn [cond_Zopp Z.add binary_normalize].
  apply binary_round_ge; [done|lia|].
  rewrite Pos2Z.inj_add, (shl_align_val mb eb) by lia. lia.
Qed.

Lemma val_lt_top m e : canonical m e -> 0 < val m e < 2 ^ 2100.
Proof.
  intros C. pose proof (canonical_facts _ _ C) as (He & Hd & _). split; [apply val_pos; lia|].
  pose proof (digits2_bounds m) as [_ Hhi]. unfold val.
  assert (Z.pos m < 2 ^ 53) by (eapply Z.lt_le_trans; [exact Hhi|]; apply Z.pow_le_mono_r; lia).
  assert (2 ^ (e + 1074) <= 2 ^ 2045) by (apply Z.pow_le_mono_r; lia).
  assert (0 < 2 ^ (e + 1074)) by (apply Z.pow_pos_nonneg; lia).
  replace (2 ^ 2100) with (2 ^ 53 * 2 ^ 2047) by (rewrite <- Z.pow_add_r by lia; reflexivity).
  assert (2 ^ 2045 < 2 ^ 2047) by (apply Z.pow_lt_mono_r; lia).
  apply Z.mul_lt_mono_nonneg; lia.
Qed.

Lemma SFltb_rank x y :
  SFnonneg x -> SFnonneg y -> valid_binary x = true -> valid_binary y = true ->
  SFltb x y = (rank x <? rank y).
Proof.
  intros Hx Hy Vx Vy. unfold SFltb.
  assert (Htop : 0 < 2 ^ 2100) by (apply Z.pow_pos_nonneg; lia).
  destruct x as [sx|[]| |[] mx ex], y as [sy|[]| |[] my ey]; try done; cbn [rank].
  all: try pose proof (val_lt_top _ _ Vx) as Bx; try pose proof (val_lt_top _ _ Vy) as By.
  all: try rewrite SFcompare_val by done.
  all: cbn [SFcompare]; set (top := 2 ^ 2100) in *.
  all: try (symmetry; first [apply Z.ltb_lt; lia | apply Z.ltb_ge; lia]).
  unfold Z.ltb. now destruct (val mx ex ?= val my ey).
Qed.

(** Not being lower is transitive on non-negative balances. *)
Lemma not_lower_trans (a b c : Number) :
  nonneg a -> nonneg b -> nonneg c ->
  (b <? a)%float = false -> (c <? b)%float = false -> (c <? a)%float = false.
Proof.
  rewrite !nonneg_iff, !ltb_spec. intros Ha Hb Hc.
  rewrite !SFltb_rank by (done || apply Prim2SF_valid).
  rewrite !Z.ltb_ge. lia.
Qed.

End Binary64Order.

(* ===================================================================== *)
(** ** Every path of the money routes *)
(* ===================================================================== *)

Lemma Account_save_fault loaded doc w fs :
  faults w = true :: fs -> Account_save loaded doc w = (Throw StoreError, tick w).
Proof. intros H. unfold Account_save, bind. now rewrite (store_call_fault _ _ H). Qed.

Ltac step_bind :=
  match goal with
  | |- context [bind (Account_findOne ?q) ?k ?w0] =>
      destruct (bind_findOne_cases q k w0) as [[? ->] | ->]
  | |- context [bind (Account_save ?l ?d) ?k ?w0] =>
      let st := fresh "stored" in let Hst := fresh "Hstored" in
      destruct (bind_Account_save_cases l d k w0) as [[? (st & Hst & ->)] | ->]
  | |- context [bind (Transaction_save ?t) ?k ?w0] =>
      destruct (bind_Transaction_save_cases t k w0) as [[? ->] | ->]
  end.

Lemma key_effect_same op w w' i : accounts w' = accounts w -> key_effect op w w' i.
Proof. intros H. left. now rewrite H. Qed.

(** An effect that changes no account. *)
Lemma effect_same op w r w' :
  users w' = users w -> accounts w' = accounts w ->
  transactions w `prefix_of` transactions w' ->
  (status r = 400 \/ status r = 404 -> transactions w' = transactions w) ->
  effect op w r w'.
Proof.
  intros Hu Ha Ht Hr. split_and!; [done|done| |].
  - intros H. split; [done|auto].
  - intros i. now apply key_effect_same.
Qed.

Lemma post_deposit_effect req w :
  effect (Deposit req) w (fst (post_deposit req w)) (snd (post_deposit req w)).
Proof.
  unfold post_deposit, try_catch.
  destruct (amount_valid (body_amount req)) eqn:Hv; cbn [negb];
    [|now apply effect_same].
  step_bind; [|now apply effect_same].
  destruct (found _ w) as [a|] eqn:Hf; [|now apply effect_same].
  apply found_Some in Hf as (Ha & Hi & Hu). simpl in Ha, Hi. specialize (Hu _ eq_refl).
  step_bind; [|now apply effect_same].
  simpl in Hstored. rewrite Hi, Ha in Hstored. injection Hstored as <-.
  rewrite saved_own. cbn [Account._id Account.set_balance].
  set (y := written _ _).
  assert (Hk : forall w', accounts w' = <[Account._id a := Account.set_balance y a]> (accounts w) ->
               forall i, key_effect (Deposit req) w w' i).
  { intros w' Hw' i. rewrite Hi in Hw'. destruct (decide (i = params_accountId req)) as [->|Hne].
    - right. left. exists a, y.
      split_and!; [done|done|done|]. now rewrite Hw', lookup_insert_eq.
    - left. now rewrite Hw', lookup_insert_ne. }
  step_bind; simpl.
  - split_and!; [done|now apply prefix_app_r|intros [?|?]; discriminate|now apply Hk].
  - split_and!; [done|done|intros [?|?]; discriminate|now apply Hk].
Qed.

Lemma post_withdraw_effect req w :
  effect (Withdraw req) w (fst (post_withdraw req w)) (snd (post_withdraw req w)).
Proof.
  unfold post_withdraw, try_catch.
  destruct (amount_valid (body_amount req)) eqn:Hv; cbn [negb];
    [|now apply effect_same].
  step_bind; [|now apply effect_same].
  destruct (found _ w) as [a|] eqn:Hf; [|now apply effect_same].
  apply found_Some in Hf as (Ha & Hi & Hu). simpl in Ha, Hi. specialize (Hu _ eq_refl).
  destruct (Account.balance a <? body_amount req)%float; [now apply effect_same|].
  step_bind; [|now apply effect_same].
  simpl in Hstored. rewrite Hi, Ha in Hstored. injection Hstored as <-.
  rewrite saved_own. cbn [Account._id Account.set_balance].
  set (y := written _ _).
  assert (Hk : forall w', accounts w' = <[Account._id a := Account.set_balance y a]> (accounts w) ->
               forall i, key_effect (Withdraw req) w w' i).
  { intros w' Hw' i. rewrite Hi in Hw'. destruct (decide (i = params_accountId req)) as [->|Hne].
    - right. left. exists a, y.
      split_and!; [done|done|done|]. now rewrite Hw', lookup_insert_eq.
    - left. now rewrite Hw', lookup_insert_ne. }
  step_bind; simpl.
  - split_and!; [done|now apply prefix_app_r|intros [?|?]; discriminate|now apply Hk].
  - split_and!; [done|done|intros [?|?]; discriminate|now apply Hk].
Qed.

Lemma post_transfer_effect req w :
  effect (Transfer req) w (fst (post_transfer req w)) (snd (post_transfer req w)).
Proof.
  unfold post_transfer, try_catch.
  destruct (amount_valid (body_amount req)) eqn:Hv; cbn [negb];
    [|now apply effect_same].
  step_bind; [|now apply effect_same].
  step_bind; [|now apply effect_same].
  change (found (Account.by_ (body_receiverAccountId req) None) (tick w))
    with (found (Account.by_ (body_receiverAccountId req) None) w).
  destruct (found (Account.by_ (params_accountId req) _) w) as [s|] eqn:Hfs;
    [|now apply effect_same].
  destruct (found (Account.by_ (body_receiverAccountId req) None) w) as [r|] eqn:Hfr;
    [|now apply effect_same].
  apply found_Some in Hfs as (Hs & His & Hus). simpl in Hs, His. specialize (Hus _ eq_refl).
  apply found_Some in Hfr as (Hr & Hir & _). simpl in Hr, Hir.
  destruct (Account.balance s <? body_amount req)%float; [now apply effect_same|].
  step_bind; [|now apply effect_same].
  simpl in Hstored. rewrite His, Hs in Hstored. injection Hstored as <-.
  rewrite saved_own, Binary64.debit_written by done. cbn [Account._id Account.set_balance].
  set (s' := Account.set_balance (Account.balance s - body_amount req)%float s).
  assert (Hk1 : forall w', accounts w' = <[Account._id s := s']> (accounts w) ->
                forall i, key_effect (Transfer req) w w' i).
  { intros w' Hw' i. rewrite His in Hw'. destruct (decide (i = params_accountId req)) as [->|Hne].
    - right. left. exists s, (Account.balance s - body_amount req)%float.
      split_and!; [done|done|done|]. now rewrite Hw', lookup_insert_eq.
    - left. now rewrite Hw', lookup_insert_ne. }
  step_bind; [|simpl; split_and!; [done|done|intros [?|?]; discriminate|now apply Hk1]].
  simpl in Hstored.
  set (r'' := saved r _ stored).
  assert (Hk2 : forall w', accounts w' =
                  <[Account._id r := r'']> (<[Account._id s := s']> (accounts w)) ->
                forall i, key_effect (Transfer req) w w' i).
  { intros w' Hw' i. rewrite His, Hir in Hw', Hstored.
    destruct (decide (params_accountId req = body_receiverAccountId req)) as [E|E].
    - rewrite E, lookup_insert_eq in Hstored. injection Hstored as <-.
      rewrite E, insert_insert_eq in Hw'.
      destruct (decide (i = body_receiverAccountId req)) as [->|Hne].
      + right. left. rewrite <- E in *. unfold r'', saved in Hw'.
        destruct (_ =? _)%float in Hw'.
        * exists s, (Account.balance s - body_amount req)%float.
          split_and!; [done|done|done|]. now rewrite Hw', lookup_insert_eq.
        * exists s, (Account.balance r + body_amount req)%float.
          split_and!; [done|done|done|]. now rewrite Hw', lookup_insert_eq.
      + left. now rewrite Hw', lookup_insert_ne.
    - rewrite lookup_insert_ne in Hstored by done.
      assert (stored = r) as -> by congruence.
      unfold r'' in Hw'. rewrite saved_own, Binary64.credit_written in Hw' by done.
      destruct (decide (i = body_receiverAccountId req)) as [->|Hne].
      + right. right. exists r, req. split_and!; [done|done|done|done|].
        now rewrite Hw', lookup_insert_eq.
      + destruct (decide (i = params_accountId req)) as [->|Hne'].
        * right. left. exists s, (Account.balance s - body_amount req)%float.
          split_and!; [done|done|done|].
          rewrite Hw', lookup_insert_ne by done. now rewrite lookup_insert_eq.
        * left. now rewrite Hw', !lookup_insert_ne. }
  step_bind; [|simpl; split_and!; [done|done|intros [?|?]; discriminate|now apply Hk2]].
  step_bind; simpl.
  - split_and!; [done| |intros [?|?]; discriminate|now apply Hk2].
    apply prefix_app_r, prefix_app_r. done.
  - split_and!; [done|now apply prefix_app_r|intros [?|?]; discriminate|now apply Hk2].
Qed.

Lemma run_op_effect op w : effect op w (fst (run_op op w)) (snd (run_op op w)).
Proof.
  destruct op; cbn [run_op];
    [apply post_deposit_effect|apply post_withdraw_effect|apply post_transfer_effect].
Qed.

(* ===================================================================== *)
(** ** What the money routes never do *)
(* ===================================================================== *)

(** A deposit, a withdrawal or a transfer that is answered 400 or 404
    (invalid amount, account not found, insufficient funds) has written
    nothing: accounts, transactions and users are as before, whatever the
    store did. *)
Theorem refused_request_writes_nothing (op : Op) (w : World) :
  status (fst (run_op op w)) = 400 \/ status (fst (run_op op w)) = 404 ->
  accounts (snd (run_op op w)) = accounts w /\
  transactions (snd (run_op op w)) = transactions w /\
  users (snd (run_op op w)) = users w.
Proof.
  intros H. destruct (run_op_effect op w) as (Hu & _ & Hr & _).
  destruct (Hr H). done.
Qed.

Lemma evolves_refl w : evolves w w.
Proof.
  split_and!; [done|done|]. intros i. now destruct (accounts w !! i).
Qed.

Lemma evolves_trans w1 w2 w3 : evolves w1 w2 -> evolves w2 w3 -> evolves w1 w3.
Proof.
  intros (Ht & Hu & Ha) (Ht' & Hu' & Ha'). split_and!.
  - now transitivity (transactions w2).
  - congruence.
  - intros i. specialize (Ha i). specialize (Ha' i).
    destruct (accounts w1 !! i), (accounts w2 !! i), (accounts w3 !! i); try done.
    destruct Ha, Ha'. split; congruence.
Qed.

Lemma effect_evolves op w r w' : effect op w r w' -> evolves w w'.
Proof.
  intros (Hu & Ht & _ & Hk). split_and!; [done|done|]. intros i.
  destruct (Hk i) as [E|[(a & b & Ha & _ & _ & Ha')|(a & req & _ & Ha & _ & _ & Ha')]].
  - rewrite E. now destruct (accounts w !! i).
  - now rewrite Ha, Ha'.
  - now rewrite Ha, Ha'.
Qed.

(** Through any sequence of deposits, withdrawals and transfers, whatever
    their outcome: the transaction log only grows at its end (no record is
    removed or rewritten), no user changes, no account appears or
    disappears, and every account keeps its id and its owner. *)
Theorem ledger_evolves (ops : list Op) (w : World) :
  transactions w `prefix_of` transactions (snd (run_ops ops w)) /\
  users (snd (run_ops ops w)) = users w /\
  forall i,
    match accounts w !! i, accounts (snd (run_ops ops w)) !! i with
    | Some a, Some a' => Account._id a' = Account._id a /\ Account.userId a' = Account.userId a
    | None, None => True
    | _, _ => False
    end.
Proof.
  change (evolves w (snd (run_ops ops w))).
  revert w. induction ops as [|op ops IH]; intros w; [apply evolves_refl|].
  cbn [run_ops]. pose proof (effect_evolves _ _ _ _ (run_op_effect op w)) as H1.
  destruct (run_op op w) as [r w1]. specialize (IH w1).
  destruct (run_ops ops w1) as [rs w2]. simpl in *. now apply (evolves_trans _ w1).
Qed.

(** A request changes no account but the one its path names and, for a
    transfer, the receiver it names: every other stored account is the
    same record afterwards, whatever the outcome. *)
Theorem other_accounts_untouched (op : Op) (w : World) (i : ObjectId) :
  i <> op_account op ->
  (forall req, op = Transfer req -> i <> body_receiverAccountId req) ->
  accounts (snd (run_op op w)) !! i = accounts w !! i.
Proof.
  intros H1 H2. destruct (run_op_effect op w) as (_ & _ & _ & Hk).
  destruct (Hk i) as [E|[(a & b & _ & _ & Hi & _)|(a & req & Hop & _ & Hi & _)]].
  - exact E.
  - contradiction.
  - now destruct (H2 req Hop).
Qed.

(** With amounts that are Numbers, the requests of users who do not own
    an account never lower its balance. *)
Lemma strangers_credit_numbers (ops : list Op) (w : World) (i : ObjectId) (a : Account.t) :
  accounts w !! i = Some a ->
  (0 <=? Account.balance a)%float = true ->
  Forall (fun op => op_user op <> Account.userId a) ops ->
  exists a',
    accounts (snd (run_ops ops w)) !! i = Some a' /\
    Account.userId a' = Account.userId a /\
    (Account.balance a' <? Account.balance a)%float = false.
Proof.
  intros Ha Hn Hops.
  assert (H : exists a', accounts w !! i = Some a' /\ Account.userId a' = Account.userId a /\
                nonneg (Account.balance a') /\
                (Account.balance a' <? Account.balance a)%float = false).
  { exists a. split_and!; try done. apply Binary64Order.ltb_irrefl. }
  clear Ha. revert w H. induction Hops as [|op ops Hop _ IH]; intros w H.
  - destruct H as (a' & ? & ? & _ & ?). now exists a'.
  - cbn [run_ops]. destruct (run_op_effect op w) as (_ & _ & _ & Hk). specialize (Hk i).
    destruct (run_op op w) as [r w1]. specialize (IH w1).
    destruct (run_ops ops w1) as [rs w2]. simpl in *. apply IH. clear IH.
    destruct H as (a1 & Ha1 & Hu1 & Hn1 & Hlow).
    destruct Hk as [E|[(a2 & b & Ha2 & Hu2 & _)|(a2 & req & _ & Ha2 & _ & Hv & Ha2')]].
    + exists a1. rewrite E. done.
    + congruence.
    + assert (a2 = a1) as -> by congruence.
      eexists. split; [exact Ha2'|]. split_and!; [done| |].
      * now apply Binary64.add_nonneg.
      * simpl. apply (Binary64Order.not_lower_trans _ (Account.balance a1)); try done.
        -- now apply Binary64.add_nonneg.
        -- now apply Binary64Order.add_not_lower.
Qed.

(** Requests made by users who do not own an account, with amounts sent as
    JSON numbers, never lower its balance: after any sequence of such
    deposits, withdrawals and transfers, none of which is made by the
    owner, an account that had a balance >= 0 still belongs to its owner
    and its balance is not below what it was.  (An amount sent as a string
    is joined to the decimal string of the receiver's balance, see
    [transfer_moves_amount]: the Number that makes is not bound to be
    higher.) *)
Theorem strangers_cannot_debit
  (js : Sent.Runtime) (ops : list Sent.Op) (w : World) (i : ObjectId) (a : Account.t) :
  accounts w !! i = Some a ->
  (0 <=? Account.balance a)%float = true ->
  Forall (fun op => Sent.op_user op <> Account.userId a) ops ->
  Forall (fun op => exists x, Sent.op_amount op = Sent.VNumber x) ops ->
  exists a',
    accounts (snd (Sent.run_ops js ops w)) !! i = Some a' /\
    Account.userId a' = Account.userId a /\
    (Account.balance a' <? Account.balance a)%float = false.
Proof.
  intros Ha Hn Hops Hnum. apply numbers_sent in Hnum as (ops' & ->).
  rewrite run_ops_sent. apply strangers_credit_numbers; [done..|].
  clear Ha Hn. induction ops' as [|op ops' IH]; [constructor|].
  apply Forall_cons in Hops as [Hop Hops]. constructor; [|now apply IH].
  now destruct op.
Qed.

(* ===================================================================== *)
(** ** Withdrawals and transfers, further *)
(* ===================================================================== *)

(** A withdrawal of a valid amount that the balance covers, from an account
    of the caller (the store answering), stores balance - amount, appends
    exactly one transaction, of type [withdrawal] and of that amount, and
    answers 200 with the updated account. *)
Theorem withdraw_debits (req : Request) (w : World) (a : Account.t) :
  amount_valid (body_amount req) = true ->
  calls_ok 3 w = true ->
  accounts w !! params_accountId req = Some a ->
  Account._id a = params_accountId req ->
  Account.userId a = user_userId req ->
  (body_amount req <=? Account.balance a)%float = true ->
  exists w',
    post_withdraw req w =
      (successRes (AccountDoc (Account.set_balance (Account.balance a - body_amount req)%float a)), w') /\
    accounts w' =
      <[params_accountId req := Account.set_balance (Account.balance a - body_amount req)%float a]>
        (accounts w) /\
    transactions w' =
      transactions w ++
        [Transaction.mk (user_userId req) (params_accountId req) withdrawal (body_amount req)] /\
    users w' = users w.
Proof.
  intros Hv Hok Ha Hi Hu Hge.
  pose proof (found_owned _ _ _ _ Ha Hi Hu) as Hf.
  apply Binary64.ltb_false_of_leb in Hge.
  rewrite (withdraw_run req w Hv a Hok Hf Hge). rewrite Hi.
  eexists. split; [reflexivity|]. done.
Qed.

(** The whole balance can be withdrawn: an amount equal to the balance is
    not refused, and the balance it leaves is 0. *)
Theorem withdraw_whole_balance (req : Request) (w : World) (a : Account.t) :
  amount_valid (body_amount req) = true ->
  calls_ok 3 w = true ->
  accounts w !! params_accountId req = Some a ->
  Account._id a = params_accountId req ->
  Account.userId a = user_userId req ->
  body_amount req = Account.balance a ->
  status (fst (post_withdraw req w)) = 200 /\
  accounts (snd (post_withdraw req w)) !! params_accountId req = Some (Account.set_balance 0%float a).
Proof.
  intros Hv Hok Ha Hi Hu Hall.
  pose proof (found_owned _ _ _ _ Ha Hi Hu) as Hf.
  assert (Hge : (Account.balance a <? body_amount req)%float = false)
    by (rewrite Hall; apply Binary64Order.ltb_irrefl).
  rewrite (withdraw_run req w Hv a Hok Hf Hge). split; [reflexivity|].
  simpl. rewrite Hi, lookup_insert_eq. rewrite <- Hall at 1.
  now rewrite Binary64Order.sub_self.
Qed.

(** A transfer that is refused for insufficient funds: both accounts exist,
    the sender holds less than the amount, the answer is 400 "Insufficient
    funds" and nothing is written. *)
Theorem transfer_insufficient_funds (req : Request) (w : World) (s r : Account.t) :
  amount_valid (body_amount req) = true ->
  calls_ok 2 w = true ->
  accounts w !! params_accountId req = Some s ->
  Account._id s = params_accountId req ->
  Account.userId s = user_userId req ->
  accounts w !! body_receiverAccountId req = Some r ->
  Account._id r = body_receiverAccountId req ->
  (Account.balance s <? body_amount req)%float = true ->
  exists w',
    post_transfer req w = (clientErrorRes (Message "Insufficient funds"), w') /\
    accounts w' = accounts w /\ transactions w' = transactions w.
Proof.
  intros Hv Hok Hs His Hus Hr Hir Hlt.
  pose proof (found_owned _ _ _ _ Hs His Hus) as Hfs.
  pose proof (found_by_id _ _ _ Hr Hir) as Hfr.
  unfold post_transfer, try_catch. rewrite Hv. cbn [negb].
  rewrite bind_findOne by calls. rewrite bind_findOne by calls.
  rewrite Hfs.
  change (found (Account.by_ (body_receiverAccountId req) None) (tick w))
    with (found (Account.by_ (body_receiverAccountId req) None) w).
  rewrite Hfr, Hlt. eexists. split; [reflexivity|]. done.
Qed.

(** A transfer is not atomic: when the sender's balance has been saved and
    the save of the receiver's throws, the handler answers 500, the sender
    stays debited, the receiver is not credited, and no transaction is
    recorded. *)
Theorem transfer_torn_between_saves
  (req : Request) (w : World) (s r : Account.t) (fs : list bool) :
  amount_valid (body_amount req) = true ->
  accounts w !! params_accountId req = Some s ->
  Account._id s = params_accountId req ->
  Account.userId s = user_userId req ->
  accounts w !! body_receiverAccountId req = Some r ->
  Account._id r = body_receiverAccountId req ->
  params_accountId req <> body_receiverAccountId req ->
  (body_amount req <=? Account.balance s)%float = true ->
  faults w = [false; false; false; true] ++ fs ->
  exists w',
    post_transfer req w = (serverErrorRes (Message "Internal server error"), w') /\
    accounts w' !! params_accountId req
      = Some (Account.set_balance (Account.balance s - body_amount req)%float s) /\
    accounts w' !! body_receiverAccountId req = Some r /\
    transactions w' = transactions w.
Proof.
  intros Hv Hs His Hus Hr Hir Hne Hge Hfs.
  pose proof (found_owned _ _ _ _ Hs His Hus) as Hfind.
  pose proof (found_by_id _ _ _ Hr Hir) as Hfr.
  apply Binary64.ltb_false_of_leb in Hge.
  assert (Hok : calls_ok 3 w = true) by (unfold calls_ok; now rewrite Hfs).
  unfold post_transfer, try_catch. rewrite Hv. cbn [negb].
  rewrite bind_findOne by calls. rewrite bind_findOne by calls.
  rewrite Hfind.
  change (found (Account.by_ (body_receiverAccountId req) None) (tick w))
    with (found (Account.by_ (body_receiverAccountId req) None) w).
  rewrite Hfr, Hge.
  rewrite bind_Account_save_own by (first [calls | simpl; congruence]).
  rewrite Binary64.debit_written by done.
  erewrite bind_fault; [| |intros ?; apply Account_save_fault].
  2:{ simpl. rewrite Hfs. reflexivity. }
  eexists. split; [reflexivity|]. simpl. rewrite His.
  rewrite lookup_insert_eq, lookup_insert_ne by done. done.
Qed.

(** The two audit records of a transfer that answers 200 cancel: the
    amounts of the legs it has appended add up to 0. *)
Theorem transfer_legs_cancel (req : Request) (w : World) :
  status (fst (post_transfer req w)) = 200 ->
  exists debit credit,
    transactions (snd (post_transfer req w)) = transactions w ++ [debit; credit] /\
    Transaction.accountId debit = params_accountId req /\
    Transaction.accountId credit = body_receiverAccountId req /\
    (Transaction.amount debit + Transaction.amount credit)%float = 0%float.
Proof.
  intros H200. apply transfer_success in H200 as (Hv & Hok & s & r & Hfs & Hfr & Hge).
  rewrite (transfer_run req w Hv s r Hok Hfs Hfr Hge).
  apply found_Some in Hfs as (_ & His & _). apply found_Some in Hfr as (_ & Hir & _).
  simpl in His, Hir.
  eexists _, _. split; [simpl; now rewrite <- app_assoc|]. simpl.
  split_and!; [done|done|]. now apply Binary64Order.opp_add_cancel.
Qed.

(** Cut at its first [await], the withdraw handler is the handler: running
    the two stretches back to back is [post_withdraw]. *)
Lemma withdraw_stretches req w :
  withdraw_resume req (fst (withdraw_load req w)) (snd (withdraw_load req w))
  = post_withdraw req w.
Proof.
  unfold withdraw_load, post_withdraw, try_catch, withdraw_resume, bind.
  destruct (amount_valid (body_amount req)); cbn [negb]; [|reflexivity].
  destruct (Account_findOne _ w) as [[o|e] w']; reflexivity.
Qed.

Lemma withdraw_load_ok req w a :
  amount_valid (body_amount req) = true ->
  calls_ok 1 w = true ->
  found (Account.by_ (params_accountId req) (Some (user_userId req))) w = Some a ->
  withdraw_load req w = (inr (Some a), tick w).
Proof.
  intros Hv Hok Hf. unfold withdraw_load. rewrite Hv. cbn [negb].
  pose proof (bind_findOne (Account.by_ (params_accountId req) (Some (user_userId req))) ret w Hok) as H.
  unfold bind, ret in H. destruct (Account_findOne _ w) as [[o|e] w']; [|discriminate].
  injection H as -> ->. now rewrite Hf.
Qed.

Lemma withdraw_resume_ok req w a stored :
  calls_ok 2 w = true ->
  accounts w !! Account._id a = Some stored ->
  (Account.balance a <? body_amount req)%float = false ->
  let a' := Account.set_balance (Account.balance a - body_amount req)%float a in
  withdraw_resume req (inr (Some a)) w =
    (successRes (AccountDoc a'),
     set_transactions
       (transactions w ++ [Transaction.mk (user_userId req) (Account._id a) withdrawal (body_amount req)])
       (tick (set_accounts (<[Account._id a := saved a a' stored]> (accounts w)) (tick w)))).
Proof.
  intros Hok Hs Hge a'. unfold withdraw_resume, try_catch. rewrite Hge.
  rewrite (bind_Account_save _ _ stored) by (first [calls | exact Hs]).
  rewrite bind_Transaction_save by calls. reflexivity.
Qed.

(** Two withdrawals from one account by its owner, each covered by the
    balance, whose lookups are both answered before either goes on: both
    answer 200 and both are logged, and the balance left is the original
    balance less the amount of one of them only.  It is the amount of the
    one saved last, whose write replaces the first; unless its subtraction
    left the balance it had loaded as it was, so that its [save] wrote
    nothing: then the debit of the first stays.  The balance does not go
    below zero even when the two amounts together exceed it. *)
Theorem interleaved_withdrawals_lose_a_debit (reqA reqB : Request) (w : World) (a : Account.t) :
  amount_valid (body_amount reqA) = true ->
  amount_valid (body_amount reqB) = true ->
  calls_ok 6 w = true ->
  params_accountId reqA = params_accountId reqB ->
  user_userId reqA = user_userId reqB ->
  accounts w !! params_accountId reqA = Some a ->
  Account._id a = params_accountId reqA ->
  Account.userId a = user_userId reqA ->
  (0 <=? Account.balance a)%float = true ->
  (body_amount reqA <=? Account.balance a)%float = true ->
  (body_amount reqB <=? Account.balance a)%float = true ->
  exists w',
    withdraw_race reqA reqB w =
      ((successRes (AccountDoc (Account.set_balance (Account.balance a - body_amount reqA)%float a)),
        successRes (AccountDoc (Account.set_balance (Account.balance a - body_amount reqB)%float a))),
       w') /\
    accounts w' !! params_accountId reqA
      = Some (Account.set_balance
                (if (Account.balance a - body_amount reqB =? Account.balance a)%float
                 then Account.balance a - body_amount reqA
                 else Account.balance a - body_amount reqB)%float a) /\
    (0 <=? Account.balance a - body_amount reqA)%float = true /\
    (0 <=? Account.balance a - body_amount reqB)%float = true /\
    transactions w' =
      transactions w ++
        [Transaction.mk (user_userId reqA) (params_accountId reqA) withdrawal (body_amount reqA);
         Transaction.mk (user_userId reqA) (params_accountId reqA) withdrawal (body_amount reqB)].
Proof.
  intros HvA HvB Hok Hid Hu Ha Hi Hua Hn HgeA HgeB.
  apply Binary64.ltb_false_of_leb in HgeA, HgeB.
  pose proof (found_owned _ _ _ _ Ha Hi Hua) as HfA.
  assert (HfB : found (Account.by_ (params_accountId reqB) (Some (user_userId reqB))) (tick w) = Some a)
    by (rewrite <- Hid, <- Hu; exact HfA).
  unfold withdraw_race.
  rewrite (withdraw_load_ok reqA w a HvA ltac:(calls) HfA).
  rewrite (withdraw_load_ok reqB (tick w) a HvB ltac:(calls) HfB).
  rewrite (withdraw_resume_ok reqA (tick (tick w)) a a ltac:(calls)
             ltac:(simpl; now rewrite Hi) HgeA).
  cbv zeta. rewrite saved_own, Binary64.debit_written by done.
  match goal with |- context [withdraw_resume reqB _ ?x] => set (w3 := x) end.
  rewrite (withdraw_resume_ok reqB w3 a
             (Account.set_balance (Account.balance a - body_amount reqA)%float a)).
  2: subst w3; calls.
  2:{ subst w3. simpl. apply lookup_insert_eq. }
  2: exact HgeB.
  eexists. split; [reflexivity|]. subst w3. simpl. rewrite Hi, <- Hu.
  rewrite lookup_insert_eq.
  split_and!; [|now apply Binary64.sub_nonneg..|now rewrite <- app_assoc].
  unfold saved. cbn [Account.balance Account.set_balance].
  now destruct (_ =? _)%float.
Qed.

(* ===================================================================== *)
(** ** Balance and history *)
(* ===================================================================== *)

Lemma get_balance_run userId accountId w :
  calls_ok 1 w = true ->
  get_balance userId accountId w =
    (match found (Account.by_ accountId (Some userId)) w with
     | Some account => successData (BalanceOnly (Account.balance account))
     | None => replied (notFoundRes (Message "Account not found"))
     end, tick w).
Proof.
  intros Hok. unfold get_balance, try_catch_reply. rewrite bind_findOne by calls.
  now destruct (found _ w).
Qed.

(** The balance route answers 200 with the stored balance of an account of
    the caller, and 404 "Account not found" when no account has the id or
    the account is another user's. *)
Theorem balance_of_own_account_only (userId accountId : ObjectId) (w : World) :
  calls_ok 1 w = true ->
  (forall a,
     accounts w !! accountId = Some a ->
     Account._id a = accountId ->
     Account.userId a = userId ->
     fst (get_balance userId accountId w) = successData (BalanceOnly (Account.balance a))) /\
  (accounts w !! accountId = None \/
   (exists a, accounts w !! accountId = Some a /\ Account.userId a <> userId) ->
   fst (get_balance userId accountId w) = replied (notFoundRes (Message "Account not found"))).
Proof.
  intros Hok. rewrite (get_balance_run _ _ _ Hok). split.
  - intros a Ha Hi Hu. now rewrite (found_owned _ _ _ _ Ha Hi Hu).
  - intros [Hn|(a & Ha & Hu)].
    + now rewrite (found_absent (Account.by_ accountId (Some userId)) _ Hn).
    + now rewrite (found_other_owner _ _ _ _ Ha Hu).
Qed.

(** After a deposit into an account of the caller, the store answering, the
    balance route shows what the deposit stored: the balance before plus
    x, in binary64, for an amount sent as a JSON number x; for an amount
    sent as a string s, the Number that the decimal string of the balance
    followed by s stands for, if it stands for one. *)
Theorem balance_after_deposit (js : Sent.Runtime) (req : Sent.Request) (w : World) (a : Account.t) :
  Sent.valid js (Sent.body_amount req) = true ->
  calls_ok 4 w = true ->
  accounts w !! Sent.params_accountId req = Some a ->
  Account._id a = Sent.params_accountId req ->
  Account.userId a = Sent.user_userId req ->
  (forall x,
     Sent.body_amount req = Sent.VNumber x ->
     fst (get_balance (Sent.user_userId req) (Sent.params_accountId req)
            (snd (Sent.post_deposit js req w)))
       = successData (BalanceOnly (Account.balance a + x)%float)) /\
  (forall s,
     Sent.body_amount req = Sent.VString s ->
     let y := Sent.js_Number js (String.append (Sent.js_String js (Account.balance a)) s) in
     is_nan y = false ->
     fst (get_balance (Sent.user_userId req) (Sent.params_accountId req)
            (snd (Sent.post_deposit js req w)))
       = successData (BalanceOnly (written (Account.balance a) y))).
Proof.
  intros Hv Hok Ha Hi Hu.
  pose proof (found_owned _ _ _ _ Ha Hi Hu) as Hf.
  assert (Hshow : forall y,
            Sent.plus js (Account.balance a) (Sent.body_amount req) = Some y ->
            fst (get_balance (Sent.user_userId req) (Sent.params_accountId req)
                   (snd (Sent.post_deposit js req w)))
              = successData (BalanceOnly (written (Account.balance a) y))).
  { intros y Hy.
    rewrite (sent_deposit_run js req w Hv a y ltac:(calls) Hf Hy). cbv zeta.
    destruct (Sent.cast js (Sent.body_amount req)); cbn [snd].
    all: rewrite get_balance_run by calls; cbn [fst].
    all: rewrite (found_owned _ _ _ (Account.set_balance (written (Account.balance a) y) a));
      [reflexivity| |done|done].
    all: simpl; rewrite Hi; apply lookup_insert_eq. }
  split.
  - intros x Hx. rewrite Hx in Hv, Hshow. cbn [Sent.valid Sent.plus] in Hv, Hshow.
    rewrite (Hshow _ eq_refl). now rewrite Binary64.credit_written.
  - intros s Hs y Hy. apply Hshow. rewrite Hs. cbn [Sent.plus]. now apply castNumber_Some.
Qed.

Section HistoryFacts.
Variable createdAt : nat -> Date.

Lemma select_app f i l1 l2 :
  select createdAt f i (l1 ++ l2)
  = select createdAt f i l1 ++ select createdAt f (i + length l1) l2.
Proof.
  revert i. induction l1 as [|t l1 IH]; intros i; simpl.
  - now rewrite Nat.add_0_r.
  - rewrite IH. replace (S i + length l1)%nat with (i + S (length l1))%nat by lia.
    now destruct (satisfies f (createdAt i) t).
Qed.

Lemma select_sublist_filter f i l :
  select createdAt f i l `sublist_of` filter (fun t => Transaction.accountId t = q_accountId f) l.
Proof.
  revert i. induction l as [|t l IH]; intros i; simpl; [done|].
  rewrite filter_cons. unfold satisfies.
  destruct (decide (Transaction.accountId t = q_accountId f)) as [E|E].
  - rewrite (bool_decide_eq_true_2 _ E). simpl.
    match goal with |- context [if ?c then _ else _] => destruct c end.
    + now apply sublist_skip.
    + now apply sublist_cons.
  - rewrite (bool_decide_eq_false_2 _ E). simpl. apply IH.
Qed.

Lemma select_unfiltered accountId ty i l :
  ty = None \/ ty = Some EmptyString ->
  select createdAt (build_query accountId (mkQuery ty None None)) i l
  = filter (fun t => Transaction.accountId t = accountId) l.
Proof.
  intros Hty.
  assert (Hq : build_query accountId (mkQuery ty None None) = mkFind accountId None None None)
    by (destruct Hty as [->| ->]; reflexivity).
  rewrite Hq. clear Hq Hty.
  revert i. induction l as [|t l IH]; intros i; simpl; [done|].
  rewrite filter_cons. unfold satisfies at 1. simpl.
  destruct (decide (Transaction.accountId t = accountId)) as [E|E].
  - rewrite (bool_decide_eq_true_2 _ E). simpl. now rewrite IH.
  - rewrite (bool_decide_eq_false_2 _ E). simpl. apply IH.
Qed.

Lemma select_none f i l :
  (forall c t, satisfies f c t = false) -> select createdAt f i l = [].
Proof.
  intros H. revert i. induction l as [|t l IH]; intros i; simpl; [done|].
  now rewrite H.
Qed.

Lemma get_transactions_run userId accountId q w a :
  calls_ok 2 w = true ->
  found (Account.by_ accountId (Some userId)) w = Some a ->
  get_transactions createdAt userId accountId q w =
    (successData (TransactionList (select createdAt (build_query accountId q) 0 (transactions w))),
     tick (tick w)).
Proof.
  intros Hok Hf. unfold get_transactions, try_catch_reply.
  rewrite bind_findOne by calls. rewrite Hf.
  unfold Transaction_find, bind, get_world, ret.
  now rewrite (store_call_ok (tick w)) by calls.
Qed.

(** The history route, for an account of the caller: 200 with records of
    the log that all belong to that account, in the order of the log; with
    no filter ([type] absent or empty, no dates) they are all the records
    of the account, whoever made them.  For an account that is not the
    caller's: 404, whatever the log holds. *)
Theorem history_of_own_account_only
  (userId accountId : ObjectId) (q : HistoryQuery) (w : World) :
  calls_ok 2 w = true ->
  (forall a,
     accounts w !! accountId = Some a ->
     Account._id a = accountId ->
     Account.userId a = userId ->
     exists l,
       fst (get_transactions createdAt userId accountId q w) = successData (TransactionList l) /\
       l `sublist_of` filter (fun t => Transaction.accountId t = accountId) (transactions w) /\
       ((query_type q = None \/ query_type q = Some EmptyString) ->
        query_startDate q = None -> query_endDate q = None ->
        l = filter (fun t => Transaction.accountId t = accountId) (transactions w))) /\
  (accounts w !! accountId = None \/
   (exists a, accounts w !! accountId = Some a /\ Account.userId a <> userId) ->
   fst (get_transactions createdAt userId accountId q w)
     = replied (notFoundRes (Message "Account not found"))).
Proof.
  intros Hok. split.
  - intros a Ha Hi Hu. pose proof (found_owned _ _ _ _ Ha Hi Hu) as Hf.
    rewrite (get_transactions_run _ _ q _ _ Hok Hf). eexists. split; [reflexivity|]. split.
    + apply (select_sublist_filter (build_query accountId q)).
    + intros Hty Hs He. destruct q as [ty sd ed]. simpl in *. subst sd ed.
      now apply select_unfiltered.
  - intros Hnone.
    assert (Hf : found (Account.by_ accountId (Some userId)) w = None).
    { destruct Hnone as [Hn|(a & Ha & Hu)].
      - now apply found_absent.
      - now apply (found_other_owner _ _ _ a). }
    unfold get_transactions, try_catch_reply. rewrite bind_findOne by calls. now rewrite Hf.
Qed.

(** A [type] that is none of "deposit", "withdrawal" and "transfer", or a
    start date after the end date, is not an error: the history route
    answers 200 with an empty list. *)
Theorem history_of_impossible_filter_is_empty
  (userId accountId : ObjectId) (q : HistoryQuery) (w : World) (a : Account.t) :
  calls_ok 2 w = true ->
  accounts w !! accountId = Some a ->
  Account._id a = accountId ->
  Account.userId a = userId ->
  (exists s, query_type q = Some s /\ s <> EmptyString /\
             s <> "deposit" /\ s <> "withdrawal" /\ s <> "transfer") \/
  (exists d1 d2, query_startDate q = Some d1 /\ query_endDate q = Some d2 /\ (d2 < d1)%Z) ->
  fst (get_transactions createdAt userId accountId q w) = successData (TransactionList []) /\
  reply_status (fst (get_transactions createdAt userId accountId q w)) = 200.
Proof.
  intros Hok Ha Hi Hu Himp. pose proof (found_owned _ _ _ _ Ha Hi Hu) as Hf.
  rewrite (get_transactions_run _ _ q _ _ Hok Hf). cbn [fst reply_status].
  split; [|reflexivity]. f_equal. f_equal. apply select_none. intros c t.
  unfold satisfies, build_query. cbn [q_accountId q_type q_gte q_lte].
  destruct Himp as [(s & -> & Hs & H1 & H2 & H3)|(d1 & d2 & -> & -> & Hd)].
  - rewrite (proj2 (String.eqb_neq s EmptyString) Hs).
    assert (String.eqb (type_name (Transaction.type t)) s = false) as ->.
    { apply String.eqb_neq. destruct (Transaction.type t); simpl; congruence. }
    now rewrite andb_false_r.
  - destruct (d1 <=? c)%Z eqn:E1, (c <=? d2)%Z eqn:E2; rewrite ?andb_false_r; try done.
    apply Z.leb_le in E1, E2. lia.
Qed.

(** After a transfer that answered 200 between two different accounts, the
    unfiltered history of the sender's account ends with the debit leg and
    that of the receiver's account, asked for by its owner, ends with the
    credit leg; nothing else was added to either. *)
Theorem history_after_transfer (req : Request) (w : World) (r : Account.t) :
  status (fst (post_transfer req w)) = 200 ->
  params_accountId req <> body_receiverAccountId req ->
  accounts w !! body_receiverAccountId req = Some r ->
  calls_ok 2 (snd (post_transfer req w)) = true ->
  fst (get_transactions createdAt (user_userId req) (params_accountId req)
         (mkQuery None None None) (snd (post_transfer req w)))
    = successData
        (TransactionList
           (filter (fun t => Transaction.accountId t = params_accountId req) (transactions w)
            ++ [Transaction.mk (user_userId req) (params_accountId req) transfer
                  (- body_amount req)%float])) /\
  fst (get_transactions createdAt (Account.userId r) (body_receiverAccountId req)
         (mkQuery None None None) (snd (post_transfer req w)))
    = successData
        (TransactionList
           (filter (fun t => Transaction.accountId t = body_receiverAccountId req) (transactions w)
            ++ [Transaction.mk (Account.userId r) (body_receiverAccountId req) transfer
                  (body_amount req)])).
Proof.
  intros H200 Hne Hr0. apply transfer_success in H200 as (Hv & Hok & s & r' & Hfs & Hfr & Hge).
  rewrite (transfer_run req w Hv s r' Hok Hfs Hfr Hge).
  apply found_Some in Hfs as (Hs & His & Hus). apply found_Some in Hfr as (Hr & Hir & _).
  simpl in Hs, His, Hr, Hir. specialize (Hus _ eq_refl).
  assert (r' = r) as -> by congruence. cbn [snd]. intros Hok2.
  match goal with |- context [get_transactions _ _ _ _ ?x] => set (w' := x) in * end.
  assert (Hfs' : found (Account.by_ (params_accountId req) (Some (user_userId req))) w'
                 = Some (Account.set_balance (Account.balance s - body_amount req)%float s)).
  { apply found_owned; [|done..]. subst w'. simpl. rewrite His, Hir.
    rewrite lookup_insert_ne by done. apply lookup_insert_eq. }
  assert (Hfr' : found (Account.by_ (body_receiverAccountId req) (Some (Account.userId r))) w'
                 = Some (Account.set_balance (Account.balance r + body_amount req)%float r)).
  { apply found_owned; [|done..]. subst w'. simpl. rewrite Hir.
    unfold stored_receiver. rewrite decide_False by congruence.
    rewrite saved_own, Binary64.credit_written by done. apply lookup_insert_eq. }
  rewrite (get_transactions_run _ _ _ _ _ Hok2 Hfs'), (get_transactions_run _ _ _ _ _ Hok2 Hfr').
  cbn [fst]. rewrite !select_unfiltered by (now left).
  subst w'. simpl. rewrite His, Hir. rewrite !filter_app, !filter_cons, !filter_nil. simpl.
  repeat case_decide; try congruence. now rewrite !app_nil_r.
Qed.

End HistoryFacts.

(* ===================================================================== *)
(** ** Opening and listing accounts *)
(* ===================================================================== *)

Lemma post_accounts_run newId userId w :
  calls_ok 1 w = true ->
  accounts w !! newId = None ->
  post_accounts newId userId w =
    (successRes (AccountDoc (new_Account newId userId)),
     set_accounts (<[newId := new_Account newId userId]> (accounts w)) (tick w)).
Proof.
  intros Hok Hfresh. unfold post_accounts, try_catch, Account_insert, bind, get_world.
  rewrite (store_call_ok _ Hok). cbn [new_Account Account._id].
  change (accounts (tick w)) with (accounts w). now rewrite Hfresh.
Qed.

(** Opening an account stores one new record, owned by the caller, and
    hands it to [successRes], the helper the other routes answer with;
    every account that existed is still there, unchanged, and no
    transaction is recorded. *)
Theorem post_accounts_opens (newId userId : ObjectId) (w : World) :
  calls_ok 1 w = true ->
  accounts w !! newId = None ->
  exists a w',
    post_accounts newId userId w = (successRes (AccountDoc a), w') /\
    Account._id a = newId /\ Account.userId a = userId /\
    accounts w' !! newId = Some a /\
    (forall i, i <> newId -> accounts w' !! i = accounts w !! i) /\
    transactions w' = transactions w /\ users w' = users w.
Proof.
  intros Hok Hfresh. rewrite (post_accounts_run _ _ _ Hok Hfresh).
  eexists _, _. split; [reflexivity|]. simpl. split_and!; try done.
  - apply lookup_insert_eq.
  - intros i Hi. now rewrite lookup_insert_ne.
Qed.


Lemma get_accounts_run userId w :
  calls_ok 1 w = true ->
  get_accounts userId w =
    (successData
       (AccountList (filter (fun a => Account.userId a = userId) (map_to_list (accounts w)).*2)),
     tick w).
Proof.
  intros Hok. unfold get_accounts, try_catch_reply, Account_find, bind, get_world, ret.
  now rewrite (store_call_ok _ Hok).
Qed.

(** The listing route answers with the caller's accounts and no others: a
    record is in the list exactly when it is stored and owned by the
    caller. *)
Theorem get_accounts_lists_own (userId : ObjectId) (w : World) :
  calls_ok 1 w = true ->
  exists l,
    fst (get_accounts userId w) = successData (AccountList l) /\
    forall a, a ∈ l <-> Account.userId a = userId /\ exists i, accounts w !! i = Some a.
Proof.
  intros Hok. rewrite (get_accounts_run _ _ Hok). eexists. split; [reflexivity|].
  intros a. rewrite list_elem_of_filter, list_elem_of_fmap. split.
  - intros (Hu & [i a'] & -> & Hin). split; [done|]. exists i.
    now apply elem_of_map_to_list in Hin.
  - intros (Hu & i & Hi). split; [done|]. exists (i, a). split; [done|].
    now apply elem_of_map_to_list.
Qed.

(* ===================================================================== *)
(** ** Reading never writes *)
(* ===================================================================== *)

(** The balance, history and listing routes and the login leave accounts,
    transactions and users exactly as they were, whatever they answer and
    whatever the store does. *)
Theorem reading_routes_write_nothing
  (createdAt : nat -> Date) (bcrypt_compare : string -> string -> bool)
  (jwt_sign : User.t -> string)
  (userId accountId : ObjectId) (q : HistoryQuery) (login : LoginRequest) (w : World) :
  let same w' := accounts w' = accounts w /\ transactions w' = transactions w /\ users w' = users w in
  same (snd (get_balance userId accountId w)) /\
  same (snd (get_transactions createdAt userId accountId q w)) /\
  same (snd (get_accounts userId w)) /\
  same (snd (post_login bcrypt_compare jwt_sign login w)).
Proof.
  intros same. subst same. cbv beta. split; [|split; [|split]].
  - unfold get_balance, try_catch_reply, Account_findOne, bind, get_world, ret.
    destruct (store_call_cases w) as [[_ ->] | ->]; [|done].
    now destruct (found _ (tick w)).
  - unfold get_transactions, try_catch_reply, Account_findOne, Transaction_find, bind, get_world, ret.
    destruct (store_call_cases w) as [[_ ->] | ->]; [|done].
    destruct (found _ (tick w)); [|done].
    destruct (store_call_cases (tick w)) as [[_ ->] | ->]; done.
  - unfold get_accounts, try_catch_reply, Account_find, bind, get_world, ret.
    destruct (store_call_cases w) as [[_ ->] | ->]; done.
  - unfold post_login, try_catch_reply.
    destruct (login_valid login); cbn [negb]; [|done].
    unfold User_findOne_username, bind, get_world, ret.
    destruct (store_call_cases w) as [[_ ->] | ->]; [|done].
    destruct (find _ (users (tick w))) as [u|]; [|done].
    now destruct (bcrypt_compare _ _).
Qed.

(* ===================================================================== *)
(** ** Registration and login *)
(* ===================================================================== *)

Lemma find_first {A} (f : A -> bool) (l1 l2 : list A) (x : A) :
  Forall (fun y => f y = false) l1 -> f x = true -> List.find f (l1 ++ x :: l2) = Some x.
Proof.
  induction 1 as [|y l1 Hy _ IH]; intros Hx; simpl.
  - now rewrite Hx.
  - rewrite Hy. now apply IH.
Qed.

(** A registration with an email that a user already has is answered 409
    "Email already exists", and no user is created. *)
Theorem register_conflict
  (isEmail : string -> bool) (bcrypt_hash : string -> nat -> string)
  (randomSuffix : N) (req : RegisterRequest) (w : World) (u : User.t) :
  registration_valid isEmail req = true ->
  calls_ok 1 w = true ->
  u ∈ users w ->
  User.email u = body_email req ->
  exists w',
    post_register isEmail bcrypt_hash randomSuffix req w =
      (conflictErrorRes (Message "Email already exists"), w') /\
    status (conflictErrorRes (Message "Email already exists")) = 409 /\
    users w' = users w.
Proof.
  intros Hv Hok Hin He.
  unfold post_register, try_catch. rewrite Hv. cbn [negb].
  unfold User_findOne_email, bind, get_world, ret.
  rewrite (store_call_ok w) by calls. change (users (tick w)) with (users w).
  destruct (find _ (users w)) as [u'|] eqn:Hfind.
  - eexists. split; [reflexivity|]. done.
  - exfalso. apply list_elem_of_In in Hin.
    pose proof (List.find_none _ _ Hfind u Hin) as Hno. simpl in Hno.
    now rewrite bool_decide_eq_true_2 in Hno.
Qed.

(** A registration answered 400 or 409 has created no user and written
    nothing else, whatever the store did. *)
Theorem refused_registration_creates_no_user
  (isEmail : string -> bool) (bcrypt_hash : string -> nat -> string)
  (randomSuffix : N) (req : RegisterRequest) (w : World) :
  status (fst (post_register isEmail bcrypt_hash randomSuffix req w)) = 400 \/
  status (fst (post_register isEmail bcrypt_hash randomSuffix req w)) = 409 ->
  users (snd (post_register isEmail bcrypt_hash randomSuffix req w)) = users w /\
  accounts (snd (post_register isEmail bcrypt_hash randomSuffix req w)) = accounts w /\
  transactions (snd (post_register isEmail bcrypt_hash randomSuffix req w)) = transactions w.
Proof.
  unfold post_register, try_catch.
  destruct (registration_valid isEmail req); cbn [negb]; [|done].
  unfold User_findOne_email, User_save, createdRes, bind, get_world, modify_world, ret, throw.
  destruct (store_call_cases w) as [[_ ->] | ->]; [|intros [?|?]; discriminate].
  destruct (find _ (users (tick w))) as [u|]; [done|].
  destruct (store_call_cases (tick w)) as [[_ ->] | ->]; intros [?|?]; discriminate.
Qed.

Section LoginFacts.
Variable bcrypt_compare : string -> string -> bool.
Variable jwt_sign : User.t -> string.

Lemma post_login_run req w :
  login_valid req = true ->
  calls_ok 1 w = true ->
  post_login bcrypt_compare jwt_sign req w =
    (match List.find (fun u => bool_decide (User.username u = login_username req)) (users w) with
     | None => replied (unauthorizedRes (Message "Invalid username or password"))
     | Some user =>
         if bcrypt_compare (login_password req) (User.hashedPassword user)
         then successData (Token (jwt_sign user))
         else replied (unauthorizedRes (Message "Invalid username or password"))
     end, tick w).
Proof.
  intros Hv Hok. unfold post_login, try_catch_reply. rewrite Hv. cbn [negb].
  unfold User_findOne_username, bind, get_world, ret.
  rewrite (store_call_ok w) by calls. change (users (tick w)) with (users w).
  destruct (find _ (users w)) as [u|]; [|done].
  now destruct (bcrypt_compare _ _).
Qed.

(** A login with a username nobody has and a login with a wrong password
    get the same answer, 401 "Invalid username or password", and no token. *)
Theorem login_rejects_alike (req : LoginRequest) (w : World) :
  login_valid req = true ->
  calls_ok 1 w = true ->
  let rejected := replied (unauthorizedRes (Message "Invalid username or password")) in
  reply_status rejected = 401 /\
  (Forall (fun u => User.username u <> login_username req) (users w) ->
   fst (post_login bcrypt_compare jwt_sign req w) = rejected) /\
  (forall before u after,
     users w = before ++ u :: after ->
     Forall (fun u' => User.username u' <> login_username req) before ->
     User.username u = login_username req ->
     bcrypt_compare (login_password req) (User.hashedPassword u) = false ->
     fst (post_login bcrypt_compare jwt_sign req w) = rejected).
Proof.
  intros Hv Hok rejected. rewrite (post_login_run _ _ Hv Hok). cbn [fst].
  split; [reflexivity|]. split.
  - intros Hno. rewrite find_none; [done|].
    eapply Forall_impl; [exact Hno|]. intros u Hu. now apply bool_decide_eq_false_2.
  - intros before u after Hw Hb Hu Hpw. rewrite Hw.
    rewrite (find_first _ before after u).
    + now rewrite Hpw.
    + eapply Forall_impl; [exact Hb|]. intros u' Hu'. now apply bool_decide_eq_false_2.
    + now apply bool_decide_eq_true_2.
Qed.

(** A login with the username of a stored user and a password that bcrypt
    accepts against that user's hash answers 200 with the token signed for
    that user; when several users share the username, it is the one
    stored first. *)
Theorem login_issues_token (req : LoginRequest) (w : World) (before after : list User.t) (u : User.t) :
  login_valid req = true ->
  calls_ok 1 w = true ->
  users w = before ++ u :: after ->
  Forall (fun u' => User.username u' <> login_username req) before ->
  User.username u = login_username req ->
  bcrypt_compare (login_password req) (User.hashedPassword u) = true ->
  fst (post_login bcrypt_compare jwt_sign req w) = successData (Token (jwt_sign u)) /\
  reply_status (fst (post_login bcrypt_compare jwt_sign req w)) = 200.
Proof.
  intros Hv Hok Hw Hb Hu Hpw. rewrite (post_login_run _ _ Hv Hok). cbn [fst].
  rewrite Hw, (find_first _ before after u).
  - now rewrite Hpw.
  - eapply Forall_impl; [exact Hb|]. intros u' Hu'. now apply bool_decide_eq_false_2.
  - now apply bool_decide_eq_true_2.
Qed.

End LoginFacts.

Lemma generated_username_not_empty (local_part : string) (randomSuffix : N) :
  String.append local_part (NilZero.string_of_uint (N.to_uint randomSuffix)) <> EmptyString.
Proof.
  assert (H : NilZero.string_of_uint (N.to_uint randomSuffix) <> EmptyString)
    by (destruct (N.to_uint randomSuffix); discriminate).
  destruct local_part; simpl; [exact H | discriminate].
Qed.

Lemma password_not_empty (isEmail : string -> bool) (req : RegisterRequest) :
  registration_valid isEmail req = true -> body_password req <> EmptyString.
Proof.
  unfold registration_valid. intros H He. rewrite He in H.
  now rewrite andb_false_r in H.
Qed.

(** The registration answers 500, yet the account it made is usable: a
    login with the generated username and the registered password gets a
    token for the new user, provided bcrypt accepts the password against
    its own hash and no earlier user has that username. *)
Theorem registered_user_can_login
  (isEmail : string -> bool) (bcrypt_hash : string -> nat -> string)
  (bcrypt_compare : string -> string -> bool) (jwt_sign : User.t -> string)
  (randomSuffix : N) (req : RegisterRequest) (w : World) :
  let username :=
    String.append (split_at_0 (body_email req))
      (NilZero.string_of_uint (N.to_uint randomSuffix)) in
  let newUser := User.mk username (body_email req) (bcrypt_hash (body_password req) 10) in
  registration_valid isEmail req = true ->
  calls_ok 3 w = true ->
  Forall (fun u => User.email u <> body_email req) (users w) ->
  Forall (fun u => User.username u <> username) (users w) ->
  bcrypt_compare (body_password req) (bcrypt_hash (body_password req) 10) = true ->
  status (fst (post_register isEmail bcrypt_hash randomSuffix req w)) = 500 /\
  fst (post_login bcrypt_compare jwt_sign (mkLogin username (body_password req))
         (snd (post_register isEmail bcrypt_hash randomSuffix req w)))
    = successData (Token (jwt_sign newUser)).
Proof.
  intros username newUser Hv Hok Hemail Hname Hpw.
  assert (Hreg : post_register isEmail bcrypt_hash randomSuffix req w =
                 (serverErrorRes (Message "Internal server error"),
                  set_users (users w ++ [newUser]) (tick (tick w)))).
  { unfold post_register, try_catch. rewrite Hv. cbn [negb].
    unfold User_findOne_email, User_save, createdRes, bind, get_world, modify_world, ret, throw.
    rewrite (store_call_ok w) by calls. change (users (tick w)) with (users w).
    rewrite find_none.
    2:{ eapply Forall_impl; [exact Hemail|]. intros u Hu. now apply bool_decide_eq_false_2. }
    now rewrite (store_call_ok (tick w)) by calls. }
  rewrite Hreg. cbn [fst snd]. split; [reflexivity|].
  rewrite post_login_run.
  - cbn [fst login_username login_password users set_users].
    rewrite (find_first _ (users w) [] newUser).
    + cbn [User.hashedPassword newUser]. now rewrite Hpw.
    + eapply Forall_impl; [exact Hname|]. intros u Hu. now apply bool_decide_eq_false_2.
    + now apply bool_decide_eq_true_2.
  - unfold login_valid. cbn [login_username login_password].
    apply andb_true_intro. split; apply negb_true_iff, String.eqb_neq.
    + apply generated_username_not_empty.
    + eapply password_not_empty, Hv.
  - calls.
Qed.

(* ===================================================================== *)
(** ** Sample runs *)
(* ===================================================================== *)

(** 0.5 - 0.2 is 0.3 and 0.1 + 0.2 is 0.30000000000000004: user 7 moves 0.2
    from account 1 (0.5) to account 2 (0.1), the transfer answers 200, and
    the two balances no longer add up to what they did, neither as binary64
    sums (0.6000000000000001 against 0.6) nor as real numbers. *)
Lemma transfer_sum_counterexample :
  status (fst (post_transfer (mkRequest 7 1 2 0.2) (two_accounts 0.5 0.1))) = 200 /\
  balance_of 1 (snd (post_transfer (mkRequest 7 1 2 0.2) (two_accounts 0.5 0.1))) = Some 0.3%float /\
  balance_of 2 (snd (post_transfer (mkRequest 7 1 2 0.2) (two_accounts 0.5 0.1)))
    = Some 0.30000000000000004%float /\
  (0.3 + 0.30000000000000004 =? 0.5 + 0.1)%float = false /\
  exact_sum 0.3 0.30000000000000004 <> exact_sum 0.5 0.1.
Proof.
  split_and!; try (vm_compute; reflexivity).
  vm_compute. discriminate.
Qed.


Lemma balance_never_negative_witness :
  exists a',
    accounts (snd (run_ops [Deposit (mkRequest 7 1 0 50); Withdraw (mkRequest 7 1 0 500);
                            Transfer (mkRequest 7 1 2 75); Withdraw (mkRequest 7 1 0 75)]
                     (two_accounts 100 20))) !! 1%N = Some a' /\
    (0 <=? Account.balance a')%float = true.
Proof.
  apply (balance_never_negative _ (two_accounts 100 20) 1%N (acct 1 7 100)).
  - vm_compute. reflexivity.
  - vm_compute. reflexivity.
Defined.

Lemma withdraw_insufficient_funds_witness :
  exists w',
    post_withdraw (mkRequest 7 1 0 150) (two_accounts 100 20)
      = (clientErrorRes (Message "Insufficient funds"), w') /\
    status (clientErrorRes (Message "Insufficient funds")) = 400 /\
    accounts w' = accounts (two_accounts 100 20) /\
    transactions w' = transactions (two_accounts 100 20).
Proof.
  apply (withdraw_insufficient_funds (mkRequest 7 1 0 150) (two_accounts 100 20) (acct 1 7 100));
    vm_compute; reflexivity.
Defined.



Lemma transfer_not_found_witness :
  (exists w',
     post_transfer (mkRequest 7 5 2 10) (two_accounts 100 20)
       = (notFoundRes (Message "Sender account not found"), w') /\
     accounts w' = accounts (two_accounts 100 20) /\
     transactions w' = transactions (two_accounts 100 20)) /\
  (exists w',
     post_transfer (mkRequest 7 1 5 10) (two_accounts 100 20)
       = (notFoundRes (Message "Receiver account not found"), w') /\
     accounts w' = accounts (two_accounts 100 20) /\
     transactions w' = transactions (two_accounts 100 20)) /\
  status (fst (post_transfer (mkRequest 7 1 2 10) (two_accounts 100 20))) <> 404.
Proof.
  split_and!.
  - destruct (transfer_not_found (mkRequest 7 5 2 10) (two_accounts 100 20) eq_refl eq_refl)
      as (Hsender & _).
    apply Hsender. left. reflexivity.
  - destruct (transfer_not_found (mkRequest 7 1 5 10) (two_accounts 100 20) eq_refl eq_refl)
      as (_ & Hreceiver & _).
    apply (Hreceiver (acct 1 7 100)); reflexivity.
  - destruct (transfer_not_found (mkRequest 7 1 2 10) (two_accounts 100 20) eq_refl eq_refl)
      as (_ & _ & _ & Hother).
    apply (Hother (acct 1 7 100) (acct 2 8 20)); try reflexivity. discriminate.
Defined.

(** [POST /users/register] with [{ email: "ann@example.com", password:
    "secret1" }] on an empty collection, the random suffix being 123. *)
Lemma register_saves_user_then_fails_witness :
  exists w',
    post_register sample_isEmail sample_hash 123 (mkRegister "ann@example.com" "secret1")
      (mkWorld ∅ [] [] [])
      = (serverErrorRes (Message "Internal server error"), w') /\
    status (serverErrorRes (Message "Internal server error")) = 500 /\
    users w' = [User.mk "ann123" "ann@example.com" "$2b$10$secret1"].
Proof.
  apply (register_saves_user_then_fails sample_isEmail sample_hash 123
           (mkRegister "ann@example.com" "secret1") (mkWorld ∅ [] [] [])).
  - reflexivity.
  - reflexivity.
  - constructor.
Defined.

(** 0.1 + 0.2 is 0.30000000000000004, and taking 0.2 back leaves
    0.10000000000000003: a deposit of 0.2 into account 1 (0.1) and a
    withdrawal of 0.2 both answer 200 and do not restore the balance. *)
Lemma deposit_withdraw_counterexample :
  status <$> fst (run_ops [Deposit (mkRequest 7 1 0 0.2); Withdraw (mkRequest 7 1 0 0.2)]
                    (two_accounts 0.1 0)) = [200; 200] /\
  balance_of 1 (two_accounts 0.1 0) = Some 0.1%float /\
  balance_of 1 (snd (run_ops [Deposit (mkRequest 7 1 0 0.2); Withdraw (mkRequest 7 1 0 0.2)]
                       (two_accounts 0.1 0))) = Some 0.10000000000000003%float /\
  (0.10000000000000003 =? 0.1)%float = false.
Proof. split_and!; vm_compute; reflexivity. Qed.


Lemma audit_failure_keeps_balance_witness :
  (exists w',
     post_deposit (mkRequest 7 1 2 50) (mkWorld (accounts (two_accounts 100 20)) [] [] [false; false; true])
       = (serverErrorRes (Message "Internal server error"), w') /\
     accounts w' = <[1%N := acct 1 7 150]> (accounts (two_accounts 100 20)) /\
     transactions w' = []) /\
  (exists w',
     post_transfer (mkRequest 7 1 2 50)
       (mkWorld (accounts (two_accounts 100 20)) [] [] [false; false; false; false; true])
       = (serverErrorRes (Message "Internal server error"), w') /\
     accounts w' = <[2%N := acct 2 8 70]> (<[1%N := acct 1 7 50]> (accounts (two_accounts 100 20))) /\
     transactions w' = []).
Proof.
  split.
  - destruct (audit_failure_keeps_balance (mkRequest 7 1 2 50)
                (mkWorld (accounts (two_accounts 100 20)) [] [] [false; false; true])
                (acct 1 7 100) [] eq_refl eq_refl eq_refl eq_refl)
      as (_ & Hdeposit & _).
    exact (Hdeposit eq_refl).
  - destruct (audit_failure_keeps_balance (mkRequest 7 1 2 50)
                (mkWorld (accounts (two_accounts 100 20)) [] [] [false; false; false; false; true])
                (acct 1 7 100) [] eq_refl eq_refl eq_refl eq_refl)
      as (_ & _ & _ & Htransfer).
    destruct (Htransfer (acct 2 8 20) eq_refl eq_refl ltac:(discriminate) eq_refl) as [Hfirst _].
    exact (Hfirst eq_refl).
Defined.


(** User 7 moves 75 from account 1 (150) to account 2 (20), the amount sent
    as a number; then the same with the amount sent as the string "75":
    "20" and "75" make "2075". *)
Lemma transfer_moves_amount_witness :
  (balance_of 1 (snd (Sent.post_transfer sample_js (Sent.mkRequest 7 1 2 (Sent.VNumber 75))
                        (two_accounts 150 20))) = Some 75%float /\
   balance_of 2 (snd (Sent.post_transfer sample_js (Sent.mkRequest 7 1 2 (Sent.VNumber 75))
                        (two_accounts 150 20))) = Some 95%float /\
   exact_sum 75 95 = exact_sum 150 20) /\
  (balance_of 1 (snd (Sent.post_transfer sample_js (Sent.mkRequest 7 1 2 (Sent.VString "75"))
                        (two_accounts 150 20))) = Some 75%float /\
   balance_of 2 (snd (Sent.post_transfer sample_js (Sent.mkRequest 7 1 2 (Sent.VString "75"))
                        (two_accounts 150 20))) = Some 2075%float).
Proof.
  split.
  - destruct (transfer_moves_amount sample_js (Sent.mkRequest 7 1 2 (Sent.VNumber 75))
                (two_accounts 150 20))
      as (s & r & Hs & Hr & _ & _ & Hnum & _).
    + vm_compute. reflexivity.
    + discriminate.
    + assert (s = acct 1 7 150) as -> by (vm_compute in Hs; injection Hs as <-; reflexivity).
      assert (r = acct 2 8 20) as -> by (vm_compute in Hr; injection Hr as <-; reflexivity).
      destruct (Hnum 75%float eq_refl) as (Hbs & Hbr & Hsum).
      split_and!; [exact Hbs|exact Hbr|].
      apply Hsum; eexists _, _; split_and!; vm_compute; reflexivity.
  - destruct (transfer_moves_amount sample_js (Sent.mkRequest 7 1 2 (Sent.VString "75"))
                (two_accounts 150 20))
      as (s & r & Hs & Hr & _ & _ & _ & Hstr & _).
    + vm_compute. reflexivity.
    + discriminate.
    + assert (s = acct 1 7 150) as -> by (vm_compute in Hs; injection Hs as <-; reflexivity).
      assert (r = acct 2 8 20) as -> by (vm_compute in Hr; injection Hr as <-; reflexivity).
      destruct (Hstr "75" eq_refl) as (Hbs & Hbr).
      split; [exact Hbs|exact Hbr].
Defined.


(** 2^53 + 1 is no binary64 number: a deposit of 1 into an account that
    holds 2^53 = 9007199254740992 answers 200 and is logged, and the
    balance stays what it was.  And a deposit of "50", sent as a string,
    into an account that holds 100 answers 200 and leaves 10050. *)
Lemma deposit_counterexample :
  (status (fst (Sent.post_deposit sample_js (Sent.mkRequest 7 1 0 (Sent.VNumber 1))
                  (two_accounts 9007199254740992 0))) = 200 /\
   transactions (snd (Sent.post_deposit sample_js (Sent.mkRequest 7 1 0 (Sent.VNumber 1))
                        (two_accounts 9007199254740992 0)))
     = [Transaction.mk 7 1 deposit 1] /\
   balance_of 1 (snd (Sent.post_deposit sample_js (Sent.mkRequest 7 1 0 (Sent.VNumber 1))
                        (two_accounts 9007199254740992 0)))
     = Some 9007199254740992%float /\
   exact 9007199254740992 <> exact_sum 9007199254740992 1) /\
  (status (fst (Sent.post_deposit sample_js (Sent.mkRequest 7 1 0 (Sent.VString "50"))
                  (two_accounts 100 0))) = 200 /\
   transactions (snd (Sent.post_deposit sample_js (Sent.mkRequest 7 1 0 (Sent.VString "50"))
                        (two_accounts 100 0)))
     = [Transaction.mk 7 1 deposit 50] /\
   balance_of 1 (snd (Sent.post_deposit sample_js (Sent.mkRequest 7 1 0 (Sent.VString "50"))
                        (two_accounts 100 0)))
     = Some 10050%float).
Proof.
  split_and!; try (vm_compute; reflexivity).
  vm_compute. discriminate.
Qed.

(** 50 into account 1 (100), sent as a number and sent as a string, and a
    deposit by user 8, who does not own account 1. *)
Lemma deposit_credits_or_not_found_witness :
  (exists w',
     Sent.post_deposit sample_js (Sent.mkRequest 7 1 0 (Sent.VNumber 50)) (two_accounts 100 20)
       = (successRes (AccountDoc (acct 1 7 150)), w') /\
     balance_of 1 w' = Some 150%float /\
     transactions w' = [Transaction.mk 7 1 deposit 50]) /\
  (exists w',
     Sent.post_deposit sample_js (Sent.mkRequest 7 1 0 (Sent.VString "50")) (two_accounts 100 20)
       = (successRes (AccountDoc (acct 1 7 10050)), w') /\
     balance_of 1 w' = Some 10050%float /\
     transactions w' = [Transaction.mk 7 1 deposit 50]) /\
  (exists w',
     Sent.post_deposit sample_js (Sent.mkRequest 8 1 0 (Sent.VNumber 50)) (two_accounts 100 20)
       = (notFoundRes (Message "Account not found"), w') /\
     accounts w' = accounts (two_accounts 100 20) /\ transactions w' = []).
Proof.
  split_and!.
  - destruct (proj1 (proj1 (deposit_credits_or_not_found sample_js
                              (Sent.mkRequest 7 1 0 (Sent.VNumber 50)) (two_accounts 100 20)
                              eq_refl eq_refl)
                       (acct 1 7 100) eq_refl eq_refl eq_refl) 50%float eq_refl)
      as (w' & Hrun & _ & _ & Hb & Hlog & _).
    exists w'. split_and!; [exact Hrun|exact Hb|exact Hlog].
  - destruct (proj1 (proj2 (proj1 (deposit_credits_or_not_found sample_js
                                     (Sent.mkRequest 7 1 0 (Sent.VString "50")) (two_accounts 100 20)
                                     eq_refl eq_refl)
                              (acct 1 7 100) eq_refl eq_refl eq_refl) "50" eq_refl)
                eq_refl eq_refl)
      as (w' & Hrun & Hb & Hlog).
    exists w'. split_and!; [exact Hrun|exact Hb|exact Hlog].
  - destruct (proj2 (deposit_credits_or_not_found sample_js
                       (Sent.mkRequest 8 1 0 (Sent.VNumber 50)) (two_accounts 100 20)
                       eq_refl eq_refl))
      as (w' & Hrun & _ & Hacc & Hlog & _).
    + right. exists (acct 1 7 100). split; [reflexivity|discriminate].
    + exists w'. split_and!; [exact Hrun|exact Hacc|exact Hlog].
Defined.

(** 50 in and 50 out of account 1 (100): sent as numbers, 100 again; sent
    as the string "50", 10050 and then 10000. *)
Lemma deposit_then_withdraw_restores_witness :
  (exists a1 a2 w2,
     Sent.run_ops sample_js
       [Sent.Deposit (Sent.mkRequest 7 1 0 (Sent.VNumber 50));
        Sent.Withdraw (Sent.mkRequest 7 1 0 (Sent.VNumber 50))] (two_accounts 100 20) =
       ([successRes (AccountDoc a1); successRes (AccountDoc a2)], w2) /\
     balance_of 1 w2 = Some (Account.balance a2) /\
     Account.balance a2 = 100%float) /\
  (exists a1 a2 w2,
     Sent.run_ops sample_js
       [Sent.Deposit (Sent.mkRequest 7 1 0 (Sent.VString "50"));
        Sent.Withdraw (Sent.mkRequest 7 1 0 (Sent.VString "50"))] (two_accounts 100 20) =
       ([successRes (AccountDoc a1); successRes (AccountDoc a2)], w2) /\
     balance_of 1 w2 = Some 10000%float).
Proof.
  split.
  - destruct (proj1 (deposit_then_withdraw_restores sample_js
                       (Sent.mkRequest 7 1 0 (Sent.VNumber 50)) (two_accounts 100 20) (acct 1 7 100)
                       eq_refl eq_refl eq_refl eq_refl eq_refl eq_refl) 50%float eq_refl)
      as (a1 & a2 & w2 & Hrun & Hb & Hv & _).
    exists a1, a2, w2. split_and!; [exact Hrun|exact Hb|exact Hv].
  - exact (proj2 (deposit_then_withdraw_restores sample_js
                    (Sent.mkRequest 7 1 0 (Sent.VString "50")) (two_accounts 100 20) (acct 1 7 100)
                    eq_refl eq_refl eq_refl eq_refl eq_refl eq_refl)
             "50" eq_refl eq_refl eq_refl eq_refl eq_refl).
Defined.

(** 2^53 + 1 rounds to 2^53: in a transfer of 1 from account 1, which holds
    2^53 = 9007199254740992, to itself, the receiver's document is left as
    it was loaded, its [save] writes nothing, and what stays in the store
    is the sender's 2^53 - 1, not the balance plus the amount. *)
Lemma self_transfer_counterexample :
  status (fst (Sent.post_transfer sample_js (Sent.mkRequest 7 1 1 (Sent.VNumber 1))
                 (two_accounts 9007199254740992 0))) = 200 /\
  balance_of 1 (snd (Sent.post_transfer sample_js (Sent.mkRequest 7 1 1 (Sent.VNumber 1))
                       (two_accounts 9007199254740992 0)))
    = Some 9007199254740991%float /\
  (9007199254740992 + 1 =? 9007199254740992)%float = true /\
  (9007199254740991 <? 9007199254740992)%float = true.
Proof. split_and!; vm_compute; reflexivity. Qed.

(** 30 from account 1 (100) to itself: sent as a number, 130; sent as the
    string "30", 10030. *)
Lemma self_transfer_credits_witness :
  (exists w',
     Sent.post_transfer sample_js (Sent.mkRequest 7 1 1 (Sent.VNumber 30)) (two_accounts 100 20) =
       (successRes (TransferDocs (acct 1 7 70) (acct 1 7 130)), w') /\
     balance_of 1 w' = Some 130%float) /\
  (exists w',
     Sent.post_transfer sample_js (Sent.mkRequest 7 1 1 (Sent.VString "30")) (two_accounts 100 20) =
       (successRes (TransferDocs (acct 1 7 70) (acct 1 7 10030)), w') /\
     balance_of 1 w' = Some 10030%float).
Proof.
  split.
  - destruct (proj1 (self_transfer_credits sample_js (Sent.mkRequest 7 1 1 (Sent.VNumber 30))
                       (two_accounts 100 20) (acct 1 7 100)
                       eq_refl eq_refl eq_refl eq_refl eq_refl eq_refl eq_refl) 30%float eq_refl)
      as (w' & Hrun & Hb & _).
    exists w'. split; [exact Hrun|exact Hb].
  - exact (proj2 (self_transfer_credits sample_js (Sent.mkRequest 7 1 1 (Sent.VString "30"))
                    (two_accounts 100 20) (acct 1 7 100)
                    eq_refl eq_refl eq_refl eq_refl eq_refl eq_refl eq_refl)
             "30" eq_refl eq_refl eq_refl eq_refl).
Defined.

(* ===================================================================== *)
(** ** Sample runs of the other properties *)
(* ===================================================================== *)

(** User 8 asks to withdraw from account 1, which is user 7's: 404, and
    nothing has changed. *)
Lemma refused_request_writes_nothing_witness :
  accounts (snd (run_op (Withdraw (mkRequest 8 1 0 10)) (two_accounts 100 20)))
    = accounts (two_accounts 100 20) /\
  transactions (snd (run_op (Withdraw (mkRequest 8 1 0 10)) (two_accounts 100 20))) = [] /\
  users (snd (run_op (Withdraw (mkRequest 8 1 0 10)) (two_accounts 100 20))) = [].
Proof.
  apply (refused_request_writes_nothing (Withdraw (mkRequest 8 1 0 10)) (two_accounts 100 20)).
  right. vm_compute. reflexivity.
Defined.

(** A transfer from account 1 to account 2 leaves account 3 alone. *)
Lemma other_accounts_untouched_witness :
  accounts (snd (run_op (Transfer (mkRequest 7 1 2 75)) (three_accounts 150 20 5))) !! 3%N
    = Some (acct 3 9 5).
Proof.
  transitivity (accounts (three_accounts 150 20 5) !! 3%N); [|reflexivity].
  apply (other_accounts_untouched (Transfer (mkRequest 7 1 2 75)) (three_accounts 150 20 5) 3%N).
  - discriminate.
  - intros req Hreq. injection Hreq as <-. discriminate.
Defined.

(** User 7 tries to withdraw from account 2 and then transfers 75 into it:
    account 2, of user 8, has not gone below its 20. *)
Lemma strangers_cannot_debit_witness :
  exists a',
    accounts (snd (Sent.run_ops sample_js
                     [Sent.Withdraw (Sent.mkRequest 7 2 0 (Sent.VNumber 10));
                      Sent.Transfer (Sent.mkRequest 7 1 2 (Sent.VNumber 75))]
                     (two_accounts 150 20))) !! 2%N = Some a' /\
    Account.userId a' = 8%N /\
    (Account.balance a' <? 20)%float = false.
Proof.
  apply (strangers_cannot_debit sample_js
           [Sent.Withdraw (Sent.mkRequest 7 2 0 (Sent.VNumber 10));
            Sent.Transfer (Sent.mkRequest 7 1 2 (Sent.VNumber 75))]
           (two_accounts 150 20) 2%N (acct 2 8 20)).
  - reflexivity.
  - reflexivity.
  - repeat constructor; discriminate.
  - repeat constructor; eexists; reflexivity.
Defined.

Lemma withdraw_debits_witness :
  exists w',
    post_withdraw (mkRequest 7 1 0 30) (two_accounts 100 20)
      = (successRes (AccountDoc (acct 1 7 70)), w') /\
    accounts w' = <[1%N := acct 1 7 70]> (accounts (two_accounts 100 20)) /\
    transactions w' = [Transaction.mk 7 1 withdrawal 30] /\
    users w' = [].
Proof.
  apply (withdraw_debits (mkRequest 7 1 0 30) (two_accounts 100 20) (acct 1 7 100));
    reflexivity.
Defined.

Lemma withdraw_whole_balance_witness :
  status (fst (post_withdraw (mkRequest 7 1 0 100) (two_accounts 100 20))) = 200 /\
  accounts (snd (post_withdraw (mkRequest 7 1 0 100) (two_accounts 100 20))) !! 1%N
    = Some (acct 1 7 0).
Proof.
  apply (withdraw_whole_balance (mkRequest 7 1 0 100) (two_accounts 100 20) (acct 1 7 100));
    reflexivity.
Defined.

Lemma transfer_insufficient_funds_witness :
  exists w',
    post_transfer (mkRequest 7 1 2 500) (two_accounts 100 20)
      = (clientErrorRes (Message "Insufficient funds"), w') /\
    accounts w' = accounts (two_accounts 100 20) /\ transactions w' = [].
Proof.
  apply (transfer_insufficient_funds (mkRequest 7 1 2 500) (two_accounts 100 20)
           (acct 1 7 100) (acct 2 8 20)); reflexivity.
Defined.

(** The store fails at the fourth call, the receiver's save: 75 has left
    account 1 and reached nobody. *)
Lemma transfer_torn_between_saves_witness :
  exists w',
    post_transfer (mkRequest 7 1 2 75) (set_faults [false; false; false; true] (two_accounts 150 20))
      = (serverErrorRes (Message "Internal server error"), w') /\
    accounts w' !! 1%N = Some (acct 1 7 75) /\
    accounts w' !! 2%N = Some (acct 2 8 20) /\
    transactions w' = [].
Proof.
  apply (transfer_torn_between_saves (mkRequest 7 1 2 75)
           (set_faults [false; false; false; true] (two_accounts 150 20))
           (acct 1 7 150) (acct 2 8 20) []); try reflexivity.
  discriminate.
Defined.

Lemma transfer_legs_cancel_witness :
  exists debit credit,
    transactions (snd (post_transfer (mkRequest 7 1 2 75) (two_accounts 150 20)))
      = [debit; credit] /\
    Transaction.accountId debit = 1%N /\
    Transaction.accountId credit = 2%N /\
    (Transaction.amount debit + Transaction.amount credit)%float = 0%float.
Proof.
  apply (transfer_legs_cancel (mkRequest 7 1 2 75) (two_accounts 150 20)).
  vm_compute. reflexivity.
Defined.

(** Two withdrawals, of 80 and of 60, from the 100 of account 1, both
    looked up before either is saved: both answer 200, 140 has been paid
    out, and the account holds 40.  And two withdrawals, of 80 and of 1,
    from 2^54 = 18014398509481984: 2^54 - 1 rounds to 2^54, the second
    document is unchanged, its [save] writes nothing and the account holds
    2^54 - 80. *)
Lemma interleaved_withdrawals_lose_a_debit_witness :
  (exists w',
     withdraw_race (mkRequest 7 1 0 80) (mkRequest 7 1 0 60) (two_accounts 100 20) =
       ((successRes (AccountDoc (acct 1 7 20)), successRes (AccountDoc (acct 1 7 40))), w') /\
     accounts w' !! 1%N = Some (acct 1 7 40) /\
     transactions w' = [Transaction.mk 7 1 withdrawal 80; Transaction.mk 7 1 withdrawal 60]) /\
  (exists w',
     withdraw_race (mkRequest 7 1 0 80) (mkRequest 7 1 0 1) (two_accounts 18014398509481984 20) =
       ((successRes (AccountDoc (acct 1 7 18014398509481904)),
         successRes (AccountDoc (acct 1 7 18014398509481984))), w') /\
     accounts w' !! 1%N = Some (acct 1 7 18014398509481904) /\
     transactions w' = [Transaction.mk 7 1 withdrawal 80; Transaction.mk 7 1 withdrawal 1]).
Proof.
  split.
  - destruct (interleaved_withdrawals_lose_a_debit (mkRequest 7 1 0 80) (mkRequest 7 1 0 60)
                (two_accounts 100 20) (acct 1 7 100)
                eq_refl eq_refl eq_refl eq_refl eq_refl eq_refl eq_refl eq_refl eq_refl eq_refl eq_refl)
      as (w' & Hrun & Hacc & _ & _ & Hlog).
    exists w'. split_and!; [exact Hrun|exact Hacc|exact Hlog].
  - destruct (interleaved_withdrawals_lose_a_debit (mkRequest 7 1 0 80) (mkRequest 7 1 0 1)
                (two_accounts 18014398509481984 20) (acct 1 7 18014398509481984)
                eq_refl eq_refl eq_refl eq_refl eq_refl eq_refl eq_refl eq_refl eq_refl eq_refl eq_refl)
      as (w' & Hrun & Hacc & _ & _ & Hlog).
    exists w'. split_and!; [exact Hrun|exact Hacc|exact Hlog].
Defined.

Lemma balance_of_own_account_only_witness :
  fst (get_balance 7 1 (two_accounts 100 20)) = successData (BalanceOnly 100) /\
  fst (get_balance 8 1 (two_accounts 100 20)) = replied (notFoundRes (Message "Account not found")).
Proof.
  split.
  - apply (proj1 (balance_of_own_account_only 7%N 1%N (two_accounts 100 20) eq_refl) (acct 1 7 100));
      reflexivity.
  - apply (proj2 (balance_of_own_account_only 8%N 1%N (two_accounts 100 20) eq_refl)).
    right. exists (acct 1 7 100). split; [reflexivity | discriminate].
Defined.

(** 0.2 into account 1 (0.1), sent as a number; and "50" into account 1
    (100), sent as a string: "100" and "50" make "10050". *)
Lemma balance_after_deposit_witness :
  fst (get_balance 7 1
         (snd (Sent.post_deposit sample_js (Sent.mkRequest 7 1 0 (Sent.VNumber 0.2))
                 (two_accounts 0.1 0))))
    = successData (BalanceOnly 0.30000000000000004) /\
  fst (get_balance 7 1
         (snd (Sent.post_deposit sample_js (Sent.mkRequest 7 1 0 (Sent.VString "50"))
                 (two_accounts 100 0))))
    = successData (BalanceOnly 10050).
Proof.
  split.
  - apply (proj1 (balance_after_deposit sample_js (Sent.mkRequest 7 1 0 (Sent.VNumber 0.2))
                    (two_accounts 0.1 0) (acct 1 7 0.1) eq_refl eq_refl eq_refl eq_refl eq_refl)
             0.2%float eq_refl).
  - apply (proj2 (balance_after_deposit sample_js (Sent.mkRequest 7 1 0 (Sent.VString "50"))
                    (two_accounts 100 0) (acct 1 7 100) eq_refl eq_refl eq_refl eq_refl eq_refl)
             "50" eq_refl eq_refl).
Defined.

(** A log of three entries, two of them of account 1. *)
Lemma history_of_own_account_only_witness :
  (exists l,
     fst (get_transactions sample_createdAt 7 1 (mkQuery (Some "deposit") None None)
            (set_transactions [Transaction.mk 7 1 deposit 50; Transaction.mk 8 2 deposit 5;
                               Transaction.mk 7 1 withdrawal 10] (two_accounts 140 25)))
       = successData (TransactionList l) /\
     l `sublist_of` [Transaction.mk 7 1 deposit 50; Transaction.mk 7 1 withdrawal 10]) /\
  fst (get_transactions sample_createdAt 8 1 (mkQuery (Some "deposit") None None)
         (set_transactions [Transaction.mk 7 1 deposit 50; Transaction.mk 8 2 deposit 5;
                            Transaction.mk 7 1 withdrawal 10] (two_accounts 140 25)))
    = replied (notFoundRes (Message "Account not found")).
Proof.
  split.
  - destruct (proj1 (history_of_own_account_only sample_createdAt 7%N 1%N
                       (mkQuery (Some "deposit") None None)
                       (set_transactions [Transaction.mk 7 1 deposit 50; Transaction.mk 8 2 deposit 5;
                                          Transaction.mk 7 1 withdrawal 10] (two_accounts 140 25))
                       eq_refl) (acct 1 7 140) eq_refl eq_refl eq_refl) as (l & Hl & Hsub & _).
    exists l. split; [exact Hl | exact Hsub].
  - apply (proj2 (history_of_own_account_only sample_createdAt 8%N 1%N
                    (mkQuery (Some "deposit") None None)
                    (set_transactions [Transaction.mk 7 1 deposit 50; Transaction.mk 8 2 deposit 5;
                                       Transaction.mk 7 1 withdrawal 10] (two_accounts 140 25))
                    eq_refl)).
    right. exists (acct 1 7 140). split; [reflexivity | discriminate].
Defined.

(** [?type=refund] on a log with a deposit: 200 and an empty list. *)
Lemma history_of_impossible_filter_is_empty_witness :
  fst (get_transactions sample_createdAt 7 1 (mkQuery (Some "refund") None None)
         (set_transactions [Transaction.mk 7 1 deposit 50] (two_accounts 150 20)))
    = successData (TransactionList []) /\
  reply_status
    (fst (get_transactions sample_createdAt 7 1 (mkQuery (Some "refund") None None)
            (set_transactions [Transaction.mk 7 1 deposit 50] (two_accounts 150 20)))) = 200.
Proof.
  apply (history_of_impossible_filter_is_empty sample_createdAt 7%N 1%N
           (mkQuery (Some "refund") None None)
           (set_transactions [Transaction.mk 7 1 deposit 50] (two_accounts 150 20))
           (acct 1 7 150)); try reflexivity.
  left. exists "refund". split_and!; [reflexivity | discriminate..].
Defined.

Lemma history_after_transfer_witness :
  fst (get_transactions sample_createdAt 7 1 (mkQuery None None None)
         (snd (post_transfer (mkRequest 7 1 2 75) (two_accounts 150 20))))
    = successData (TransactionList [Transaction.mk 7 1 transfer (-75)]) /\
  fst (get_transactions sample_createdAt 8 2 (mkQuery None None None)
         (snd (post_transfer (mkRequest 7 1 2 75) (two_accounts 150 20))))
    = successData (TransactionList [Transaction.mk 8 2 transfer 75]).
Proof.
  apply (history_after_transfer sample_createdAt (mkRequest 7 1 2 75) (two_accounts 150 20)
           (acct 2 8 20)).
  - vm_compute. reflexivity.
  - discriminate.
  - reflexivity.
  - vm_compute. reflexivity.
Defined.

Lemma post_accounts_opens_witness :
  exists a w',
    post_accounts 3 7 (two_accounts 100 20) = (successRes (AccountDoc a), w') /\
    Account._id a = 3%N /\ Account.userId a = 7%N /\
    accounts w' !! 3%N = Some a /\
    (forall i, i <> 3%N -> accounts w' !! i = accounts (two_accounts 100 20) !! i) /\
    transactions w' = [] /\ users w' = [].
Proof.
  apply (post_accounts_opens 3%N 7%N (two_accounts 100 20)); reflexivity.
Defined.


Lemma get_accounts_lists_own_witness :
  exists l,
    fst (get_accounts 7 (two_accounts 100 20)) = successData (AccountList l) /\
    forall a, a ∈ l <->
      Account.userId a = 7%N /\ exists i, accounts (two_accounts 100 20) !! i = Some a.
Proof.
  apply (get_accounts_lists_own 7%N (two_accounts 100 20)). reflexivity.
Defined.

Lemma register_conflict_witness :
  exists w',
    post_register sample_isEmail sample_hash 123 (mkRegister "ann@example.com" "secret1")
      (mkWorld ∅ [] [User.mk "ann456" "ann@example.com" "$2b$10$other12"] [])
      = (conflictErrorRes (Message "Email already exists"), w') /\
    status (conflictErrorRes (Message "Email already exists")) = 409 /\
    users w' = [User.mk "ann456" "ann@example.com" "$2b$10$other12"].
Proof.
  apply (register_conflict sample_isEmail sample_hash 123 (mkRegister "ann@example.com" "secret1")
           (mkWorld ∅ [] [User.mk "ann456" "ann@example.com" "$2b$10$other12"] [])
           (User.mk "ann456" "ann@example.com" "$2b$10$other12")).
  - reflexivity.
  - reflexivity.
  - simpl. apply list_elem_of_here.
  - reflexivity.
Defined.

(** A password of five characters: 400, and no user. *)
Lemma refused_registration_creates_no_user_witness :
  users (snd (post_register sample_isEmail sample_hash 123 (mkRegister "ann@example.com" "secre")
                (mkWorld ∅ [] [] []))) = [] /\
  accounts (snd (post_register sample_isEmail sample_hash 123 (mkRegister "ann@example.com" "secre")
                   (mkWorld ∅ [] [] []))) = ∅ /\
  transactions (snd (post_register sample_isEmail sample_hash 123
                       (mkRegister "ann@example.com" "secre") (mkWorld ∅ [] [] []))) = [].
Proof.
  apply (refused_registration_creates_no_user sample_isEmail sample_hash 123
           (mkRegister "ann@example.com" "secre") (mkWorld ∅ [] [] [])).
  left. vm_compute. reflexivity.
Defined.

(** Nobody is called "bob"; "ann123" is there, with another password. *)
Lemma login_rejects_alike_witness :
  fst (post_login sample_compare sample_sign (mkLogin "bob" "secret1")
         (mkWorld ∅ [] [User.mk "ann123" "ann@example.com" "$2b$10$secret1"] []))
    = replied (unauthorizedRes (Message "Invalid username or password")) /\
  fst (post_login sample_compare sample_sign (mkLogin "ann123" "secret2")
         (mkWorld ∅ [] [User.mk "ann123" "ann@example.com" "$2b$10$secret1"] []))
    = replied (unauthorizedRes (Message "Invalid username or password")).
Proof.
  split.
  - apply (login_rejects_alike sample_compare sample_sign (mkLogin "bob" "secret1")
             (mkWorld ∅ [] [User.mk "ann123" "ann@example.com" "$2b$10$secret1"] [])
             eq_refl eq_refl).
    repeat constructor; discriminate.
  - apply (proj2 (proj2 (login_rejects_alike sample_compare sample_sign (mkLogin "ann123" "secret2")
                           (mkWorld ∅ [] [User.mk "ann123" "ann@example.com" "$2b$10$secret1"] [])
                           eq_refl eq_refl))
             [] (User.mk "ann123" "ann@example.com" "$2b$10$secret1") []);
      [reflexivity | constructor | reflexivity | reflexivity].
Defined.

Lemma login_issues_token_witness :
  fst (post_login sample_compare sample_sign (mkLogin "ann123" "secret1")
         (mkWorld ∅ [] [User.mk "zed900" "zed@example.com" "$2b$10$zzzzzzz";
                        User.mk "ann123" "ann@example.com" "$2b$10$secret1"] []))
    = successData (Token "token:ann123") /\
  reply_status
    (fst (post_login sample_compare sample_sign (mkLogin "ann123" "secret1")
            (mkWorld ∅ [] [User.mk "zed900" "zed@example.com" "$2b$10$zzzzzzz";
                           User.mk "ann123" "ann@example.com" "$2b$10$secret1"] []))) = 200.
Proof.
  apply (login_issues_token sample_compare sample_sign (mkLogin "ann123" "secret1")
           (mkWorld ∅ [] [User.mk "zed900" "zed@example.com" "$2b$10$zzzzzzz";
                          User.mk "ann123" "ann@example.com" "$2b$10$secret1"] [])
           [User.mk "zed900" "zed@example.com" "$2b$10$zzzzzzz"] []
           (User.mk "ann123" "ann@example.com" "$2b$10$secret1"));
    try reflexivity.
  repeat constructor; discriminate.
Defined.

Lemma registered_user_can_login_witness :
  status (fst (post_register sample_isEmail sample_hash 123
                 (mkRegister "ann@example.com" "secret1") (mkWorld ∅ [] [] []))) = 500 /\
  fst (post_login sample_compare sample_sign (mkLogin "ann123" "secret1")
         (snd (post_register sample_isEmail sample_hash 123
                 (mkRegister "ann@example.com" "secret1") (mkWorld ∅ [] [] []))))
    = successData (Token "token:ann123").
Proof.
  apply (registered_user_can_login sample_isEmail sample_hash sample_compare sample_sign 123
           (mkRegister "ann@example.com" "secret1") (mkWorld ∅ [] [] []));
    try reflexivity; constructor.
Defined.
